(** * Blood-pressure analysis service: a shallow embedding of its analytic core

    The service (FastAPI, package [app]) computes insights, a risk
    assessment, trend predictions, a health score, patterns, correlations and
    a forecast from a patient's stored readings, and memoises the results in
    [AnalysisCache].  This development embeds the functions of
    [app/utils/cache.py] and [app/services/*.py], the exception classes and
    the handler of [app/errors/handlers.py], the constraints of the response
    models of [app/models/responses.py] and the endpoints of
    [app/routers/analysis.py] as Rocq functions and proves properties of
    them.

    Conventions of the embedding.
    - Python [int] is [Z]; a Python [float] is idealised as an exact number:
      a rational ([Q]) where the code only adds, multiplies, divides and
      compares, so that the model runs, and a real ([R]) where it takes a
      square root ([math.sqrt], [np.std]).  The program computes in IEEE
      doubles, whose rounding can put a value on the other side of a
      threshold that the exact value meets or misses by less than the
      rounding error; the statements that depend on such a comparison keep
      a margin from the threshold.  Where the rounding changes more than
      that, the function is given once more in binary64, on Rocq's
      primitive floats ([Correlations64]).
    - A database row (a Python [dict]) is a record whose optional columns are
      [option] fields; [row.get(k)] is the field, [row[k]] the field of a
      column that is always present.
    - An exception is a value of [AnalysisError] carried by [Raise].
    - An f-string is the list of its pieces ([fpiece]): literal text and the
      values formatted into it.
    - A [datetime] is an instant counted in microseconds; a [date] is a day
      number. *)

From Stdlib Require Import Floats.
From stdpp Require Import base gmap strings.
From Stdlib Require Import ZArith QArith Qround Qminmax Qabs Reals Zfloor Lia Lra Lqa.
From Stdlib Require Import List String Ascii Bool DecimalString Sorted Permutation.
Import ListNotations.

Ltac rlra := Lra.lra.
Ltac rnra := Lra.nra.
Ltac qlra := Lqa.lra.

(* ================================================================== *)
(** * Part I: the embedding *)
(* ================================================================== *)

(** ** Python built-ins used by the service *)

Module Py.

Open Scope Z_scope.

(** [x or d] on an optional integer: [None] and [0] are falsy. *)
Definition or_Z (x : option Z) (d : Z) : Z :=
  match x with
  | Some v => if v =? 0 then d else v
  | None => d
  end.

(** [x or d] on an optional float. *)
Definition or_Q (x : option Q) (d : Q) : Q :=
  match x with
  | Some v => if Qeq_bool v 0 then d else v
  | None => d
  end.

(** Truth value of an optional number, as in [if r.get("pulse")]. *)
Definition truthy_Z (x : option Z) : bool :=
  match x with
  | Some v => negb (v =? 0)
  | None => false
  end.

(** Truth value of an optional string: [None] and the empty string are
    falsy. *)
Definition truthy_str (x : option string) : bool :=
  match x with
  | Some EmptyString => false
  | Some _ => true
  | None => false
  end.

(** [x == s] for an optional string column and a literal. *)
Definition str_is (x : option string) (s : string) : bool :=
  match x with
  | Some v => String.eqb v s
  | None => false
  end.

(** [sum(l) / len(l)] for integers, as a float. *)
Definition sumZ (l : list Z) : Z := fold_right Z.add 0 l.

Definition sumQ (l : list Q) : Q := fold_right Qplus (0#1)%Q l.

Definition lenQ {A} (l : list A) : Q := inject_Z (Z.of_nat (List.length l)).

Definition meanZ (l : list Z) : Q := (inject_Z (sumZ l) / lenQ l)%Q.

Definition meanQ (l : list Q) : Q := (sumQ l / lenQ l)%Q.

(** [max(l)] and [min(l)] of a list of integers ([0] stands for the
    [ValueError] of an empty list, which no caller reaches). *)
Definition maxZ (l : list Z) : Z :=
  match l with
  | [] => 0
  | x :: t => fold_left Z.max t x
  end.

Definition minZ (l : list Z) : Z :=
  match l with
  | [] => 0
  | x :: t => fold_left Z.min t x
  end.

(** [sum(1 for r in l if p(r))]. *)
Definition count {A} (p : A -> bool) (l : list A) : Z :=
  Z.of_nat (List.length (filter p l)).

(** [round(x)]: to the nearest integer, ties to the even one. *)
Definition round (x : Q) : Z :=
  let f := Qfloor x in
  match Qcompare (x - inject_Z f) (1#2) with
  | Lt => f
  | Gt => f + 1
  | Eq => if Z.even f then f else f + 1
  end.

(** [round(x, 1)]: one decimal. *)
Definition round1 (x : Q) : Q := (inject_Z (round (x * 10)) / 10)%Q.

(** Comparisons of floats, as booleans. *)
Definition leQ (x y : Q) : bool := Qle_bool x y.
Definition ltQ (x y : Q) : bool := negb (Qle_bool y x).
Definition geQ (x y : Q) : bool := Qle_bool y x.
Definition gtQ (x y : Q) : bool := negb (Qle_bool x y).

(** [max(lo, min(hi, x))]. *)
Definition clampQ (lo hi x : Q) : Q := Qmax lo (Qmin hi x).

Definition clampZ (lo hi x : Z) : Z := Z.max lo (Z.min hi x).

(** [int(x)]: truncation toward zero. *)
Definition int (x : Q) : Z := Qnum x ÷ Zpos (Qden x).

(** [l[-k:]]. *)
Definition lastn {A} (k : nat) (l : list A) : list A :=
  skipn (List.length l - k) l.

(** [needle in s] for strings. *)
Fixpoint str_in (needle s : string) : bool :=
  if String.prefix needle s then true
  else match s with
       | EmptyString => false
       | String _ s' => str_in needle s'
       end.

(** [s.lower()] on the ASCII letters. *)
Definition lower_ascii (c : ascii) : ascii :=
  let n := nat_of_ascii c in
  if ((65 <=? n)%nat && (n <=? 90)%nat)%bool then ascii_of_nat (n + 32) else c.

Fixpoint lower (s : string) : string :=
  match s with
  | EmptyString => EmptyString
  | String c s' => String (lower_ascii c) (lower s')
  end.

(** [str(n)] for an integer. *)
Definition str_of_Z (n : Z) : string := NilZero.string_of_int (Z.to_int n).

(** A stable sort, ascending for the order [le]: [sorted] and [list.sort].
    Python's sort is stable, and a stable sort has one possible result, so
    insertion from the right is a faithful model of it. *)
Section StableSort.
Context {A : Type} (le : A -> A -> bool).

Fixpoint insert_le (x : A) (l : list A) : list A :=
  match l with
  | [] => [x]
  | y :: t => if le x y then x :: y :: t else y :: insert_le x t
  end.

Definition sort_le (l : list A) : list A := fold_right insert_le [] l.

End StableSort.

(** [l.sort(key=f)] for an integer key. *)
Definition sort_by {A} (key : A -> Z) (l : list A) : list A :=
  sort_le (fun x y => key x <=? key y) l.

(** Pieces of an f-string. *)
Inductive fpiece : Type :=
| Lit (s : string)          (* literal text *)
| FInt (n : Z)              (* {n} for an int *)
| FNum (x : Q)              (* {x} for a number, default format *)
| F0 (x : Q)                (* {x:.0f} *)
| F1 (x : Q)                (* {x:.1f} *)
| FStr (s : string).        (* {s} for a string *)

Definition fstring : Type := list fpiece.

End Py.

(** ** [app/config.py] *)

Record Settings : Type := {
  cache_ttl : Z;
  cache_max_size : Z;
  min_readings_for_analysis : Z;
  default_analysis_days : Z
}.

(** The defaults of [class Settings]. *)
Definition default_settings : Settings := {|
  cache_ttl := 1800;
  cache_max_size := 100;
  min_readings_for_analysis := 7;
  default_analysis_days := 30
|}.

(** ** [app/errors/handlers.py], and the built-in exceptions

    The exceptions that the code raises: the three classes of
    [handlers.py] that the services use, and four built-in exceptions.
    [AttributeError] is the one of [None.get], [TypeError] the one of the
    subtraction of an offset-naive and an offset-aware [datetime]. *)

Inductive AnalysisError : Type :=
| PatientNotFoundError (patient_id : string)
| InsufficientDataError (message : Py.fstring) (details : list (string * Z))
| AnalysisFailedError (message : Py.fstring)
| ZeroDivisionError
| IndexError
| AttributeError
| TypeError.

Inductive result (A : Type) : Type :=
| Ok (a : A)
| Raise (e : AnalysisError).

Arguments Ok {A} a.
Arguments Raise {A} e.

Definition bind {A B} (m : result A) (k : A -> result B) : result B :=
  match m with
  | Ok a => k a
  | Raise e => Raise e
  end.

(** ** [hashlib.md5] (RFC 1321), on bytes given as integers below 256 *)

Module MD5.

Open Scope Z_scope.

Definition w32 (x : Z) : Z := x mod 2 ^ 32.

Definition rotl32 (x c : Z) : Z :=
  Z.lor (w32 (Z.shiftl x c)) (Z.shiftr x (32 - c)).

Definition not32 (x : Z) : Z := Z.lxor x 0xffffffff.

Definition K : list Z :=
  [ 0xd76aa478; 0xe8c7b756; 0x242070db; 0xc1bdceee;
    0xf57c0faf; 0x4787c62a; 0xa8304613; 0xfd469501;
    0x698098d8; 0x8b44f7af; 0xffff5bb1; 0x895cd7be;
    0x6b901122; 0xfd987193; 0xa679438e; 0x49b40821;
    0xf61e2562; 0xc040b340; 0x265e5a51; 0xe9b6c7aa;
    0xd62f105d; 0x02441453; 0xd8a1e681; 0xe7d3fbc8;
    0x21e1cde6; 0xc33707d6; 0xf4d50d87; 0x455a14ed;
    0xa9e3e905; 0xfcefa3f8; 0x676f02d9; 0x8d2a4c8a;
    0xfffa3942; 0x8771f681; 0x6d9d6122; 0xfde5380c;
    0xa4beea44; 0x4bdecfa9; 0xf6bb4b60; 0xbebfbc70;
    0x289b7ec6; 0xeaa127fa; 0xd4ef3085; 0x04881d05;
    0xd9d4d039; 0xe6db99e5; 0x1fa27cf8; 0xc4ac5665;
    0xf4292244; 0x432aff97; 0xab9423a7; 0xfc93a039;
    0x655b59c3; 0x8f0ccc92; 0xffeff47d; 0x85845dd1;
    0x6fa87e4f; 0xfe2ce6e0; 0xa3014314; 0x4e0811a1;
    0xf7537e82; 0xbd3af235; 0x2ad7d2bb; 0xeb86d391 ].

Definition S : list Z :=
  [ 7; 12; 17; 22; 7; 12; 17; 22; 7; 12; 17; 22; 7; 12; 17; 22;
    5; 9; 14; 20; 5; 9; 14; 20; 5; 9; 14; 20; 5; 9; 14; 20;
    4; 11; 16; 23; 4; 11; 16; 23; 4; 11; 16; 23; 4; 11; 16; 23;
    6; 10; 15; 21; 6; 10; 15; 21; 6; 10; 15; 21; 6; 10; 15; 21 ].

(** The four chaining words A, B, C, D. *)
Record state : Type := { sA : Z; sB : Z; sC : Z; sD : Z }.

Definition init : state :=
  {| sA := 0x67452301; sB := 0xefcdab89; sC := 0x98badcfe; sD := 0x10325476 |}.

(** One of the 64 operations on the 16 words [M] of a block. *)
Definition step (M : list Z) (st : state) (i : nat) : state :=
  let '(Build_state a b c d) := st in
  let iz := Z.of_nat i in
  let '(f, g) :=
    if iz <? 16 then (Z.lor (Z.land b c) (Z.land (not32 b) d), iz)
    else if iz <? 32 then
      (Z.lor (Z.land d b) (Z.land (not32 d) c), (5 * iz + 1) mod 16)
    else if iz <? 48 then (Z.lxor b (Z.lxor c d), (3 * iz + 5) mod 16)
    else (Z.lxor c (Z.lor b (not32 d)), (7 * iz) mod 16) in
  let f' := w32 (f + a + nth i K 0 + nth (Z.to_nat g) M 0) in
  {| sA := d; sD := c; sC := b; sB := w32 (b + rotl32 f' (nth i S 0)) |}.

(** Little-endian 32-bit words of a block of bytes. *)
Fixpoint words (n : nat) (bs : list Z) : list Z :=
  match n with
  | O => []
  | Datatypes.S n' =>
      match bs with
      | b0 :: b1 :: b2 :: b3 :: rest =>
          (b0 + 256 * b1 + 65536 * b2 + 16777216 * b3) :: words n' rest
      | _ => []
      end
  end.

Definition block (st : state) (bs : list Z) : state :=
  let r := fold_left (step (words 16 bs)) (seq 0 64) st in
  {| sA := w32 (sA st + sA r); sB := w32 (sB st + sB r);
     sC := w32 (sC st + sC r); sD := w32 (sD st + sD r) |}.

Fixpoint blocks (n : nat) (st : state) (bs : list Z) : state :=
  match n with
  | O => st
  | Datatypes.S n' => blocks n' (block st (firstn 64 bs)) (skipn 64 bs)
  end.

Definition le_bytes (n : nat) (x : Z) : list Z :=
  map (fun k => (x / 256 ^ Z.of_nat k) mod 256) (seq 0 n).

(** The message, a 1 bit, zeros up to 56 modulo 64, and the bit length. *)
Definition pad (msg : list Z) : list Z :=
  let len := Z.of_nat (List.length msg) in
  let zeros := Z.to_nat ((55 - len) mod 64) in
  msg ++ [128] ++ repeat 0 zeros ++ le_bytes 8 ((8 * len) mod 2 ^ 64).

Definition digest (msg : list Z) : list Z :=
  let p := pad msg in
  let st := blocks (List.length p / 64) init p in
  le_bytes 4 (sA st) ++ le_bytes 4 (sB st) ++ le_bytes 4 (sC st)
    ++ le_bytes 4 (sD st).

Definition hexchar (n : Z) : ascii :=
  match n with
  | 0 => "0" | 1 => "1" | 2 => "2" | 3 => "3" | 4 => "4" | 5 => "5"
  | 6 => "6" | 7 => "7" | 8 => "8" | 9 => "9" | 10 => "a" | 11 => "b"
  | 12 => "c" | 13 => "d" | 14 => "e" | _ => "f"
  end%char.

Fixpoint hex (bs : list Z) : string :=
  match bs with
  | [] => EmptyString
  | b :: t => String (hexchar (b / 16)) (String (hexchar (b mod 16)) (hex t))
  end.

Definition bytes_of_string (s : string) : list Z :=
  map (fun c => Z.of_nat (nat_of_ascii c)) (list_ascii_of_string s).

(** [hashlib.md5(s.encode()).hexdigest()] for an ASCII string [s]. *)
Definition hexdigest (s : string) : string := hex (digest (bytes_of_string s)).

End MD5.

(** ** [json.dumps(d, sort_keys=True)] for a flat dictionary

    The cache only serialises dictionaries whose values are strings and
    integers.  A character is a code point below 256. *)

Module Json.

Open Scope string_scope.
Open Scope Z_scope.

Inductive jval : Type :=
| JStr (s : string)
| JInt (n : Z).

(** A [dict] with string keys, in insertion order. *)
Definition dict : Type := list (string * jval).

(** [d[k] = v]: replaces the value of an existing key, else appends. *)
Fixpoint dict_set (k : string) (v : jval) (d : dict) : dict :=
  match d with
  | [] => [(k, v)]
  | (k', v') :: t =>
      if String.eqb k k' then (k, v) :: t else (k', v') :: dict_set k v t
  end.

(** [{**d, **kw}]. *)
Definition dict_update (d kw : dict) : dict :=
  fold_left (fun acc kv => dict_set (fst kv) (snd kv) acc) kw d.

Definition dquote : ascii := "034"%char.
Definition backslash : ascii := "092"%char.

Definition hex4 (n : Z) : string :=
  String (MD5.hexchar (n / 4096 mod 16))
    (String (MD5.hexchar (n / 256 mod 16))
       (String (MD5.hexchar (n / 16 mod 16))
          (String (MD5.hexchar (n mod 16)) EmptyString))).

(** The escapes of [json.encoder.py_encode_basestring_ascii]. *)
Definition escape_char (c : ascii) : string :=
  let n := Z.of_nat (nat_of_ascii c) in
  if n =? 34 then String backslash (String dquote EmptyString)
  else if n =? 92 then String backslash (String backslash EmptyString)
  else if n =? 10 then String backslash "n"
  else if n =? 13 then String backslash "r"
  else if n =? 9 then String backslash "t"
  else if n =? 8 then String backslash "b"
  else if n =? 12 then String backslash "f"
  else if ((n <? 32) || (126 <? n))%bool then String backslash ("u" ++ hex4 n)
  else String c EmptyString.

Fixpoint escape (s : string) : string :=
  match s with
  | EmptyString => EmptyString
  | String c s' => escape_char c ++ escape s'
  end.

Definition dumps_str (s : string) : string :=
  String dquote (escape s) ++ String dquote EmptyString.

Definition dumps_val (v : jval) : string :=
  match v with
  | JStr s => dumps_str s
  | JInt n => Py.str_of_Z n
  end.

Definition dumps_item (kv : string * jval) : string :=
  dumps_str (fst kv) ++ ": " ++ dumps_val (snd kv).

Fixpoint join_items (l : list (string * jval)) : string :=
  match l with
  | [] => EmptyString
  | [kv] => dumps_item kv
  | kv :: t => dumps_item kv ++ ", " ++ join_items t
  end.

Definition dumps_sorted (d : dict) : string :=
  "{" ++ join_items (Py.sort_le (fun a b => String.leb (fst a) (fst b)) d) ++ "}".

End Json.

(** ** [app/utils/cache.py]: [class AnalysisCache]

    The class attribute [_cache] is [None] until the first [set] (or the
    first instantiation), then a [cachetools.TTLCache].  The model keeps the
    live entries of that cache as a finite map from key to value; expiry
    after [cache_ttl] seconds and eviction beyond [cache_max_size] entries
    belong to [cachetools] and only ever drop entries, they are not part of
    the model. *)

Module AnalysisCache.

Section WithValue.

Context {V : Type}.

Definition _make_key (patient_id analysis_type : string) (kwargs : Json.dict)
  : string :=
  let key_data :=
    Json.dict_update
      [("patient_id"%string, Json.JStr patient_id);
       ("type"%string, Json.JStr analysis_type)] kwargs in
  let key_string := Json.dumps_sorted key_data in
  MD5.hexdigest key_string.

Definition get (_cache : option (gmap string V))
    (patient_id analysis_type : string) (kwargs : Json.dict) : option V :=
  match _cache with
  | None => None
  | Some c => c !! _make_key patient_id analysis_type kwargs
  end.

Definition set (_cache : option (gmap string V))
    (patient_id analysis_type : string) (value : V) (kwargs : Json.dict)
  : option (gmap string V) :=
  let c := match _cache with None => ∅ | Some c => c end in
  Some (<[_make_key patient_id analysis_type kwargs := value]> c).

(** [keys_to_delete] are the keys [key] with [patient_id in str(key)];
    popping them leaves the entries whose key does not contain the id. *)
Definition invalidate (_cache : option (gmap string V)) (patient_id : string)
  : option (gmap string V) :=
  match _cache with
  | None => None
  | Some c =>
      Some (base.filter
              (fun kv : string * V => Py.str_in patient_id (fst kv) = false) c)
  end.

Definition clear (_cache : option (gmap string V)) : option (gmap string V) :=
  match _cache with
  | None => None
  | Some _ => Some ∅
  end.

End WithValue.

End AnalysisCache.

(** ** Rows of the data store ([app/utils/database.py])

    Columns the services read.  [measurement_date] is the instant of the
    measurement in microseconds; [entry_date] is a calendar day. *)

Record Reading : Type := {
  systolic : Z;
  diastolic : Z;
  pulse : option Z;
  measurement_date : Z;
  time_of_day : option string;
  position : option string
}.

Record Medication : Type := {
  med_name : string;
  active : option bool;          (* [None]: the key is absent *)
  adherence_rate : option Q
}.

Record LifestyleEntry : Type := {
  entry_date : option Z;
  physical_activity : option Q;
  diet_quality : option string;
  salt_intake : option string;
  sleep_duration : option Q;
  sleep_quality : option string;
  stress_level : option string;
  water_intake : option Q;
  weight : option Q;
  alcohol_consumption : option Q;
  smoking_status : option string;
  sodium_mg : option Q;
  caffeine_intake : option Q
}.

(** [patient["users"]], the user record that [fetch_patient] joins to the
    patient row ([users(name, email, age)]): the row has no such key (as a
    dictionary of the test suite may), or the key holds [None] (no user is
    joined), or it holds the record, whose [age] is optional. *)
Inductive Users : Type :=
| NoUsersKey
| UsersNone
| UsersRow (age : option Z).

(** A patient profile. *)
Record Patient : Type := {
  users : Users;
  medical_history : option string
}.

(** [class Database]: what each query returns for a patient id and a window
    of days.  Readings and lifestyle entries come most recent first. *)
Record Database : Type := {
  fetch_patient : string -> option Patient;
  fetch_blood_pressure_readings : string -> Z -> list Reading;
  fetch_medications : string -> list Medication;
  fetch_lifestyle_entries : string -> Z -> list LifestyleEntry
}.

(** [m.get("active", True)]. *)
Definition is_active (m : Medication) : bool :=
  match active m with
  | Some b => b
  | None => true
  end.

(** ** [app/services/risk_assessment.py] *)

Module RiskAssessment.

Import Py.
Open Scope string_scope.
Open Scope Z_scope.

Record RiskFactor : Type := {
  name : string;
  impact : string;
  description : fstring
}.

Record RiskAssessment : Type := {
  overallRisk : string;
  riskScore : Z;
  factors : list RiskFactor;
  recommendations : list string
}.

(** The three accumulators of [calculate_risk_assessment]. *)
Record acc : Type := {
  risk_score : Z;
  factors_ : list RiskFactor;
  recommendations_ : list string
}.

(** [risk_score += n], then the [factors.append] and
    [recommendations.append] calls of one branch. *)
Definition add (n : Z) (fs : list RiskFactor) (rs : list string) (a : acc)
  : acc :=
  {| risk_score := risk_score a + n;
     factors_ := factors_ a ++ fs;
     recommendations_ := recommendations_ a ++ rs |}.

Definition is_high (r : Reading) : bool :=
  (140 <=? systolic r) || (90 <=? diastolic r).

Definition is_critical (r : Reading) : bool :=
  (180 <=? systolic r) || (120 <=? diastolic r).

(** 1. Blood pressure analysis. *)
Definition bp_analysis (readings : list Reading) (a : acc) : acc :=
  match readings with
  | _ :: _ =>
      let recent_readings := firstn 14 readings in
      let avg_systolic := meanZ (map systolic recent_readings) in
      let avg_diastolic := meanZ (map diastolic recent_readings) in
      let high_count := count is_high recent_readings in
      let critical_count := count is_critical recent_readings in
      let a :=
        if 0 <? critical_count then
          add 25
            [{| name := "Critical BP Episodes"; impact := "high";
                description :=
                  [FInt critical_count;
                   Lit " reading(s) in hypertensive crisis range"] |}]
            ["Seek immediate medical evaluation for critical readings"] a
        else a in
      let high_percentage :=
        (inject_Z high_count / lenQ recent_readings * 100)%Q in
      let a :=
        if geQ high_percentage 70 then
          add 20
            [{| name := "Consistently Elevated BP"; impact := "high";
                description :=
                  [F0 high_percentage; Lit "% of readings are elevated"] |}]
            ["Review current medication effectiveness with provider"] a
        else if geQ high_percentage 40 then
          add 12
            [{| name := "Frequently Elevated BP"; impact := "moderate";
                description :=
                  [F0 high_percentage; Lit "% of readings are elevated"] |}]
            ["Monitor blood pressure more frequently"] a
        else if geQ high_percentage 20 then
          add 5
            [{| name := "Occasionally Elevated BP"; impact := "low";
                description :=
                  [F0 high_percentage; Lit "% of readings are elevated"] |}]
            [] a
        else a in
      let a :=
        if geQ avg_systolic 160 || geQ avg_diastolic 100 then add 10 [] [] a
        else if geQ avg_systolic 140 || geQ avg_diastolic 90 then add 6 [] [] a
        else if geQ avg_systolic 130 || geQ avg_diastolic 85 then add 3 [] [] a
        else a in
      let systolic_values := map systolic recent_readings in
      let variability := maxZ systolic_values - minZ systolic_values in
      if 40 <? variability then
        add 8
          [{| name := "Blood Pressure Variability"; impact := "high";
              description :=
                [Lit "Readings vary by "; FInt variability;
                 Lit " mmHg between measurements"] |}]
          ["Maintain consistent measurement times and conditions"] a
      else if 25 <? variability then
        add 4
          [{| name := "Blood Pressure Variability"; impact := "moderate";
              description :=
                [Lit "Readings vary by "; FInt variability;
                 Lit " mmHg between measurements"] |}]
          [] a
      else a
  | [] =>
      add 10
        [{| name := "Insufficient BP Data"; impact := "moderate";
            description :=
              [Lit "No recent blood pressure readings available"] |}]
        ["Start monitoring blood pressure daily"] a
  end.

(** 2. Medication adherence. *)
Definition medication_analysis (medications : list Medication) (a : acc)
  : acc :=
  match filter is_active medications with
  | [] => a
  | active_meds =>
      let adherence_rates :=
        map (fun m => or_Q (adherence_rate m) 100) active_meds in
      let avg_adherence := meanQ adherence_rates in
      if ltQ avg_adherence 70 then
        add 20
          [{| name := "Poor Medication Adherence"; impact := "high";
              description :=
                [Lit "Average adherence rate is "; F0 avg_adherence;
                 Lit "%"] |}]
          ["Set up medication reminders and discuss barriers with your doctor"]
          a
      else if ltQ avg_adherence 85 then
        add 12
          [{| name := "Medication Adherence"; impact := "moderate";
              description :=
                [Lit "Missed doses detected (adherence: "; F0 avg_adherence;
                 Lit "%)"] |}]
          ["Use a pill organizer or reminder app"] a
      else if geQ avg_adherence 95 then
        add 0
          [{| name := "Medication Adherence"; impact := "low";
              description :=
                [Lit "Excellent adherence rate ("; F0 avg_adherence;
                 Lit "%)"] |}]
          [] a
      else a
  end.

(** 3. Lifestyle factors, read from the most recent entry. *)
Definition lifestyle_analysis (lifestyle : list LifestyleEntry) (a : acc)
  : acc :=
  match lifestyle with
  | [] => a
  | recent_lifestyle :: _ =>
      (* Salt intake *)
      let a :=
        if str_is (salt_intake recent_lifestyle) "high" then
          add 8
            [{| name := "High Sodium Diet"; impact := "high";
                description :=
                  [Lit "Reported high salt intake increases BP"] |}]
            ["Reduce sodium intake to less than 2,300mg daily"] a
        else if str_is (salt_intake recent_lifestyle) "moderate" then
          add 3 [] [] a
        else a in
      (* Physical activity *)
      let activity := or_Q (physical_activity recent_lifestyle) 0 in
      let a :=
        if ltQ activity 15 then
          add 8
            [{| name := "Low Physical Activity"; impact := "high";
                description :=
                  [Lit "Only "; FNum activity;
                   Lit " minutes of activity logged"] |}]
            ["Aim for 30 minutes of moderate exercise 5 days a week"] a
        else if ltQ activity 30 then
          add 4
            [{| name := "Physical Activity"; impact := "moderate";
                description :=
                  [FNum activity;
                   Lit " minutes of activity - could be increased"] |}]
            [] a
        else a in
      (* Stress level *)
      let stress := stress_level recent_lifestyle in
      let a :=
        if str_is stress "severe" then
          add 8
            [{| name := "Severe Stress"; impact := "high";
                description :=
                  [Lit "High stress levels can significantly elevate BP"] |}]
            ["Practice stress management: meditation, deep breathing, or yoga"]
            a
        else if str_is stress "high" then
          add 5
            [{| name := "High Stress"; impact := "moderate";
                description :=
                  [Lit "Stress can contribute to elevated blood pressure"] |}]
            [] a
        else a in
      (* Sleep *)
      let sleep := or_Q (sleep_duration recent_lifestyle) 7 in
      let a :=
        if ltQ sleep 5 then
          add 6
            [{| name := "Sleep Deprivation"; impact := "high";
                description :=
                  [Lit "Only "; F1 sleep; Lit " hours of sleep"] |}]
            ["Prioritize getting 7-9 hours of quality sleep"] a
        else if ltQ sleep 6 then
          add 3
            [{| name := "Insufficient Sleep"; impact := "moderate";
                description :=
                  [F1 sleep; Lit " hours of sleep - below recommended"] |}]
            [] a
        else a in
      (* Alcohol *)
      let alcohol := or_Q (alcohol_consumption recent_lifestyle) 0 in
      let a :=
        if gtQ alcohol 2 then
          add 5
            [{| name := "Alcohol Consumption"; impact := "moderate";
                description :=
                  [FNum alcohol; Lit " drinks - above recommended limit"] |}]
            ["Limit alcohol to 1-2 drinks per day maximum"] a
        else a in
      (* Smoking *)
      if str_is (smoking_status recent_lifestyle) "current" then
        add 10
          [{| name := "Smoking"; impact := "high";
              description :=
                [Lit "Smoking significantly increases cardiovascular risk"] |}]
          ["Consider smoking cessation programs"] a
      else a
  end.

(** [patient.get("users", {}).get("age")]: the default is for a missing
    key only, and [None] has no [get]. *)
Definition users_age (patient : Patient) : result (option Z) :=
  match users patient with
  | NoUsersKey => Ok None
  | UsersNone => Raise AttributeError
  | UsersRow age => Ok age
  end.

(** 4. Patient demographics and medical history, from [or 0] on. *)
Definition demographics_analysis (age : option Z) (patient : Patient)
    (a : acc) : acc :=
  let age := or_Z age 0 in
  let a :=
    if 65 <=? age then
      add 10
        [{| name := "Age"; impact := "moderate";
            description :=
              [Lit "Age "; FInt age;
               Lit " is a non-modifiable risk factor"] |}]
        [] a
    else if 55 <=? age then add 6 [] [] a
    else if 45 <=? age then add 3 [] [] a
    else a in
  let medical_history :=
    lower (match medical_history patient with Some s => s | None => "" end) in
  let a :=
    if str_in "diabetes" medical_history then
      add 10
        [{| name := "Diabetes"; impact := "high";
            description := [Lit "Diabetes increases cardiovascular risk"] |}]
        ["Maintain good blood sugar control"] a
    else a in
  let a :=
    if str_in "kidney" medical_history || str_in "renal" medical_history then
      add 10
        [{| name := "Kidney Disease"; impact := "high";
            description :=
              [Lit "Kidney function affects blood pressure regulation"] |}]
        [] a
    else a in
  if str_in "heart" medical_history || str_in "cardiac" medical_history then
    add 8
      [{| name := "Heart Condition"; impact := "high";
          description := [Lit "Existing heart condition increases risk"] |}]
      [] a
  else a.

(** The overall level: the cap at 100, the label with its recommendation
    inserted at the front, and the five first recommendations. *)
Definition overall (a : acc) : RiskAssessment :=
  let risk_score := Z.min 100 (risk_score a) in
  let '(overall_risk, top) :=
    if 70 <=? risk_score then
      ("critical", "Schedule urgent appointment with your healthcare provider")
    else if 50 <=? risk_score then
      ("high", "Schedule follow-up appointment within 1-2 weeks")
    else if 30 <=? risk_score then
      ("moderate", "Continue regular monitoring and follow treatment plan")
    else ("low", "Maintain your healthy lifestyle habits") in
  let recommendations := firstn 5 (top :: recommendations_ a) in
  {| overallRisk := overall_risk;
     riskScore := risk_score;
     factors := factors_ a;
     recommendations := recommendations |}.

Definition calculate_risk_assessment (db : Database) (settings : Settings)
    (patient_id : string) (days : Z) : result RiskAssessment :=
  match fetch_patient db patient_id with
  | None => Raise (PatientNotFoundError patient_id)
  | Some patient =>
      let readings := fetch_blood_pressure_readings db patient_id days in
      let medications := fetch_medications db patient_id in
      let lifestyle := fetch_lifestyle_entries db patient_id days in
      let a := {| risk_score := 0; factors_ := []; recommendations_ := [] |} in
      let a := bp_analysis readings a in
      let a := medication_analysis medications a in
      let a := lifestyle_analysis lifestyle a in
      bind (users_age patient) (fun age =>
      let a := demographics_analysis age patient a in
      Ok (overall a))
  end.

End RiskAssessment.

(** ** [app/services/health_score.py] *)

Module HealthScore.

Import Py.
Open Scope string_scope.
Open Scope list_scope.
Open Scope Z_scope.

Record HealthCategory : Type := {
  name : string;
  score : Z;
  status : string
}.

Record HealthScore : Type := {
  overall : Z;
  categories : list HealthCategory;
  improvementAreas : list string
}.

Definition _score_to_status (score : Z) : string :=
  if 85 <=? score then "excellent"
  else if 70 <=? score then "good"
  else if 50 <=? score then "fair"
  else "poor".

(** The counters [normal], [elevated], [high], [critical] of the loop over
    the recent readings. *)
Record bands : Type := { normal : Z; elevated : Z; high : Z; critical : Z }.

Definition classify (b : bands) (r : Reading) : bands :=
  let sys := systolic r in
  let dia := diastolic r in
  if (180 <=? sys) || (120 <=? dia) then
    {| normal := normal b; elevated := elevated b; high := high b;
       critical := critical b + 1 |}
  else if (140 <=? sys) || (90 <=? dia) then
    {| normal := normal b; elevated := elevated b; high := high b + 1;
       critical := critical b |}
  else if (130 <=? sys) || (85 <=? dia) then
    {| normal := normal b; elevated := elevated b + 1; high := high b;
       critical := critical b |}
  else
    {| normal := normal b + 1; elevated := elevated b; high := high b;
       critical := critical b |}.

Definition _calculate_bp_score (readings : list Reading) : Z :=
  match readings with
  | [] => 50
  | _ =>
      let recent := firstn 14 readings in
      let b :=
        fold_left classify recent
          {| normal := 0; elevated := 0; high := 0; critical := 0 |} in
      let total := lenQ recent in
      let score :=
        (inject_Z (normal b) / total * 100
         + inject_Z (elevated b) / total * 60
         + inject_Z (high b) / total * 30
         + inject_Z (critical b) / total * 0)%Q in
      let systolic_values := map systolic recent in
      let variability := maxZ systolic_values - minZ systolic_values in
      let score :=
        if variability <? 15 then (score + 5)%Q
        else if 30 <? variability then (score - 10)%Q
        else score in
      Z.max 0 (Z.min 100 (round score))
  end.

(** [rate for med in active_meds if rate is not None]. *)
Fixpoint present_rates (meds : list Medication) : list Q :=
  match meds with
  | [] => []
  | m :: t =>
      match adherence_rate m with
      | Some rate => rate :: present_rates t
      | None => present_rates t
      end
  end.

Definition _calculate_medication_score (medications : list Medication) : Z :=
  match medications with
  | [] => 85
  | _ =>
      match filter is_active medications with
      | [] => 85
      | active_meds =>
          match present_rates active_meds with
          | [] => 75
          | adherence_rates =>
              let avg_adherence := meanQ adherence_rates in
              Z.max 0 (Z.min 100 (round avg_adherence))
          end
      end
  end.

Definition lifestyle_day_score (entry : LifestyleEntry) : Z :=
  let day_score := 50 in
  let activity := or_Q (physical_activity entry) 0 in
  let day_score :=
    if geQ activity 30 then day_score + 20
    else if geQ activity 15 then day_score + 10
    else if gtQ activity 0 then day_score + 5
    else day_score in
  let diet := diet_quality entry in
  let day_score :=
    if str_is diet "healthy" then day_score + 15
    else if str_is diet "moderate" then day_score + 8
    else day_score in
  let salt := salt_intake entry in
  let day_score :=
    if str_is salt "low" then day_score + 10
    else if str_is salt "moderate" then day_score + 5
    else if str_is salt "high" then day_score - 5
    else day_score in
  let stress := stress_level entry in
  let day_score :=
    if str_is stress "low" then day_score + 10
    else if str_is stress "moderate" then day_score + 5
    else if str_is stress "high" || str_is stress "severe" then day_score - 5
    else day_score in
  let water := or_Q (water_intake entry) 0 in
  let day_score :=
    if geQ water 8 then day_score + 5
    else if geQ water 6 then day_score + 3
    else day_score in
  Z.min 100 day_score.

Definition _calculate_lifestyle_score (lifestyle : list LifestyleEntry) : Z :=
  match lifestyle with
  | [] => 50
  | _ =>
      let scores := map lifestyle_day_score (firstn 7 lifestyle) in
      match scores with
      | [] => 50
      | _ => round (meanZ scores)
      end
  end.

(** [times.count(max(set(times), key=times.count))]: the number of
    occurrences of the most frequent label. *)
Definition most_common_count (times : list string) : Z :=
  fold_right Z.max 0
    (map (fun t => count (String.eqb t) times) times).

(** [r.get("time_of_day") for r in readings if r.get("time_of_day")]. *)
Fixpoint time_labels (readings : list Reading) : list string :=
  match readings with
  | [] => []
  | r :: t =>
      match time_of_day r with
      | Some s => if truthy_str (Some s) then s :: time_labels t
                  else time_labels t
      | None => time_labels t
      end
  end.

Definition _calculate_monitoring_score (readings : list Reading) (days : Z)
  : result Z :=
  match readings with
  | [] => Ok 0
  | _ =>
      let expected_readings := days in
      let actual_readings := lenQ readings in
      if expected_readings =? 0 then Raise ZeroDivisionError
      else
        let coverage :=
          (actual_readings / inject_Z expected_readings * 100)%Q in
        let times := time_labels readings in
        let coverage :=
          match times with
          | [] => coverage
          | _ =>
              let consistency :=
                (inject_Z (most_common_count times) / lenQ times)%Q in
              (coverage + consistency * 10)%Q
          end in
        Ok (Z.max 0 (Z.min 100 (round coverage)))
  end.

Definition sleep_day_score (entry : LifestyleEntry) : Z :=
  let day_score := 50 in
  let duration := or_Q (sleep_duration entry) 7 in
  let day_score :=
    if leQ 7 duration && leQ duration 9 then day_score + 30
    else if (leQ 6 duration && ltQ duration 7)
            || (ltQ 9 duration && leQ duration 10) then day_score + 20
    else if leQ 5 duration && ltQ duration 6 then day_score + 10
    else day_score in
  let quality := sleep_quality entry in
  let day_score :=
    if str_is quality "excellent" then day_score + 20
    else if str_is quality "good" then day_score + 15
    else if str_is quality "fair" then day_score + 8
    else day_score in
  Z.min 100 day_score.

Definition _calculate_sleep_score (lifestyle : list LifestyleEntry) : Z :=
  match lifestyle with
  | [] => 50
  | _ =>
      let scores := map sleep_day_score (firstn 7 lifestyle) in
      match scores with
      | [] => 50
      | _ => round (meanZ scores)
      end
  end.

(** [weights.get(c.name, 0.1)]. *)
Definition weights (name : string) : Q :=
  if String.eqb name "Blood Pressure Control" then 35 # 100
  else if String.eqb name "Medication Adherence" then 25 # 100
  else if String.eqb name "Lifestyle Factors" then 20 # 100
  else if String.eqb name "Monitoring Consistency" then 10 # 100
  else if String.eqb name "Sleep & Recovery" then 10 # 100
  else 10 # 100.

Definition category (name : string) (score : Z) : HealthCategory :=
  {| name := name; score := score; status := _score_to_status score |}.

(** [[s] if c else []]: an [append] under a condition. *)
Definition when (c : bool) (s : string) : list string :=
  if c then [s] else [].

Definition calculate_health_score (db : Database) (settings : Settings)
    (patient_id : string) (days : Z) : result HealthScore :=
  match fetch_patient db patient_id with
  | None => Raise (PatientNotFoundError patient_id)
  | Some patient =>
      let readings := fetch_blood_pressure_readings db patient_id days in
      let medications := fetch_medications db patient_id in
      let lifestyle := fetch_lifestyle_entries db patient_id days in
      (* 1. Blood pressure control *)
      let bp_score := _calculate_bp_score readings in
      let categories := [category "Blood Pressure Control" bp_score] in
      let improvement_areas :=
        when (bp_score <? 70) "Focus on consistent blood pressure management"
        ++ when (bp_score <? 50)
             "Consult your doctor about adjusting treatment" in
      (* 2. Medication adherence *)
      let med_score := _calculate_medication_score medications in
      let categories := categories ++ [category "Medication Adherence" med_score] in
      let improvement_areas :=
        improvement_areas
        ++ when (med_score <? 85)
             "Set reminders to improve medication consistency" in
      (* 3. Lifestyle factors *)
      let lifestyle_score := _calculate_lifestyle_score lifestyle in
      let categories :=
        categories ++ [category "Lifestyle Factors" lifestyle_score] in
      let improvement_areas :=
        improvement_areas
        ++ when (lifestyle_score <? 70)
             "Increase physical activity to 150 min/week"
        ++ when (lifestyle_score <? 60)
             "Reduce sodium intake below 2000mg/day" in
      (* 4. Monitoring consistency *)
      bind (_calculate_monitoring_score readings days) (fun monitoring_score =>
      let categories :=
        categories ++ [category "Monitoring Consistency" monitoring_score] in
      let improvement_areas :=
        improvement_areas
        ++ when (monitoring_score <? 70)
             "Monitor blood pressure more regularly" in
      (* 5. Sleep and recovery, if data available *)
      let '(categories, improvement_areas) :=
        match lifestyle with
        | [] => (categories, improvement_areas)
        | _ =>
            let sleep_score := _calculate_sleep_score lifestyle in
            (categories ++ [category "Sleep & Recovery" sleep_score],
             improvement_areas
             ++ when (sleep_score <? 70) "Improve sleep quality and duration")
        end in
      (* Overall score: the weighted average *)
      let total_weight := sumQ (map (fun c => weights (name c)) categories) in
      let overall :=
        (sumQ (map (fun c => inject_Z (score c) * weights (name c)) categories)
         / total_weight)%Q in
      let overall := round overall in
      Ok {| overall := overall;
            categories := categories;
            improvementAreas := firstn 5 improvement_areas |})
  end.

End HealthScore.

(** ** [app/services/insights.py]

    An [Insight] also carries an [id], a fresh [uuid.uuid4()] that nothing
    reads; the record leaves it out.  [timestamp] is the [now] string that
    [generate_insights] computes once and passes down. *)

Module Insights.

Import Py.
Open Scope string_scope.
Open Scope list_scope.
Open Scope Z_scope.

Record Insight : Type := {
  type : string;
  title : string;
  message : fstring;
  priority : Z;
  timestamp : string;
  recommendations : option (list string)
}.

Definition is_high (r : Reading) : bool :=
  (140 <=? systolic r) || (90 <=? diastolic r).

Definition is_critical (r : Reading) : bool :=
  (180 <=? systolic r) || (120 <=? diastolic r).

Definition is_normal (r : Reading) : bool :=
  (systolic r <? 130) && (diastolic r <? 85).

(** [[i] if c else []]: an [append] under a condition. *)
Definition when (c : bool) (i : Insight) : list Insight :=
  if c then [i] else [].

Definition _analyze_bp_patterns (readings : list Reading) (timestamp : string)
  : list Insight :=
  match readings with
  | [] => []
  | _ =>
      let recent_readings := firstn 14 readings in
      let older_readings :=
        if (14 <? List.length readings)%nat
        then firstn 14 (skipn 14 readings) else [] in
      let avg_systolic := meanZ (map systolic recent_readings) in
      (* Check for improvement *)
      let trend :=
        match older_readings with
        | [] => []
        | _ =>
            let old_avg_sys := meanZ (map systolic older_readings) in
            if ltQ avg_systolic (old_avg_sys - 5) then
              [{| type := "success";
                  title := "Blood Pressure Improving";
                  message :=
                    [Lit "Your average systolic BP has decreased by ";
                     F0 (old_avg_sys - avg_systolic);
                     Lit " mmHg compared to the previous period."];
                  priority := 1;
                  timestamp := timestamp;
                  recommendations :=
                    Some ["Keep up your current routine";
                          "Continue monitoring regularly"] |}]
            else if gtQ avg_systolic (old_avg_sys + 5) then
              [{| type := "warning";
                  title := "Blood Pressure Trending Up";
                  message :=
                    [Lit "Your average systolic BP has increased by ";
                     F0 (avg_systolic - old_avg_sys);
                     Lit " mmHg. Consider reviewing your lifestyle factors."];
                  priority := 2;
                  timestamp := timestamp;
                  recommendations :=
                    Some ["Review your sodium intake";
                          "Ensure medication compliance";
                          "Consider scheduling a check-up"] |}]
            else []
        end in
      (* Check for high readings *)
      let high_count := count is_high recent_readings in
      let high :=
        when (gtQ (inject_Z high_count) (lenQ recent_readings * (1 # 2)))
          {| type := "danger";
             title := "Consistently Elevated Readings";
             message :=
               [FInt high_count; Lit " out of ";
                FInt (Z.of_nat (List.length recent_readings));
                Lit " recent readings are elevated. Please consult your healthcare provider."];
             priority := 1;
             timestamp := timestamp;
             recommendations :=
               Some ["Contact your doctor"; "Review your medication";
                     "Monitor more frequently"] |} in
      (* Check for critical readings *)
      let critical_count := count is_critical recent_readings in
      let critical :=
        when (0 <? critical_count)
          {| type := "danger";
             title := "Critical Reading Detected";
             message :=
               [Lit "You had "; FInt critical_count;
                Lit " reading(s) in the critical range. Seek medical attention if symptoms occur."];
             priority := 1;
             timestamp := timestamp;
             recommendations :=
               Some ["Seek immediate medical attention if experiencing symptoms";
                     "Contact your healthcare provider today";
                     "Do not skip medications"] |} in
      (* Check for good control *)
      let normal_count := count is_normal recent_readings in
      let control :=
        when (geQ (inject_Z normal_count) (lenQ recent_readings * (7 # 10)))
          {| type := "success";
             title := "Excellent BP Control";
             message :=
               [FInt normal_count; Lit " out of ";
                FInt (Z.of_nat (List.length recent_readings));
                Lit " readings are within normal range. Great job!"];
             priority := 2;
             timestamp := timestamp;
             recommendations :=
               Some ["Maintain your current lifestyle";
                     "Continue regular monitoring"] |} in
      (* Check variability *)
      let systolic_values := map systolic recent_readings in
      let variability :=
        when (30 <? maxZ systolic_values - minZ systolic_values)
          {| type := "warning";
             title := "High BP Variability";
             message :=
               [Lit "Your blood pressure readings show significant variability. Consistent readings are important for accurate assessment."];
             priority := 3;
             timestamp := timestamp;
             recommendations :=
               Some ["Take readings at the same time daily";
                     "Rest for 5 minutes before measuring";
                     "Use the same arm each time"] |} in
      trend ++ high ++ critical ++ control ++ variability
  end.

(** [", ".join(names)]. *)
Fixpoint join_comma (names : list string) : string :=
  match names with
  | [] => EmptyString
  | [n] => n
  | n :: t => (n ++ ", " ++ join_comma t)%string
  end.

Definition _analyze_medication_adherence (medications : list Medication)
    (timestamp : string) : list Insight :=
  match filter is_active medications with
  | [] => []
  | active_meds =>
      let low_adherence_meds :=
        filter (fun m => ltQ (or_Q (adherence_rate m) 100) 85) active_meds in
      let high_adherence_meds :=
        filter (fun m => geQ (or_Q (adherence_rate m) 0) 95) active_meds in
      let low :=
        match low_adherence_meds with
        | [] => []
        | _ =>
            let med_names :=
              join_comma (map med_name (firstn 2 low_adherence_meds)) in
            [{| type := "warning";
                title := "Medication Adherence Alert";
                message :=
                  [Lit "Your adherence to "; FStr med_names;
                   Lit " could be improved. Consistent medication use is key to BP control."];
                priority := 2;
                timestamp := timestamp;
                recommendations :=
                  Some ["Set daily medication reminders";
                        "Use a pill organizer";
                        "Talk to your doctor if side effects are an issue"] |}]
        end in
      let high :=
        when (List.length high_adherence_meds =? List.length active_meds)%nat
          {| type := "success";
             title := "Excellent Medication Adherence";
             message :=
               [Lit "You're taking your medications consistently. This significantly helps control your blood pressure."];
             priority := 3;
             timestamp := timestamp;
             recommendations := None |} in
      low ++ high
  end.

Definition _analyze_lifestyle (lifestyle : list LifestyleEntry)
    (timestamp : string) : list Insight :=
  match lifestyle with
  | [] => []
  | recent :: _ =>
      (* Exercise analysis *)
      let activity := or_Q (physical_activity recent) 0 in
      let exercise :=
        if geQ activity 30 then
          [{| type := "success";
              title := "Great Exercise Habits";
              message :=
                [Lit "You logged "; FNum activity;
                 Lit " minutes of activity. Regular exercise helps lower BP naturally."];
              priority := 4;
              timestamp := timestamp;
              recommendations := None |}]
        else if ltQ activity 15 then
          [{| type := "info";
              title := "Increase Physical Activity";
              message :=
                [Lit "Consider adding more physical activity to your routine. Even a 30-minute walk can help."];
              priority := 3;
              timestamp := timestamp;
              recommendations :=
                Some ["Aim for 30 minutes of moderate exercise daily";
                      "Start with walking";
                      "Take the stairs when possible"] |}]
        else [] in
      (* Salt intake *)
      let salt :=
        when (str_is (salt_intake recent) "high")
          {| type := "warning";
             title := "High Sodium Intake";
             message :=
               [Lit "High sodium intake can elevate blood pressure. Try to reduce salt in your diet."];
             priority := 2;
             timestamp := timestamp;
             recommendations :=
               Some ["Avoid processed foods";
                     "Don't add salt at the table";
                     "Read nutrition labels"] |} in
      (* Sleep *)
      let sleep := or_Q (sleep_duration recent) 7 in
      let sleep_insight :=
        when (ltQ sleep 6)
          {| type := "warning";
             title := "Insufficient Sleep";
             message :=
               [Lit "You're getting "; F1 sleep;
                Lit " hours of sleep. Poor sleep can affect blood pressure."];
             priority := 3;
             timestamp := timestamp;
             recommendations :=
               Some ["Aim for 7-9 hours of sleep";
                     "Maintain a consistent sleep schedule";
                     "Limit screen time before bed"] |} in
      (* Stress *)
      let stress :=
        when (str_is (stress_level recent) "high"
              || str_is (stress_level recent) "severe")
          {| type := "warning";
             title := "High Stress Levels";
             message :=
               [Lit "Chronic stress can elevate blood pressure. Consider stress management techniques."];
             priority := 3;
             timestamp := timestamp;
             recommendations :=
               Some ["Practice deep breathing exercises";
                     "Try meditation or yoga";
                     "Take regular breaks during work"] |} in
      exercise ++ salt ++ sleep_insight ++ stress
  end.

Definition _analyze_time_patterns (readings : list Reading)
    (timestamp : string) : list Insight :=
  if (List.length readings <? 7)%nat then []
  else
    let morning :=
      filter (fun r => str_is (time_of_day r) "morning") readings in
    let evening :=
      filter (fun r => str_is (time_of_day r) "evening"
                       || str_is (time_of_day r) "night") readings in
    if ((3 <=? List.length morning) && (3 <=? List.length evening))%nat then
      let morning_avg := meanZ (map systolic morning) in
      let evening_avg := meanZ (map systolic evening) in
      if gtQ (morning_avg - evening_avg) 15 then
        [{| type := "info";
            title := "Morning Blood Pressure Surge";
            message :=
              [Lit "Your morning readings average "; F0 morning_avg;
               Lit " mmHg vs "; F0 evening_avg;
               Lit " mmHg in the evening. Morning surges are common but worth monitoring."];
            priority := 3;
            timestamp := timestamp;
            recommendations :=
              Some ["Take morning medications before getting out of bed";
                    "Rise slowly in the morning";
                    "Discuss with your doctor if pattern persists"] |}]
      else if gtQ (evening_avg - morning_avg) 15 then
        [{| type := "warning";
            title := "Elevated Evening Readings";
            message :=
              [Lit "Your blood pressure tends to spike in the evening hours (";
               F0 evening_avg; Lit " mmHg vs "; F0 morning_avg;
               Lit " mmHg in the morning)."];
            priority := 2;
            timestamp := timestamp;
            recommendations :=
              Some ["Reduce salt intake after 6 PM";
                    "Practice relaxation techniques before bed";
                    "Avoid caffeine in the afternoon"] |}]
      else []
    else [].

(** The single insight returned when there are too few readings. *)
Definition more_data_needed (n minimum : Z) (now : string) : Insight :=
  {| type := "info";
     title := "More Data Needed";
     message :=
       [Lit "You have "; FInt n; Lit " readings. We need at least ";
        FInt minimum; Lit " for detailed analysis."];
     priority := 3;
     timestamp := now;
     recommendations :=
       Some ["Take your blood pressure daily";
             "Log readings at consistent times"] |}.

(** [now] is [datetime.now().isoformat() + "Z"], read from the clock. *)
Definition generate_insights (db : Database) (settings : Settings)
    (now : string) (patient_id : string) (days : Z) : result (list Insight) :=
  match fetch_patient db patient_id with
  | None => Raise (PatientNotFoundError patient_id)
  | Some patient =>
      let readings := fetch_blood_pressure_readings db patient_id days in
      let medications := fetch_medications db patient_id in
      let lifestyle := fetch_lifestyle_entries db patient_id days in
      if Z.of_nat (List.length readings) <? min_readings_for_analysis settings
      then
        Ok [more_data_needed (Z.of_nat (List.length readings))
              (min_readings_for_analysis settings) now]
      else
        let insights := _analyze_bp_patterns readings now in
        let insights :=
          match medications with
          | [] => insights
          | _ => insights ++ _analyze_medication_adherence medications now
          end in
        let insights :=
          match lifestyle with
          | [] => insights
          | _ => insights ++ _analyze_lifestyle lifestyle now
          end in
        let insights := insights ++ _analyze_time_patterns readings now in
        let insights := sort_by priority insights in
        Ok (firstn 8 insights)
  end.

End Insights.

(** ** [app/services/predictions.py] *)

Module Predictions.

Import Py.
Open Scope string_scope.
Open Scope list_scope.
Open Scope Z_scope.

Record TrendPrediction : Type := {
  metric : string;
  currentValue : Q;
  predictedValue : Q;
  confidence : Z;
  timeframe : fstring;
  trend : string
}.

(** One day, in microseconds. *)
Definition day_us : Z := 86400000000.

(** [r[metric_key]]: callers pass ["pulse"] only with readings that have
    one. *)
Definition value_of (metric_key : string) (r : Reading) : Z :=
  if String.eqb metric_key "systolic" then systolic r
  else if String.eqb metric_key "diastolic" then diastolic r
  else match pulse r with Some v => v | None => 0 end.

(** [np.array(range(n))]. *)
Definition xs (n : nat) : list Q :=
  map (fun i => inject_Z (Z.of_nat i)) (seq 0 n).

(** The least-squares fit of [_calculate_metric_prediction] on the values
    [y], against their positions [0 .. n-1]. *)
Definition numerator (y : list Q) : Q :=
  let x := xs (List.length y) in
  let x_mean := meanQ x in
  let y_mean := meanQ y in
  sumQ (map (fun p => ((fst p - x_mean) * (snd p - y_mean))%Q) (combine x y)).

Definition denominator (n : nat) : Q :=
  let x := xs n in
  let x_mean := meanQ x in
  sumQ (map (fun xi => ((xi - x_mean) * (xi - x_mean))%Q) x).

Definition slope (y : list Q) : Q :=
  if Qeq_bool (denominator (List.length y)) 0 then 0%Q
  else (numerator y / denominator (List.length y))%Q.

Definition intercept (y : list Q) : Q :=
  (meanQ y - slope y * meanQ (xs (List.length y)))%Q.

Definition ss_res (y : list Q) : Q :=
  sumQ (map (fun p =>
               let y_pred := (intercept y + slope y * fst p)%Q in
               ((snd p - y_pred) * (snd p - y_pred))%Q)
          (combine (xs (List.length y)) y)).

Definition ss_tot (y : list Q) : Q :=
  sumQ (map (fun yi => ((yi - meanQ y) * (yi - meanQ y))%Q) y).

Definition r_squared (y : list Q) : Q :=
  if gtQ (ss_tot y) 0 then (1 - ss_res y / ss_tot y)%Q else 0%Q.

(** Readings per day, from the span between the first and the last
    reading: [(last_date - first_date).days or 1]. *)
Definition readings_per_day (sorted_readings : list Reading) : Q :=
  match sorted_readings with
  | first :: _ :: _ =>
      let first_date := measurement_date first in
      let last_date := measurement_date (List.last sorted_readings first) in
      let days_span := or_Z (Some ((last_date - first_date) / day_us)) 1 in
      (lenQ sorted_readings / inject_Z days_span)%Q
  | _ => 1%Q
  end.

(** The trend label of a daily change. *)
Definition trend_of (metric_key : string) (daily_change : Q) : string :=
  if String.eqb metric_key "systolic" || String.eqb metric_key "diastolic"
  then
    if ltQ daily_change (- (3 # 10)) then "improving"
    else if gtQ daily_change (3 # 10) then "worsening"
    else "stable"
  else
    if ltQ (Qabs daily_change) (1 # 2) then "stable"
    else if ltQ daily_change 0 then "improving"
    else "worsening".

(** The plausible range the predicted value is kept in. *)
Definition reasonable (metric_key : string) (predicted_value : Q) : Q :=
  if String.eqb metric_key "systolic" then
    Qmax 80 (Qmin 200 predicted_value)
  else if String.eqb metric_key "diastolic" then
    Qmax 50 (Qmin 130 predicted_value)
  else if String.eqb metric_key "pulse" then
    Qmax 40 (Qmin 150 predicted_value)
  else predicted_value.

Definition _calculate_metric_prediction (readings : list Reading)
    (metric_key metric_name : string) (timeframe_days : Z)
  : result TrendPrediction :=
  let sorted_readings := sort_by measurement_date readings in
  let values := map (fun r => inject_Z (value_of metric_key r)) sorted_readings in
  let n := List.length values in
  let recent_values := if (7 <=? n)%nat then lastn 7 values else values in
  match recent_values with
  | [] => Raise ZeroDivisionError
  | _ =>
      let current_value := meanQ recent_values in
      let slope := slope values in
      let intercept := intercept values in
      let readings_per_day := readings_per_day sorted_readings in
      let future_x :=
        (lenQ values + inject_Z timeframe_days * readings_per_day)%Q in
      let predicted_value := (intercept + slope * future_x)%Q in
      let daily_change := (slope * readings_per_day)%Q in
      let trend := trend_of metric_key daily_change in
      let confidence :=
        if (1 <? n)%nat then
          let data_factor := Qmin 1 (lenQ values / 30) in
          int (Qmax 30 (Qmin 95 (r_squared values * 100 * data_factor)))
        else 30 in
      let predicted_value := reasonable metric_key predicted_value in
      Ok {| metric := metric_name;
            currentValue := round1 current_value;
            predictedValue := round1 predicted_value;
            confidence := confidence;
            timeframe := [FInt timeframe_days; Lit " days"];
            trend := trend |}
  end.

Definition calculate_predictions (db : Database) (settings : Settings)
    (patient_id : string) (days : Z) : result (list TrendPrediction) :=
  match fetch_patient db patient_id with
  | None => Raise (PatientNotFoundError patient_id)
  | Some patient =>
      let readings := fetch_blood_pressure_readings db patient_id days in
      let n := Z.of_nat (List.length readings) in
      if n <? min_readings_for_analysis settings then
        Raise (InsufficientDataError
                 [Lit "Not enough readings for predictions (have "; FInt n;
                  Lit ", need "; FInt (min_readings_for_analysis settings);
                  Lit ")"]
                 [("readings_count", n);
                  ("minimum_required", min_readings_for_analysis settings)])
      else
        bind (_calculate_metric_prediction readings "systolic" "Systolic BP" 30)
          (fun systolic_prediction =>
        bind (_calculate_metric_prediction readings "diastolic" "Diastolic BP" 30)
          (fun diastolic_prediction =>
        let predictions := [systolic_prediction; diastolic_prediction] in
        let readings_with_pulse :=
          filter (fun r => truthy_Z (pulse r)) readings in
        if (5 <=? List.length readings_with_pulse)%nat then
          bind (_calculate_metric_prediction readings_with_pulse "pulse"
                  "Heart Rate" 30)
            (fun pulse_prediction => Ok (predictions ++ [pulse_prediction]))
        else Ok predictions))
  end.

End Predictions.

(** ** Floats that go through a square root: the same built-ins over [R] *)

Module PyR.

Open Scope R_scope.

Definition sumR (l : list R) : R := fold_right Rplus 0 l.

Definition lenR {A} (l : list A) : R := INR (List.length l).

(** [np.mean(l)] and [sum(l) / len(l)]. *)
Definition meanR (l : list R) : R := sumR l / lenR l.

(** [np.std(l)]: the population standard deviation. *)
Definition np_std (l : list R) : R :=
  sqrt (meanR (map (fun v => (v - meanR l) * (v - meanR l)) l)).

(** [round(x)]: to the nearest integer, ties to the even one. *)
Definition round (x : R) : Z :=
  let f := Zfloor x in
  if Rlt_dec (x - IZR f) (1 / 2) then f
  else if Rlt_dec (1 / 2) (x - IZR f) then (f + 1)%Z
  else if Z.even f then f else (f + 1)%Z.

(** [round(x, 1)]. *)
Definition round1 (x : R) : R := IZR (round (x * 10)) / 10.

End PyR.

(** ** [app/services/correlations.py]

    [_calculate_factor_correlation] reads the daily map only through
    [daily_data[date].get(key)] for numeric columns; the model takes that
    lookup as a function of the date and the column. *)

Module Correlations.

Import PyR.
Open Scope R_scope.

(** The paired data points: the days on which both columns have a value. *)
Fixpoint paired (daily_data : Z -> string -> option R) (dates : list Z)
    (outcome_key factor_key : string) : list (R * R) :=
  match dates with
  | [] => []
  | date :: rest =>
      match daily_data date outcome_key, daily_data date factor_key with
      | Some outcome, Some factor =>
          (outcome, factor) :: paired daily_data rest outcome_key factor_key
      | _, _ => paired daily_data rest outcome_key factor_key
      end
  end.

Definition numerator (pairs : list (R * R)) : R :=
  let n := lenR pairs in
  let sum_x := sumR (map fst pairs) in
  let sum_y := sumR (map snd pairs) in
  let sum_xy := sumR (map (fun p => fst p * snd p) pairs) in
  n * sum_xy - sum_x * sum_y.

Definition denominator_sq (pairs : list (R * R)) : R :=
  let n := lenR pairs in
  let sum_x := sumR (map fst pairs) in
  let sum_y := sumR (map snd pairs) in
  let sum_x2 := sumR (map (fun p => fst p ^ 2) pairs) in
  let sum_y2 := sumR (map (fun p => snd p ^ 2) pairs) in
  (n * sum_x2 - sum_x ^ 2) * (n * sum_y2 - sum_y ^ 2).

(** The Pearson computation on the pairs, from [if len(pairs) < 5] on. *)
Definition correlation_of_pairs (pairs : list (R * R)) : option R :=
  if (List.length pairs <? 5)%nat then None
  else
    if Rle_dec (denominator_sq pairs) 0 then None
    else
      let denominator := sqrt (denominator_sq pairs) in
      if Req_dec_T denominator 0 then None
      else
        let correlation := numerator pairs / denominator in
        if Rlt_dec (Rabs correlation) (1 / 10) then None
        else Some correlation.

Definition _calculate_factor_correlation (daily_data : Z -> string -> option R)
    (dates : list Z) (outcome_key factor_key : string) : option R :=
  correlation_of_pairs (paired daily_data dates outcome_key factor_key).

Definition _correlation_strength (correlation : R) : string :=
  let abs_corr := Rabs correlation in
  if Rle_dec (7 / 10) abs_corr then "strong"
  else if Rle_dec (4 / 10) abs_corr then "moderate"
  else "weak".

Record Correlation : Type := {
  factor1 : string;
  factor2 : string;
  correlation : R;
  strength : string;
  direction : string
}.

Section Analyze.

(** What [analyze_correlations] does once the number of readings is known
    to be sufficient: the daily map, its own five-day check, the ten factor
    correlations and their sorting. *)
Variable correlate :
  list Reading -> list LifestyleEntry -> result (list Correlation).

Definition analyze_correlations (db : Database) (settings : Settings)
    (patient_id : string) (days : Z) : result (list Correlation) :=
  match fetch_patient db patient_id with
  | None => Raise (PatientNotFoundError patient_id)
  | Some patient =>
      let readings := fetch_blood_pressure_readings db patient_id days in
      let lifestyle := fetch_lifestyle_entries db patient_id days in
      let n := Z.of_nat (List.length readings) in
      if (n <? min_readings_for_analysis settings)%Z then
        Raise (InsufficientDataError
                 [Py.Lit "Not enough data for correlation analysis"]
                 [("readings_count"%string, n);
                  ("minimum_required"%string,
                   min_readings_for_analysis settings)])
      else correlate readings lifestyle
  end.

End Analyze.

End Correlations.

(** ** [_calculate_factor_correlation] in the arithmetic of the program

    A Python [float] is an IEEE 754 binary64 number, and so is a primitive
    [float] of Rocq: the four operations and [math.sqrt] round the exact
    result to the nearest number, ties to even, in both.  [sum] adds from
    left to right (as CPython does up to 3.11; the compensated sum of
    later versions gives the same on the inputs used below); [x ** 2] is
    taken as the product rounded once; the literal [0.1] is the double
    [0x1.999999999999ap-4]. *)

Module Correlations64.

Open Scope float_scope.

(** [float(z)] for an integer below 2^53 in magnitude, which is exact. *)
Definition of_int (z : Z) : float :=
  if (z <? 0)%Z then - PrimFloat.of_uint63 (Uint63.of_Z (- z))
  else PrimFloat.of_uint63 (Uint63.of_Z z).

(** [sum(...)] of floats: the additions from left to right, from 0. *)
Definition sum (l : list float) : float := fold_left PrimFloat.add l 0.

Fixpoint paired (daily_data : Z -> string -> option float) (dates : list Z)
    (outcome_key factor_key : string) : list (float * float) :=
  match dates with
  | [] => []
  | date :: rest =>
      match daily_data date outcome_key, daily_data date factor_key with
      | Some outcome, Some factor =>
          (outcome, factor) :: paired daily_data rest outcome_key factor_key
      | _, _ => paired daily_data rest outcome_key factor_key
      end
  end.

Definition _calculate_factor_correlation
    (daily_data : Z -> string -> option float) (dates : list Z)
    (outcome_key factor_key : string) : option float :=
  let pairs := paired daily_data dates outcome_key factor_key in
  if (List.length pairs <? 5)%nat then None
  else
    (* Calculate Pearson correlation *)
    let n := of_int (Z.of_nat (List.length pairs)) in
    let sum_x := sum (map fst pairs) in
    let sum_y := sum (map snd pairs) in
    let sum_xy := sum (map (fun p => fst p * snd p) pairs) in
    let sum_x2 := sum (map (fun p => fst p * fst p) pairs) in
    let sum_y2 := sum (map (fun p => snd p * snd p) pairs) in
    let numerator := n * sum_xy - sum_x * sum_y in
    let denominator_sq :=
      (n * sum_x2 - sum_x * sum_x) * (n * sum_y2 - sum_y * sum_y) in
    if denominator_sq <=? 0 then None
    else
      let denominator := PrimFloat.sqrt denominator_sq in
      if denominator =? 0 then None
      else
        let correlation := numerator / denominator in
        (* Return None for very weak correlations *)
        if PrimFloat.abs correlation <? 0x1.999999999999ap-4 then None
        else Some correlation.

End Correlations64.

(** ** [app/services/patterns.py] *)

Module Patterns.

Record Pattern : Type := {
  type : string;
  frequency : Py.fstring;
  severity : string;
  description : Py.fstring
}.

Section Analyze.

(** What [analyze_patterns] does once the number of readings is known to be
    sufficient: the five pattern analyses, the sort by severity and the cut
    to ten patterns. *)
Variable detect : list Reading -> list LifestyleEntry -> list Pattern.

Definition analyze_patterns (db : Database) (settings : Settings)
    (patient_id : string) (days : Z) : result (list Pattern) :=
  match fetch_patient db patient_id with
  | None => Raise (PatientNotFoundError patient_id)
  | Some patient =>
      let readings := fetch_blood_pressure_readings db patient_id days in
      let lifestyle := fetch_lifestyle_entries db patient_id days in
      let n := Z.of_nat (List.length readings) in
      if (n <? min_readings_for_analysis settings)%Z then
        Raise (InsufficientDataError
                 [Py.Lit "Not enough readings for pattern analysis (have ";
                  Py.FInt n; Py.Lit ", need ";
                  Py.FInt (min_readings_for_analysis settings); Py.Lit ")"]
                 [("readings_count"%string, n);
                  ("minimum_required"%string,
                   min_readings_for_analysis settings)])
      else Ok (detect readings lifestyle)
  end.

End Analyze.

End Patterns.

(** ** [app/services/forecast.py] *)

Module Forecast.

Import PyR.
Open Scope string_scope.
Open Scope list_scope.
Open Scope R_scope.

Record HistoricalDataPoint : Type := {
  date : Z;
  value : R
}.

Record ForecastDataPoint : Type := {
  fdate : Z;
  predicted : R;
  upperBound : R;
  lowerBound : R
}.

Record TimeSeriesForecast : Type := {
  metric : string;
  historical : list HistoricalDataPoint;
  forecast : list ForecastDataPoint
}.

(** [_parse_date(r["measurement_date"]).date()]. *)
Definition date_of (r : Reading) : Z :=
  (measurement_date r / Predictions.day_us)%Z.

(** [r.get(metric)]. *)
Definition get_metric (metric : string) (r : Reading) : option Z :=
  if String.eqb metric "systolic" then Some (systolic r)
  else if String.eqb metric "diastolic" then Some (diastolic r)
  else if String.eqb metric "pulse" then pulse r
  else None.

(** [daily_values[date]]: the values of the readings of that day, in the
    order of the readings. *)
Fixpoint daily_values (readings : list Reading) (metric : string) (d : Z)
  : list R :=
  match readings with
  | [] => []
  | r :: t =>
      match get_metric metric r with
      | Some v =>
          if (date_of r =? d)%Z then IZR v :: daily_values t metric d
          else daily_values t metric d
      | None => daily_values t metric d
      end
  end.

(** [sorted(daily_values.keys())]: the days that have a value. *)
Definition days_with_values (readings : list Reading) (metric : string)
  : list Z :=
  Py.sort_le Z.leb
    (nodup Z.eq_dec
       (map date_of
          (filter (fun r => match get_metric metric r with
                            | Some _ => true
                            | None => false
                            end) readings))).

Definition _build_historical_data (readings : list Reading) (metric : string)
  : list HistoricalDataPoint :=
  map (fun d =>
         let values := daily_values readings metric d in
         let avg_value := meanR values in
         {| date := d; value := round1 avg_value |})
    (days_with_values readings metric).

(** [np.array(range(n))]. *)
Definition xs (n : nat) : list R := map INR (seq 0 n).

(** The regression parameters [(slope, intercept)]. *)
Definition regression (y : list R) : R * R :=
  let x := xs (List.length y) in
  let x_mean := meanR x in
  let y_mean := meanR y in
  let numerator :=
    sumR (map (fun p => (fst p - x_mean) * (snd p - y_mean)) (combine x y)) in
  let denominator := sumR (map (fun xi => (xi - x_mean) ^ 2) x) in
  if Req_dec_T denominator 0 then (0, y_mean)
  else
    let slope := numerator / denominator in
    (slope, y_mean - slope * x_mean).

(** [residuals = y - y_pred_historical]. *)
Definition residuals (y : list R) : list R :=
  let '(slope, intercept) := regression y in
  map (fun p => snd p - (intercept + slope * fst p))
    (combine (xs (List.length y)) y).

(** The standard error of the residuals, [10] with fewer than three. *)
Definition std_error (y : list R) : R :=
  if (2 <? List.length (residuals y))%nat then np_std (residuals y) else 10.

(** The confidence margin of day [i] of [forecast_days]. *)
Definition margin (std_error : R) (i forecast_days : Z) : R :=
  (196 / 100) * std_error * (1 + IZR i / IZR forecast_days * (1 / 2)).

(** The forecast point of day [i]. *)
Definition forecast_point (y : list R) (last_date : Z) (forecast_days : Z)
    (metric : string) (i : Z) : ForecastDataPoint :=
  let '(slope, intercept) := regression y in
  let n := lenR y in
  let x_future := n + IZR i - 1 in
  let predicted := intercept + slope * x_future in
  let margin := margin (std_error y) i forecast_days in
  let '(predicted, upper, lower) :=
    if String.eqb metric "systolic" then
      let predicted := Rmax 80 (Rmin 200 predicted) in
      (predicted, Rmin 220 (predicted + margin), Rmax 70 (predicted - margin))
    else if String.eqb metric "diastolic" then
      let predicted := Rmax 50 (Rmin 130 predicted) in
      (predicted, Rmin 150 (predicted + margin), Rmax 40 (predicted - margin))
    else
      let predicted := Rmax 40 (Rmin 150 predicted) in
      (predicted, Rmin 180 (predicted + margin), Rmax 30 (predicted - margin))
  in
  {| fdate := (last_date + i)%Z;
     predicted := round1 predicted;
     upperBound := round1 upper;
     lowerBound := round1 lower |}.

(** [range(1, forecast_days + 1)]. *)
Definition days_ahead (forecast_days : Z) : list Z :=
  map (fun k => Z.of_nat k + 1)%Z (seq 0 (Z.to_nat forecast_days)).

Definition _generate_forecast_points (historical : list HistoricalDataPoint)
    (forecast_days : Z) (metric : string) : result (list ForecastDataPoint) :=
  let values := map value historical in
  match rev historical with
  | [] => Raise IndexError
  | last :: _ =>
      let last_date := date last in
      Ok (map (forecast_point values last_date forecast_days metric)
            (days_ahead forecast_days))
  end.

Definition generate_forecast (db : Database) (settings : Settings)
    (patient_id : string) (metric : string) (forecast_days history_days : Z)
  : result TimeSeriesForecast :=
  let metric :=
    if String.eqb metric "systolic" || String.eqb metric "diastolic"
       || String.eqb metric "pulse"
    then metric else "systolic" in
  let metric_name :=
    if String.eqb metric "systolic" then "Systolic BP"
    else if String.eqb metric "diastolic" then "Diastolic BP"
    else "Heart Rate" in
  match fetch_patient db patient_id with
  | None => Raise (PatientNotFoundError patient_id)
  | Some patient =>
      let readings :=
        fetch_blood_pressure_readings db patient_id history_days in
      let n := Z.of_nat (List.length readings) in
      if (n <? min_readings_for_analysis settings)%Z then
        Raise (InsufficientDataError
                 [Py.Lit "Not enough readings for forecast (have "; Py.FInt n;
                  Py.Lit ", need ";
                  Py.FInt (min_readings_for_analysis settings); Py.Lit ")"]
                 [("readings_count", n);
                  ("minimum_required", min_readings_for_analysis settings)])
      else
        let historical := _build_historical_data readings metric in
        if (List.length historical <? 7)%nat then
          Raise (InsufficientDataError
                   [Py.Lit "Not enough daily data points for forecast"]
                   [("days_with_data", Z.of_nat (List.length historical));
                    ("minimum_required", 7%Z)])
        else
          bind (_generate_forecast_points historical forecast_days metric)
            (fun forecast =>
               Ok {| metric := metric_name;
                     historical := historical;
                     forecast := forecast |})
  end.

End Forecast.

(** ** [app/services/correlations.py]: the daily map and the analysis

    [_build_daily_data] returns a dictionary from dates to dictionaries of
    columns.  The model gives its keys ([keys]) and what
    [daily_data[date].get(key)] reads off it ([lookup]); a value is a number
    or, for the stress level and the salt intake, a string. *)

Module CorrelationAnalysis.

Import PyR Correlations.
Open Scope string_scope.
Open Scope list_scope.
Open Scope R_scope.

Inductive value : Type :=
| Num (x : R)
| Str (s : string).

(** [readings_by_date[date]]. *)
Definition day_readings (readings : list Reading) (date : Z) : list Reading :=
  filter (fun r => (Forecast.date_of r =? date)%Z) readings.

(** [[r["pulse"] for r in day_readings if r.get("pulse")]]. *)
Fixpoint pulse_readings (day_readings : list Reading) : list R :=
  match day_readings with
  | [] => []
  | r :: t =>
      match pulse r with
      | Some v => if Py.truthy_Z (Some v) then IZR v :: pulse_readings t
                  else pulse_readings t
      | None => pulse_readings t
      end
  end.

(** The columns copied from a lifestyle entry. *)
Definition columns : list string :=
  ["physical_activity"; "sleep_duration"; "stress_level"; "water_intake";
   "weight"; "sodium_mg"; "caffeine_intake"; "alcohol_consumption";
   "salt_intake"].

(** [entry.get(key)] for one of these columns. *)
Definition column (key : string) (entry : LifestyleEntry) : option value :=
  let num (x : option Q) := option_map (fun q => Num (Q2R q)) x in
  if String.eqb key "physical_activity" then num (physical_activity entry)
  else if String.eqb key "sleep_duration" then num (sleep_duration entry)
  else if String.eqb key "stress_level" then option_map Str (stress_level entry)
  else if String.eqb key "water_intake" then num (water_intake entry)
  else if String.eqb key "weight" then num (weight entry)
  else if String.eqb key "sodium_mg" then num (sodium_mg entry)
  else if String.eqb key "caffeine_intake" then num (caffeine_intake entry)
  else if String.eqb key "alcohol_consumption" then
    num (alcohol_consumption entry)
  else if String.eqb key "salt_intake" then option_map Str (salt_intake entry)
  else None.

(** What the loop over [lifestyle] leaves in [daily_data[date][key]]: the
    value of the last entry of that date that has one. *)
Fixpoint lifestyle_value (lifestyle : list LifestyleEntry) (date : Z)
    (key : string) : option value :=
  match lifestyle with
  | [] => None
  | entry :: rest =>
      match lifestyle_value rest date key with
      | Some v => Some v
      | None =>
          match entry_date entry with
          | Some d => if (d =? date)%Z then column key entry else None
          | None => None
          end
      end
  end.

(** [daily_data[date].get(key)]. *)
Definition lookup (readings : list Reading) (lifestyle : list LifestyleEntry)
    (date : Z) (key : string) : option value :=
  let day_readings := day_readings readings date in
  if String.eqb key "systolic" then
    match day_readings with
    | [] => None
    | _ => Some (Num (meanR (map (fun r => IZR (systolic r)) day_readings)))
    end
  else if String.eqb key "diastolic" then
    match day_readings with
    | [] => None
    | _ => Some (Num (meanR (map (fun r => IZR (diastolic r)) day_readings)))
    end
  else if String.eqb key "pulse" then
    match pulse_readings day_readings with
    | [] => None
    | pulse_readings => Some (Num (meanR pulse_readings))
    end
  else lifestyle_value lifestyle date key.

(** The dates that a lifestyle entry adds to the map: its own, if it has
    one and a value in one of the columns. *)
Definition entry_keys (entry : LifestyleEntry) : list Z :=
  match entry_date entry with
  | Some date =>
      if existsb (fun key => match column key entry with
                             | Some _ => true
                             | None => false
                             end) columns
      then [date] else []
  | None => []
  end.

(** [daily_data.keys()], each day once: the days with a reading and the
    days with lifestyle data.  The analysis counts them and sorts them, so
    that their order in the dictionary has no part in it. *)
Definition keys (readings : list Reading) (lifestyle : list LifestyleEntry)
  : list Z :=
  nodup Z.eq_dec (map Forecast.date_of readings ++ flat_map entry_keys lifestyle).

(** The numeric columns, as [_calculate_factor_correlation] reads them. *)
Definition daily_data (readings : list Reading)
    (lifestyle : list LifestyleEntry) (date : Z) (key : string) : option R :=
  match lookup readings lifestyle date key with
  | Some (Num x) => Some x
  | _ => None
  end.

(** [stress_map]. *)
Definition stress_map (stress : string) : option R :=
  if String.eqb stress "low" then Some 1
  else if String.eqb stress "moderate" then Some 2
  else if String.eqb stress "high" then Some 3
  else if String.eqb stress "severe" then Some 4
  else None.

(** The pairs of [_calculate_stress_correlation]. *)
Fixpoint stress_pairs (readings : list Reading)
    (lifestyle : list LifestyleEntry) (dates : list Z) : list (R * R) :=
  match dates with
  | [] => []
  | date :: rest =>
      match lookup readings lifestyle date "systolic",
            lookup readings lifestyle date "stress_level" with
      | Some (Num systolic), Some (Str stress) =>
          match stress_map stress with
          | Some level =>
              (systolic, level) :: stress_pairs readings lifestyle rest
          | None => stress_pairs readings lifestyle rest
          end
      | _, _ => stress_pairs readings lifestyle rest
      end
  end.

Definition _calculate_stress_correlation (readings : list Reading)
    (lifestyle : list LifestyleEntry) (dates : list Z) : option R :=
  correlation_of_pairs (stress_pairs readings lifestyle dates).

(** [if corr: factor_correlations.append((factor1, "Systolic BP", corr))]. *)
Definition append_if (factor1 : string) (corr : option R)
  : list (string * string * R) :=
  match corr with
  | Some c => if Req_dec_T c 0 then [] else [(factor1, "Systolic BP", c)]
  | None => []
  end.

(** [round(x, 3)]. *)
Definition round3 (x : R) : R := IZR (PyR.round (x * 1000)) / 1000.

(** The [Correlation] object of one entry of [factor_correlations]. *)
Definition to_correlation (entry : string * string * R) : Correlation :=
  let '(factor1, factor2, corr_value) := entry in
  {| factor1 := factor1;
     factor2 := factor2;
     correlation := round3 corr_value;
     strength := _correlation_strength corr_value;
     direction := if Rlt_dec 0 corr_value then "positive" else "negative" |}.

(** The order of [sort(key=lambda x: abs(x.correlation), reverse=True)]. *)
Definition stronger (a b : Correlation) : bool :=
  if Rle_dec (Rabs (correlation b)) (Rabs (correlation a)) then true else false.

(** [analyze_correlations] from the daily map on. *)
Definition correlate (readings : list Reading)
    (lifestyle : list LifestyleEntry) : result (list Correlation) :=
  let daily_data := daily_data readings lifestyle in
  let n := List.length (keys readings lifestyle) in
  if (n <? 5)%nat then
    Raise (InsufficientDataError
             [Py.Lit "Not enough daily data points for correlation analysis"]
             [("days_with_data", Z.of_nat n); ("minimum_required", 5%Z)])
  else
    let dates := Py.sort_le Z.leb (keys readings lifestyle) in
    let factor f := _calculate_factor_correlation daily_data dates "systolic" f in
    let factor_correlations :=
      append_if "Sodium Intake" (factor "sodium_mg")
      ++ append_if "Physical Activity" (factor "physical_activity")
      ++ append_if "Sleep Duration" (factor "sleep_duration")
      ++ append_if "Stress Level"
           (_calculate_stress_correlation readings lifestyle dates)
      ++ append_if "Body Weight" (factor "weight")
      ++ append_if "Water Intake" (factor "water_intake")
      ++ append_if "Caffeine Intake" (factor "caffeine_intake")
      ++ append_if "Alcohol Consumption" (factor "alcohol_consumption")
      ++ append_if "Diastolic BP" (factor "diastolic")
      ++ append_if "Heart Rate" (factor "pulse") in
    let correlations := map to_correlation factor_correlations in
    Ok (Py.sort_le stronger correlations).

Definition analyze_correlations : Database -> Settings -> string -> Z
                                  -> result (list Correlation) :=
  Correlations.analyze_correlations correlate.

End CorrelationAnalysis.

(** ** [app/services/patterns.py]: the five analyses

    The standard deviation of [_analyze_variability_patterns] is a square
    root, so that the averages of this module are reals.  A pattern carries
    two f-strings; their pieces are the literal text and the numbers
    formatted into it. *)

Module PatternAnalysis.

Import PyR.
Open Scope string_scope.
Open Scope list_scope.
Open Scope R_scope.

Inductive piece : Type :=
| Lit (s : string)          (* literal text *)
| F0 (x : R)                (* {x:.0f} *)
| F1 (x : R)                (* {x:.1f} *)
| FStr (s : string).        (* {s} for a string *)

Record Pattern : Type := {
  type : string;
  frequency : list piece;
  severity : string;
  description : list piece
}.

(** [sum(r["systolic"] for r in group) / len(group)]. *)
Definition avg_systolic (group : list Reading) : R :=
  meanR (map (fun r => IZR (systolic r)) group).

(** The keys of a dictionary filled in a loop, in the order in which they
    are first inserted. *)
Fixpoint first_seen {K : Type} (eqb : K -> K -> bool) (keys : list K)
  : list K :=
  match keys with
  | [] => []
  | k :: rest => k :: filter (fun k' => negb (eqb k' k)) (first_seen eqb rest)
  end.

(** [groups[k]] for the readings grouped by [key]. *)
Definition group (key : Reading -> string) (readings : list Reading)
    (k : string) : list Reading :=
  filter (fun r => String.eqb (key r) k) readings.

(** The dictionary of the average systolic pressure of the groups of at
    least [minimum] readings. *)
Definition averages (key : Reading -> string) (minimum : nat)
    (readings : list Reading) : list (string * R) :=
  flat_map (fun k =>
              let group := group key readings k in
              if (minimum <=? List.length group)%nat
              then [(k, avg_systolic group)] else [])
    (first_seen String.eqb (map key readings)).

(** [d.get(k)]. *)
Fixpoint get (k : string) (d : list (string * R)) : option R :=
  match d with
  | [] => None
  | (k', v) :: rest => if String.eqb k k' then Some v else get k rest
  end.

(** [d.get(k, default)]. *)
Definition get_or (k : string) (d : list (string * R)) (default : R) : R :=
  match get k d with
  | Some v => v
  | None => default
  end.

(** Truth value of a float. *)
Definition truthy (x : R) : bool := if Req_dec_T x 0 then false else true.

(** [r.get("time_of_day", "unknown")], for a row without the column. *)
Definition time_key (r : Reading) : string :=
  match time_of_day r with
  | Some t => t
  | None => "unknown"
  end.

Definition _analyze_time_patterns (readings : list Reading) : list Pattern :=
  let time_groups := group time_key readings in
  let time_averages := averages time_key 3 readings in
  if (2 <=? List.length time_averages)%nat then
    let morning_avg := get_or "morning" time_averages 0 in
    let evening_avg :=
      get_or "evening" time_averages (get_or "night" time_averages 0) in
    if truthy morning_avg && truthy evening_avg then
      if Rlt_dec 15 (morning_avg - evening_avg) then
        let morning_count := List.length (time_groups "morning") in
        let total_mornings := morning_count in
        let high_mornings :=
          List.length
            (filter (fun r => (140 <=? systolic r)%Z) (time_groups "morning"))
        in
        let frequency :=
          if (0 <? total_mornings)%nat then
            [F0 (INR high_mornings / INR total_mornings * 100);
             Lit "% of mornings"]
          else [Lit "frequently"] in
        [{| type := "Morning Spike";
            frequency := frequency;
            severity :=
              if Rlt_dec (morning_avg - evening_avg) 25 then "moderate"
              else "high";
            description :=
              [Lit "Blood pressure averages "; F0 morning_avg; Lit "/";
               F0 (get_or "morning" time_averages 0);
               Lit " mmHg in the morning, "; F0 (morning_avg - evening_avg);
               Lit " points higher than evening"] |}]
      else if Rlt_dec 15 (evening_avg - morning_avg) then
        [{| type := "Evening Elevation";
            frequency := [Lit "Most evenings"];
            severity := "moderate";
            description :=
              [Lit "Blood pressure tends to rise in the evening by ";
               F0 (evening_avg - morning_avg);
               Lit " mmHg compared to morning"] |}]
      else []
    else []
  else [].

Definition day_names : list string :=
  ["Monday"; "Tuesday"; "Wednesday"; "Thursday"; "Friday"; "Saturday";
   "Sunday"].

(** [_parse_date(r["measurement_date"]).strftime("%A")], in the C locale:
    the first of January 1970, day 0, was a Thursday. *)
Definition day_name (r : Reading) : string :=
  nth (Z.to_nat ((Forecast.date_of r + 3) mod 7)) day_names "".

(** [[d[k] for k in ks if k in d]]. *)
Definition values_of (ks : list string) (d : list (string * R)) : list R :=
  flat_map (fun k => match get k d with
                     | Some v => [v]
                     | None => []
                     end) ks.

(** [max(d, key=d.get)] with its value: the first of the keys with the
    greatest value. *)
Definition max_key (d : list (string * R)) : option (string * R) :=
  match d with
  | [] => None
  | first :: rest =>
      Some (fold_left (fun best kv =>
                         if Rlt_dec (snd best) (snd kv) then kv else best)
              rest first)
  end.

(** [min(d, key=d.get)] with its value. *)
Definition min_key (d : list (string * R)) : option (string * R) :=
  match d with
  | [] => None
  | first :: rest =>
      Some (fold_left (fun best kv =>
                         if Rlt_dec (snd kv) (snd best) then kv else best)
              rest first)
  end.

Definition _analyze_weekly_patterns (readings : list Reading)
  : list Pattern :=
  let day_averages := averages day_name 2 readings in
  if (3 <=? List.length day_averages)%nat then
    (* Weekend vs weekday comparison *)
    let weekdays := ["Monday"; "Tuesday"; "Wednesday"; "Thursday"; "Friday"] in
    let weekend := ["Saturday"; "Sunday"] in
    let weekday_avgs := values_of weekdays day_averages in
    let weekend_avgs := values_of weekend day_averages in
    let comparison :=
      match weekday_avgs, weekend_avgs with
      | _ :: _, _ :: _ =>
          let weekday_avg := meanR weekday_avgs in
          let weekend_avg := meanR weekend_avgs in
          if Rlt_dec 8 (weekend_avg - weekday_avg) then
            [{| type := "Weekend Effect";
                frequency := [Lit "Most weekends"];
                severity := "low";
                description :=
                  [Lit "Blood pressure tends to be ";
                   F0 (weekend_avg - weekday_avg);
                   Lit " mmHg higher on weekends, possibly due to diet or activity changes"] |}]
          else if Rlt_dec 8 (weekday_avg - weekend_avg) then
            [{| type := "Workweek Stress";
                frequency := [Lit "During work days"];
                severity := "moderate";
                description :=
                  [Lit "Blood pressure averages ";
                   F0 (weekday_avg - weekend_avg);
                   Lit " mmHg higher during weekdays, suggesting work-related stress"] |}]
          else []
      | _, _ => []
      end in
    (* Find highest day *)
    let variation :=
      match max_key day_averages, min_key day_averages with
      | Some (highest_day, highest), Some (lowest_day, lowest) =>
          let diff := highest - lowest in
          if Rlt_dec 12 diff then
            [{| type := "Weekly Variation";
                frequency := [Lit "Every "; FStr highest_day];
                severity := "low";
                description :=
                  [FStr highest_day; Lit "s tend to have higher readings (";
                   F0 highest; Lit " mmHg) compared to "; FStr lowest_day;
                   Lit "s ("; F0 lowest; Lit " mmHg)"] |}]
          else []
      | _, _ => []
      end in
    comparison ++ variation
  else [].

(** [r.get("position", "unknown")], for a row without the column. *)
Definition position_key (r : Reading) : string :=
  match position r with
  | Some p => p
  | None => "unknown"
  end.

Definition _analyze_position_patterns (readings : list Reading)
  : list Pattern :=
  let positioned :=
    filter (fun r => negb (String.eqb (position_key r) "unknown")) readings in
  let position_averages := averages position_key 3 positioned in
  match get "sitting" position_averages, get "standing" position_averages with
  | Some sitting, Some standing =>
      let diff := standing - sitting in
      if Rlt_dec 10 diff then
        [{| type := "Orthostatic Variation";
            frequency := [Lit "When standing"];
            severity := "moderate";
            description :=
              [Lit "Blood pressure increases by "; F0 diff;
               Lit " mmHg when standing compared to sitting - discuss with your doctor"] |}]
      else if Rlt_dec diff (-15) then
        [{| type := "Orthostatic Hypotension Risk";
            frequency := [Lit "When standing"];
            severity := "high";
            description :=
              [Lit "Blood pressure drops by "; F0 (Rabs diff);
               Lit " mmHg when standing - this may cause dizziness"] |}]
      else []
  | _, _ => []
  end.

(** [readings_by_date[date]]: the readings of the date, or none. *)
Definition readings_by_date (readings : list Reading) (date : Z)
  : list Reading :=
  filter (fun r => (Forecast.date_of r =? date)%Z) readings.

(** The entry that [lifestyle_by_date] keeps for a date: the last one. *)
Definition last_entry (lifestyle : list LifestyleEntry) (date : Z)
  : option LifestyleEntry :=
  fold_left (fun kept entry =>
               match entry_date entry with
               | Some d => if (d =? date)%Z then Some entry else kept
               | None => kept
               end) lifestyle None.

(** [lifestyle_by_date.items()], without the key of the entries that have
    no date, which is the date of no reading. *)
Definition lifestyle_by_date (lifestyle : list LifestyleEntry)
  : list (Z * LifestyleEntry) :=
  flat_map (fun date =>
              match last_entry lifestyle date with
              | Some entry => [(date, entry)]
              | None => []
              end)
    (first_seen Z.eqb
       (flat_map (fun entry => match entry_date entry with
                               | Some d => [d]
                               | None => []
                               end) lifestyle)).

(** The readings of the days whose lifestyle entry satisfies [p]. *)
Definition readings_of_days (p : LifestyleEntry -> bool)
    (readings : list Reading) (lifestyle : list LifestyleEntry)
  : list Reading :=
  flat_map (fun item =>
              if p (snd item) then readings_by_date readings (fst item)
              else [])
    (lifestyle_by_date lifestyle).

Definition _analyze_lifestyle_patterns (readings : list Reading)
    (lifestyle : list LifestyleEntry) : list Pattern :=
  match lifestyle with
  | [] => []
  | _ =>
      (* Analyze stress correlation *)
      let is_high_stress entry :=
        Py.str_is (stress_level entry) "high"
        || Py.str_is (stress_level entry) "severe" in
      let high_stress_readings :=
        readings_of_days is_high_stress readings lifestyle in
      let low_stress_readings :=
        readings_of_days
          (fun entry =>
             negb (is_high_stress entry)
             && Py.str_is (stress_level entry) "low") readings lifestyle in
      let stress :=
        if ((3 <=? List.length high_stress_readings)
            && (3 <=? List.length low_stress_readings))%nat then
          let high_stress_avg := avg_systolic high_stress_readings in
          let low_stress_avg := avg_systolic low_stress_readings in
          if Rlt_dec 10 (high_stress_avg - low_stress_avg) then
            [{| type := "Stress Response";
                frequency := [Lit "On high-stress days"];
                severity := "moderate";
                description :=
                  [Lit "Blood pressure averages ";
                   F0 (high_stress_avg - low_stress_avg);
                   Lit " mmHg higher on days with high stress"] |}]
          else []
        else [] in
      (* Analyze exercise correlation *)
      let activity entry := Py.or_Q (physical_activity entry) 0 in
      let exercise_days :=
        readings_of_days (fun entry => Py.geQ (activity entry) 30)
          readings lifestyle in
      let no_exercise_days :=
        readings_of_days
          (fun entry =>
             negb (Py.geQ (activity entry) 30) && Py.ltQ (activity entry) 10)
          readings lifestyle in
      let exercise :=
        if ((3 <=? List.length exercise_days)
            && (3 <=? List.length no_exercise_days))%nat then
          let exercise_avg := avg_systolic exercise_days in
          let no_exercise_avg := avg_systolic no_exercise_days in
          if Rlt_dec 5 (no_exercise_avg - exercise_avg) then
            [{| type := "Exercise Benefit";
                frequency := [Lit "On active days"];
                severity := "low";
                description :=
                  [Lit "Blood pressure is ";
                   F0 (no_exercise_avg - exercise_avg);
                   Lit " mmHg lower on days with 30+ minutes of exercise"] |}]
          else []
        else [] in
      (* Analyze sleep correlation *)
      let sleep entry := Py.or_Q (sleep_duration entry) 7 in
      let poor_sleep_readings :=
        readings_of_days (fun entry => Py.ltQ (sleep entry) 6)
          readings lifestyle in
      let good_sleep_readings :=
        readings_of_days
          (fun entry => negb (Py.ltQ (sleep entry) 6) && Py.geQ (sleep entry) 7)
          readings lifestyle in
      let sleep_pattern :=
        if ((2 <=? List.length poor_sleep_readings)
            && (2 <=? List.length good_sleep_readings))%nat then
          let poor_sleep_avg := avg_systolic poor_sleep_readings in
          let good_sleep_avg := avg_systolic good_sleep_readings in
          if Rlt_dec 8 (poor_sleep_avg - good_sleep_avg) then
            [{| type := "Sleep Impact";
                frequency := [Lit "After poor sleep"];
                severity := "moderate";
                description :=
                  [Lit "Blood pressure is ";
                   F0 (poor_sleep_avg - good_sleep_avg);
                   Lit " mmHg higher after nights with less than 6 hours of sleep"] |}]
          else []
        else [] in
      stress ++ exercise ++ sleep_pattern
  end.

Definition _analyze_variability_patterns (readings : list Reading)
  : list Pattern :=
  if (List.length readings <? 7)%nat then []
  else
    let systolic_values :=
      map (fun r => IZR (systolic r)) (firstn 14 readings) in
    (* Calculate standard deviation *)
    let mean := sumR systolic_values / lenR systolic_values in
    let variance :=
      sumR (map (fun x => (x - mean) ^ 2) systolic_values)
      / lenR systolic_values in
    let std_dev := sqrt variance in
    if Rlt_dec 15 std_dev then
      [{| type := "High Variability";
          frequency := [Lit "Std dev: "; F1 std_dev; Lit " mmHg"];
          severity := "high";
          description :=
            [Lit "Your readings show high variability which may indicate inconsistent measurement technique or underlying issues"] |}]
    else if Rlt_dec std_dev 8 then
      [{| type := "Consistent Readings";
          frequency := [Lit "Std dev: "; F1 std_dev; Lit " mmHg"];
          severity := "low";
          description :=
            [Lit "Your blood pressure readings are consistent, indicating good measurement technique"] |}]
    else [].

(** [severity_order.get(x.severity, 3)]. *)
Definition severity_order (severity : string) : Z :=
  if String.eqb severity "high" then 0
  else if String.eqb severity "moderate" then 1
  else if String.eqb severity "low" then 2
  else 3.

(** The patterns of the five analyses, in the order in which
    [analyze_patterns] collects them. *)
Definition detect (readings : list Reading) (lifestyle : list LifestyleEntry)
  : list Pattern :=
  let patterns := _analyze_time_patterns readings in
  let patterns := patterns ++ _analyze_weekly_patterns readings in
  let patterns := patterns ++ _analyze_position_patterns readings in
  let patterns :=
    match lifestyle with
    | [] => patterns
    | _ => patterns ++ _analyze_lifestyle_patterns readings lifestyle
    end in
  patterns ++ _analyze_variability_patterns readings.

Definition analyze_patterns (db : Database) (settings : Settings)
    (patient_id : string) (days : Z) : result (list Pattern) :=
  match fetch_patient db patient_id with
  | None => Raise (PatientNotFoundError patient_id)
  | Some patient =>
      let readings := fetch_blood_pressure_readings db patient_id days in
      let lifestyle := fetch_lifestyle_entries db patient_id days in
      let n := Z.of_nat (List.length readings) in
      if (n <? min_readings_for_analysis settings)%Z then
        Raise (InsufficientDataError
                 [Py.Lit "Not enough readings for pattern analysis (have ";
                  Py.FInt n; Py.Lit ", need ";
                  Py.FInt (min_readings_for_analysis settings); Py.Lit ")"]
                 [("readings_count", n);
                  ("minimum_required", min_readings_for_analysis settings)])
      else
        let patterns := detect readings lifestyle in
        (* Sort by severity (high first) *)
        let patterns :=
          Py.sort_by (fun x => severity_order (severity x)) patterns in
        Ok (firstn 10 patterns)
  end.

End PatternAnalysis.

(** ** [app/models/responses.py]: the constraints of the response models

    Every response object is built by its pydantic model, which raises a
    [ValidationError] unless each [Literal] field holds one of its values
    and each [Field(ge=, le=)] number lies within its bounds.  The services
    above build the records directly; these are the constraints that the
    constructors check, per model. *)

Module Responses.

Open Scope string_scope.
Open Scope Z_scope.

(** [Literal[...]]: the value is one of the listed strings. *)
Definition literal (values : list string) (s : string) : bool :=
  existsb (String.eqb s) values.

(** [Field(ge=lo, le=hi)] on an [int]. *)
Definition ge_le (lo hi x : Z) : bool := (lo <=? x) && (x <=? hi).

(** [class Insight]. *)
Definition valid_Insight (i : Insights.Insight) : bool :=
  literal ["success"; "warning"; "info"; "danger"] (Insights.type i)
  && ge_le 1 5 (Insights.priority i).

(** [class RiskFactor]. *)
Definition valid_RiskFactor (f : RiskAssessment.RiskFactor) : bool :=
  literal ["low"; "moderate"; "high"] (RiskAssessment.impact f).

(** [class RiskAssessment]. *)
Definition valid_RiskAssessment (r : RiskAssessment.RiskAssessment) : bool :=
  literal ["low"; "moderate"; "high"; "critical"]
    (RiskAssessment.overallRisk r)
  && ge_le 0 100 (RiskAssessment.riskScore r)
  && forallb valid_RiskFactor (RiskAssessment.factors r).

(** [class TrendPrediction]. *)
Definition valid_TrendPrediction (p : Predictions.TrendPrediction) : bool :=
  ge_le 0 100 (Predictions.confidence p)
  && literal ["improving"; "stable"; "worsening"] (Predictions.trend p).

(** [class HealthCategory]. *)
Definition valid_HealthCategory (c : HealthScore.HealthCategory) : bool :=
  ge_le 0 100 (HealthScore.score c)
  && literal ["excellent"; "good"; "fair"; "poor"] (HealthScore.status c).

(** [class HealthScore]. *)
Definition valid_HealthScore (h : HealthScore.HealthScore) : bool :=
  ge_le 0 100 (HealthScore.overall h)
  && forallb valid_HealthCategory (HealthScore.categories h).

(** [class Correlation]: the coefficient is a float, so that its bounds are
    a proposition. *)
Definition valid_Correlation (c : Correlations.Correlation) : Prop :=
  (-1 <= Correlations.correlation c <= 1)%R
  /\ literal ["weak"; "moderate"; "strong"] (Correlations.strength c) = true
  /\ literal ["positive"; "negative"] (Correlations.direction c) = true.

(** [class Pattern]. *)
Definition valid_Pattern (p : PatternAnalysis.Pattern) : bool :=
  literal ["low"; "moderate"; "high"] (PatternAnalysis.severity p).

End Responses.

(** ** [app/utils/cache.py]: the decorator [cached_analysis]

    The wrapper looks the patient up under the analysis type alone (no
    keyword goes into the key), returns what it finds, and otherwise runs
    the analysis and stores its result.  [func] is the decorated coroutine,
    [args] stands for its other arguments. *)

Module CachedAnalysis.

Section Decorator.

Context {V A : Type}.

Definition cached_analysis (analysis_type : string)
    (func : string -> A -> result V)
    (_cache : option (gmap string V)) (patient_id : string) (args : A)
  : result V * option (gmap string V) :=
  (* Check cache *)
  match AnalysisCache.get _cache patient_id analysis_type [] with
  | Some cached => (Ok cached, _cache)
  | None =>
      (* Run analysis *)
      match func patient_id args with
      | Raise e => (Raise e, _cache)
      | Ok result =>
          (* Cache result *)
          (Ok result,
           AnalysisCache.set _cache patient_id analysis_type result [])
      end
  end.

End Decorator.

End CachedAnalysis.

(** ** [app/errors/handlers.py]: what the exception classes carry, and the
    handler

    [AnalysisError] above lists what the code raises; its last four
    constructors stand for built-in exceptions and are no instances of the
    Python class [AnalysisError]. *)

Module Errors.

Open Scope string_scope.
Open Scope Z_scope.

(** The attributes that [AnalysisError.__init__] sets. *)
Record instance : Type := {
  code : string;
  message : Py.fstring;
  status_code : Z;
  details : Json.dict
}.

(** The instance that each subclass builds; [None] for an exception that
    is no [AnalysisError]. *)
Definition instance_of (e : AnalysisError) : option instance :=
  match e with
  | PatientNotFoundError patient_id =>
      Some {| code := "PATIENT_NOT_FOUND";
              message :=
                [Py.Lit "Patient with ID "; Py.FStr patient_id;
                 Py.Lit " not found"];
              status_code := 404;
              details := [("patient_id", Json.JStr patient_id)] |}
  | InsufficientDataError message details =>
      Some {| code := "INSUFFICIENT_DATA";
              message := message;
              status_code := 400;
              details := map (fun kv => (fst kv, Json.JInt (snd kv))) details |}
  | AnalysisFailedError message =>
      Some {| code := "ANALYSIS_FAILED";
              message := message;
              status_code := 500;
              details := [] |}
  | ZeroDivisionError => None
  | IndexError => None
  | AttributeError => None
  | TypeError => None
  end.

(** A [JSONResponse] with the body [{"error": {"code": ..., "message": ...,
    "details": ...}}]. *)
Record JSONResponse : Type := {
  response_status : Z;
  error_code : string;
  error_message : Py.fstring;
  error_details : Json.dict
}.

Definition analysis_error_handler (exc : instance) : JSONResponse :=
  {| response_status := status_code exc;
     error_code := code exc;
     error_message := message exc;
     error_details := details exc |}.

End Errors.

(** ** [app/models/requests.py] and [app/routers/analysis.py]

    The cache holds what the endpoints store in it: for the insights and
    the predictions the list of the [dict()] of each item, for the other
    analyses the [dict()] of the response.  A [dict()] is modelled by the
    record it was made from, and the response model built from it by that
    record again.  An endpoint returns a response, or raises: an
    [AnalysisError], which it lets through to the handler, or the
    [HTTPException] of status 500 that it makes of any other exception. *)

Module Router.

Open Scope string_scope.
Open Scope Z_scope.

(** A [datetime] of a request, as pydantic parses it: an instant in
    microseconds, and whether it carries an offset from UTC ([tzinfo]); the
    instant of one that carries none is that of its wall clock. *)
Record datetime : Type := {
  instant : Z;
  tzinfo : bool
}.

Module TimeRange.
Record t : Type := {
  start_date : option datetime;
  end_date : option datetime
}.
End TimeRange.

Module AnalysisRequest.
Record t : Type := {
  patient_id : string;
  time_range : option TimeRange.t
}.
End AnalysisRequest.

Module ForecastRequest.
Record t : Type := {
  patient_id : string;
  metric : string;
  forecast_days : Z
}.

(** [forecast_days: int = Field(default=30, ge=7, le=90)]. *)
Definition valid (request : t) : bool :=
  (7 <=? forecast_days request) && (forecast_days request <=? 90).
End ForecastRequest.

Inductive Cached : Type :=
| CInsights (insights : list Insights.Insight)
| CRiskAssessment (assessment : RiskAssessment.RiskAssessment)
| CPredictions (predictions : list Predictions.TrendPrediction)
| CHealthScore (score : HealthScore.HealthScore)
| CPatterns (patterns : list PatternAnalysis.Pattern)
| CCorrelations (correlations : list Correlations.Correlation)
| CForecast (forecast : Forecast.TimeSeriesForecast).

(** Truth value of a cached object: a list is false when empty; the
    [dict()] of a response has its fields, and is true. *)
Definition truthy (cached : Cached) : bool :=
  match cached with
  | CInsights [] => false
  | CPredictions [] => false
  | _ => true
  end.

(** [cached = AnalysisCache.get(...)] followed by [if cached:]. *)
Definition hit (cached : option Cached) : option Cached :=
  match cached with
  | Some c => if truthy c then Some c else None
  | None => None
  end.

Inductive outcome (A : Type) : Type :=
| Return (response : A)
| RaiseAnalysisError (e : AnalysisError)
| RaiseHTTPException (status_code : Z) (detail : string).

Arguments Return {A} response.
Arguments RaiseAnalysisError {A} e.
Arguments RaiseHTTPException {A} status_code detail.

(** The two [except] clauses of every endpoint: [except AnalysisError:
    raise], and [except Exception as e: raise HTTPException(status_code=500,
    detail=str(e))]. *)
Definition except_ {A : Type} (e : AnalysisError) : outcome A :=
  match e with
  | PatientNotFoundError _ => RaiseAnalysisError e
  | InsufficientDataError _ _ => RaiseAnalysisError e
  | AnalysisFailedError _ => RaiseAnalysisError e
  | ZeroDivisionError => RaiseHTTPException 500 "division by zero"
  | IndexError => RaiseHTTPException 500 "list index out of range"
  | AttributeError =>
      RaiseHTTPException 500 "'NoneType' object has no attribute 'get'"
  | TypeError =>
      RaiseHTTPException 500
        "can't subtract offset-naive and offset-aware datetimes"
  end.

(** What [request.time_range.end_date - request.time_range.start_date]
    raises, if the time range has both ends: a [TypeError] when one of them
    carries an offset and the other does not. *)
Definition days_error (request : AnalysisRequest.t) : option AnalysisError :=
  match AnalysisRequest.time_range request with
  | Some range =>
      match TimeRange.start_date range, TimeRange.end_date range with
      | Some start_date, Some end_date =>
          if Bool.eqb (tzinfo start_date) (tzinfo end_date) then None
          else Some TypeError
      | _, _ => None
      end
  | None => None
  end.

(** The days of an [AnalysisRequest] whose subtraction raises nothing: the
    whole days of the time range if it has both ends ([timedelta.days]
    rounds down), the default otherwise. *)
Definition days_of (settings : Settings) (request : AnalysisRequest.t) : Z :=
  match AnalysisRequest.time_range request with
  | Some range =>
      match TimeRange.start_date range, TimeRange.end_date range with
      | Some start_date, Some end_date =>
          (instant end_date - instant start_date) / Predictions.day_us
      | _, _ => default_analysis_days settings
      end
  | None => default_analysis_days settings
  end.

Section Endpoints.

(** The text of the [ValidationError] that a response model raises on a
    cached object of another shape. *)
Variable validation_error : Cached -> string.

Variables (db : Database) (settings : Settings).

(** The response model built from the cached object. *)
Definition from_cache {A : Type} (load : Cached -> option A) (cached : Cached)
  : outcome A :=
  match load cached with
  | Some response => Return response
  | None => RaiseHTTPException 500 (validation_error cached)
  end.

Definition get_insights (now : string) (_cache : option (gmap string Cached))
    (request : AnalysisRequest.t)
  : outcome (list Insights.Insight) * option (gmap string Cached) :=
  let patient_id := AnalysisRequest.patient_id request in
  match days_error request with
  | Some e => (except_ e, _cache)
  | None =>
    let days := days_of settings request in
    (* Check cache *)
    match hit (AnalysisCache.get _cache patient_id "insights"
                 [("days", Json.JInt days)]) with
    | Some cached =>
        (from_cache (fun c => match c with
                              | CInsights insights => Some insights
                              | _ => None
                              end) cached, _cache)
    | None =>
        match Insights.generate_insights db settings now patient_id days with
        | Raise e => (except_ e, _cache)
        | Ok insights =>
            (* Cache result *)
            (Return insights,
             AnalysisCache.set _cache patient_id "insights" (CInsights insights)
               [("days", Json.JInt days)])
        end
    end
  end.

Definition get_risk_assessment (_cache : option (gmap string Cached))
    (request : AnalysisRequest.t)
  : outcome RiskAssessment.RiskAssessment * option (gmap string Cached) :=
  let patient_id := AnalysisRequest.patient_id request in
  match days_error request with
  | Some e => (except_ e, _cache)
  | None =>
    let days := days_of settings request in
    match hit (AnalysisCache.get _cache patient_id "risk_assessment"
                 [("days", Json.JInt days)]) with
    | Some cached =>
        (from_cache (fun c => match c with
                              | CRiskAssessment assessment => Some assessment
                              | _ => None
                              end) cached, _cache)
    | None =>
        match RiskAssessment.calculate_risk_assessment db settings patient_id
                days with
        | Raise e => (except_ e, _cache)
        | Ok assessment =>
            (Return assessment,
             AnalysisCache.set _cache patient_id "risk_assessment"
               (CRiskAssessment assessment) [("days", Json.JInt days)])
        end
    end
  end.

Definition get_predictions (_cache : option (gmap string Cached))
    (request : AnalysisRequest.t)
  : outcome (list Predictions.TrendPrediction)
    * option (gmap string Cached) :=
  let patient_id := AnalysisRequest.patient_id request in
  match days_error request with
  | Some e => (except_ e, _cache)
  | None =>
    let days := days_of settings request in
    match hit (AnalysisCache.get _cache patient_id "predictions"
                 [("days", Json.JInt days)]) with
    | Some cached =>
        (from_cache (fun c => match c with
                              | CPredictions predictions => Some predictions
                              | _ => None
                              end) cached, _cache)
    | None =>
        match Predictions.calculate_predictions db settings patient_id days with
        | Raise e => (except_ e, _cache)
        | Ok predictions =>
            (Return predictions,
             AnalysisCache.set _cache patient_id "predictions"
               (CPredictions predictions) [("days", Json.JInt days)])
        end
    end
  end.

Definition get_health_score (_cache : option (gmap string Cached))
    (request : AnalysisRequest.t)
  : outcome HealthScore.HealthScore * option (gmap string Cached) :=
  let patient_id := AnalysisRequest.patient_id request in
  match days_error request with
  | Some e => (except_ e, _cache)
  | None =>
    let days := days_of settings request in
    match hit (AnalysisCache.get _cache patient_id "health_score"
                 [("days", Json.JInt days)]) with
    | Some cached =>
        (from_cache (fun c => match c with
                              | CHealthScore score => Some score
                              | _ => None
                              end) cached, _cache)
    | None =>
        match HealthScore.calculate_health_score db settings patient_id days with
        | Raise e => (except_ e, _cache)
        | Ok score =>
            (Return score,
             AnalysisCache.set _cache patient_id "health_score"
               (CHealthScore score) [("days", Json.JInt days)])
        end
    end
  end.

Definition get_patterns (_cache : option (gmap string Cached))
    (request : AnalysisRequest.t)
  : outcome (list PatternAnalysis.Pattern) * option (gmap string Cached) :=
  let patient_id := AnalysisRequest.patient_id request in
  match days_error request with
  | Some e => (except_ e, _cache)
  | None =>
    let days := days_of settings request in
    match hit (AnalysisCache.get _cache patient_id "patterns"
                 [("days", Json.JInt days)]) with
    | Some cached =>
        (from_cache (fun c => match c with
                              | CPatterns patterns => Some patterns
                              | _ => None
                              end) cached, _cache)
    | None =>
        match PatternAnalysis.analyze_patterns db settings patient_id days with
        | Raise e => (except_ e, _cache)
        | Ok analysis =>
            (Return analysis,
             AnalysisCache.set _cache patient_id "patterns" (CPatterns analysis)
               [("days", Json.JInt days)])
        end
    end
  end.

Definition get_correlations (_cache : option (gmap string Cached))
    (request : AnalysisRequest.t)
  : outcome (list Correlations.Correlation) * option (gmap string Cached) :=
  let patient_id := AnalysisRequest.patient_id request in
  match days_error request with
  | Some e => (except_ e, _cache)
  | None =>
    let days := days_of settings request in
    match hit (AnalysisCache.get _cache patient_id "correlations"
                 [("days", Json.JInt days)]) with
    | Some cached =>
        (from_cache (fun c => match c with
                              | CCorrelations correlations => Some correlations
                              | _ => None
                              end) cached, _cache)
    | None =>
        match CorrelationAnalysis.analyze_correlations db settings patient_id
                days with
        | Raise e => (except_ e, _cache)
        | Ok analysis =>
            (Return analysis,
             AnalysisCache.set _cache patient_id "correlations"
               (CCorrelations analysis) [("days", Json.JInt days)])
        end
    end
  end.

(** [generate_forecast] is called without [history_days], which is then
    60. *)
Definition get_forecast (_cache : option (gmap string Cached))
    (request : ForecastRequest.t)
  : outcome Forecast.TimeSeriesForecast * option (gmap string Cached) :=
  let patient_id := ForecastRequest.patient_id request in
  let kwargs :=
    [("metric", Json.JStr (ForecastRequest.metric request));
     ("days", Json.JInt (ForecastRequest.forecast_days request))] in
  match hit (AnalysisCache.get _cache patient_id "forecast" kwargs) with
  | Some cached =>
      (from_cache (fun c => match c with
                            | CForecast forecast => Some forecast
                            | _ => None
                            end) cached, _cache)
  | None =>
      match Forecast.generate_forecast db settings patient_id
              (ForecastRequest.metric request)
              (ForecastRequest.forecast_days request) 60 with
      | Raise e => (except_ e, _cache)
      | Ok forecast =>
          (Return forecast,
           AnalysisCache.set _cache patient_id "forecast" (CForecast forecast)
             kwargs)
      end
  end.

End Endpoints.

(** [POST /invalidate-cache/{patient_id}]: the message and the cache. *)
Definition invalidate_patient_cache (_cache : option (gmap string Cached))
    (patient_id : string) : Py.fstring * option (gmap string Cached) :=
  ([Py.Lit "Cache invalidated for patient "; Py.FStr patient_id],
   AnalysisCache.invalidate _cache patient_id).

End Router.

(* ================================================================== *)
(** * Part II: the vocabulary of the statements, and fixtures *)
(* ================================================================== *)

(** The order of a sort key. *)
Definition le_by {A : Type} (key : A -> Z) (x y : A) : Prop :=
  (key x <= key y)%Z.

(** ** The cache *)

Section CacheVocabulary.

Context {V : Type}.

(** The lower-case hexadecimal digits, of which [hexdigest] is made. *)
Definition is_hex (c : ascii) : bool :=
  let n := nat_of_ascii c in
  (((48 <=? n) && (n <=? 57)) || ((97 <=? n) && (n <=? 102)))%nat.

Fixpoint all_hex (s : string) : bool :=
  match s with
  | EmptyString => true
  | String c s' => is_hex c && all_hex s'
  end.

(** Every cache key is the digest of some serialised request. *)
Definition keys_are_digests (c : option (gmap string V)) : Prop :=
  forall m k v, c = Some m -> m !! k = Some v -> exists s, k = MD5.hexdigest s.

End CacheVocabulary.

(** ** Risk assessment *)

Section RiskVocabulary.

Import RiskAssessment.
Open Scope Z_scope.

(** The recommendation that goes first, by overall risk label. *)
Definition top_recommendation (overall_risk : string) : string :=
  if String.eqb overall_risk "critical" then
    "Schedule urgent appointment with your healthcare provider"
  else if String.eqb overall_risk "high" then
    "Schedule follow-up appointment within 1-2 weeks"
  else if String.eqb overall_risk "moderate" then
    "Continue regular monitoring and follow treatment plan"
  else "Maintain your healthy lifestyle habits".

End RiskVocabulary.

(** ** Validation *)

Section ValidationVocabulary.

Open Scope Z_scope.

(** The [details] of the error: the actual and the required count. *)
Definition counts (n minimum : Z) : list (string * Z) :=
  [("readings_count"%string, n); ("minimum_required"%string, minimum)].

End ValidationVocabulary.

(** ** Insights *)

Section InsightsVocabulary.

Import Insights.
Open Scope Z_scope.

(** The titles of the list are all different from [s]. *)
Definition no_title (s : string) (l : list Insight) : Prop :=
  Forall (fun i => title i <> s) l.

End InsightsVocabulary.

(** ** Health score *)

Section HealthScoreVocabulary.

Import HealthScore.
Open Scope Z_scope.

(** The weights of the specification, by category name. *)
Definition spec_weight (c : HealthCategory) : Q :=
  if String.eqb (name c) "Blood Pressure Control" then 35 # 100
  else if String.eqb (name c) "Medication Adherence" then 25 # 100
  else if String.eqb (name c) "Lifestyle Factors" then 20 # 100
  else if String.eqb (name c) "Monitoring Consistency" then 10 # 100
  else 10 # 100.

(** The weighted mean of the categories of a list, normalised by the sum
    of their weights. *)
Definition weighted_mean (cs : list HealthCategory) : Q :=
  (Py.sumQ (map (fun c => inject_Z (score c) * spec_weight c) cs)
   / Py.sumQ (map spec_weight cs))%Q.

End HealthScoreVocabulary.

(** ** Trend prediction *)

Section PredictionVocabulary.

Import Predictions.
Open Scope Q_scope.

(** The values [yl] lie on the line [a + b * x] over the positions [xl]. *)
Definition on_line (a b : Q) (xl yl : list Q) : Prop :=
  Forall2 (fun x y => y == a + b * x) xl yl.

(** The values the regression runs on: the metric of the readings, oldest
    first. *)
Definition series (metric_key : string) (readings : list Reading) : list Q :=
  map (fun r => inject_Z (value_of metric_key r))
    (Py.sort_by measurement_date readings).

(** The values averaged into [current_value]. *)
Definition recent (values : list Q) : list Q :=
  if (7 <=? List.length values)%nat then Py.lastn 7 values else values.

(** The plausible range of a metric, as [reasonable] has it. *)
Definition plausible_range (metric_key : string) : Z * Z :=
  if String.eqb metric_key "systolic" then (80, 200)%Z
  else if String.eqb metric_key "diastolic" then (50, 130)%Z
  else (40, 150)%Z.

End PredictionVocabulary.

(** ** Correlation analysis *)

Section CorrelationVocabulary.

Import PyR Correlations.
Open Scope R_scope.

(** The textbook coefficient of a list of pairs: the sum of products of
    the deviations from the two means, over the product of the square
    roots of the two sums of squared deviations. *)
Definition pearson (pairs : list (R * R)) : R :=
  let mx := meanR (map fst pairs) in
  let my := meanR (map snd pairs) in
  sumR (map (fun p => (fst p - mx) * (snd p - my)) pairs)
  / (sqrt (sumR (map (fun p => (fst p - mx) * (fst p - mx)) pairs))
     * sqrt (sumR (map (fun p => (snd p - my) * (snd p - my)) pairs))).

End CorrelationVocabulary.

(** ** Forecast *)

Section ForecastVocabulary.

Import PyR Forecast.
Open Scope R_scope.

(** The range the predicted value is kept in, by metric. *)
Definition plausible (metric : string) : R * R :=
  if String.eqb metric "systolic" then (80, 200)
  else if String.eqb metric "diastolic" then (50, 130)
  else (40, 150).

(** The wider limits of the two bounds, by metric. *)
Definition wider (metric : string) : R * R :=
  if String.eqb metric "systolic" then (70, 220)
  else if String.eqb metric "diastolic" then (40, 150)
  else (30, 180).

End ForecastVocabulary.

(** ** Tactics *)

(** Splits every conditional of the goal. *)
Ltac split_ifs :=
  repeat match goal with
         | |- context [if ?c then _ else _] => destruct c
         end.

Ltac other_titles :=
  unfold no_title, Insights.when;
  repeat match goal with
         | |- Forall _ (_ ++ _) => apply Forall_app; split
         | |- Forall _ (if ?c then _ else _) => destruct c
         | |- Forall _ (match ?l with [] => _ | _ :: _ => _ end) => destruct l
         | |- Forall _ (_ :: _) => constructor; [cbn; discriminate|]
         | |- Forall _ [] => constructor
         end.

Ltac weights_values :=
  change (HealthScore.weights "Blood Pressure Control") with (35 # 100)%Q;
  change (HealthScore.weights "Medication Adherence") with (25 # 100)%Q;
  change (HealthScore.weights "Lifestyle Factors") with (20 # 100)%Q;
  change (HealthScore.weights "Monitoring Consistency") with (10 # 100)%Q;
  change (HealthScore.weights "Sleep & Recovery") with (10 # 100)%Q.

(** ** Fixtures: the data of the test suite ([tests/test_risk.py],
    [tests/test_insights.py], [tests/test_predictions.py]) and of the
    scenarios of the specification *)

(** A database that answers every query with the same rows. *)
Definition db_of (patient : option Patient) (readings : list Reading)
    (medications : list Medication) (lifestyle : list LifestyleEntry)
  : Database :=
  {| fetch_patient := fun _ => patient;
     fetch_blood_pressure_readings := fun _ _ => readings;
     fetch_medications := fun _ => medications;
     fetch_lifestyle_entries := fun _ _ => lifestyle |}.

(** The instant the fixtures count back from, in microseconds. *)
Definition mock_now : Z := 1762171200000000.

(** [test_risk.MOCK_PATIENT]. *)
Definition MOCK_PATIENT : Patient :=
  {| users := UsersRow (Some 55%Z);
     medical_history := Some "Type 2 Diabetes"%string |}.

(** [test_risk.MOCK_HIGH_BP_READINGS]: twenty readings, one a day. *)
Definition MOCK_HIGH_BP_READINGS : list Reading :=
  map (fun k =>
         let i := Z.of_nat k in
         {| systolic := 155 + i mod 15;
            diastolic := 95 + i mod 10;
            pulse := Some 80;
            measurement_date := mock_now - i * Predictions.day_us;
            time_of_day := None;
            position := None |}%Z)
    (seq 0 20).

(** [test_risk.MOCK_MEDICATIONS_LOW_ADHERENCE]. *)
Definition MOCK_MEDICATIONS_LOW_ADHERENCE : list Medication :=
  [{| med_name := "Lisinopril"; active := Some true;
      adherence_rate := Some (65 # 1) |}].

(** The database of [test_high_risk_assessment]. *)
Definition high_risk_db : Database :=
  db_of (Some MOCK_PATIENT) MOCK_HIGH_BP_READINGS
    MOCK_MEDICATIONS_LOW_ADHERENCE [].

(** A patient with only three readings in the window. *)
Definition three_readings_db : Database :=
  db_of (Some MOCK_PATIENT) (firstn 3 MOCK_HIGH_BP_READINGS) [] [].

(** [test_insights.MOCK_READINGS]: thirty readings, one a day, mornings
    and evenings alternating. *)
Definition MOCK_READINGS : list Reading :=
  map (fun k =>
         let i := Z.of_nat k in
         {| systolic := 135 + i mod 10;
            diastolic := 85 + i mod 5;
            pulse := Some 72;
            measurement_date := mock_now - i * Predictions.day_us;
            time_of_day :=
              Some (if (i mod 2 =? 0)%Z then "morning"%string
                    else "evening"%string);
            position := None |}%Z)
    (seq 0 30).

(** [test_insights.MOCK_MEDICATIONS]. *)
Definition MOCK_MEDICATIONS : list Medication :=
  [{| med_name := "Lisinopril"; active := Some true;
      adherence_rate := Some (92 # 1) |}].

(** [test_insights.MOCK_LIFESTYLE]. *)
Definition MOCK_LIFESTYLE : list LifestyleEntry :=
  [{| entry_date := Some (mock_now / Predictions.day_us)%Z;
      physical_activity := Some (30 # 1);
      diet_quality := Some "moderate"%string;
      salt_intake := Some "moderate"%string;
      sleep_duration := Some (7 # 1);
      sleep_quality := None;
      stress_level := Some "moderate"%string;
      water_intake := None;
      weight := None;
      alcohol_consumption := None;
      smoking_status := None;
      sodium_mg := None;
      caffeine_intake := None |}].

(** The database of [test_generate_insights_success]. *)
Definition insights_db : Database :=
  db_of (Some MOCK_PATIENT) MOCK_READINGS MOCK_MEDICATIONS MOCK_LIFESTYLE.

(** Seven readings of 135/80 with no time-of-day label: no medication, no
    lifestyle entry. *)
Definition steady_readings : list Reading :=
  map (fun k =>
         {| systolic := 135;
            diastolic := 80;
            pulse := None;
            measurement_date := mock_now - Z.of_nat k * Predictions.day_us;
            time_of_day := None;
            position := None |}%Z)
    (seq 0 7).

Definition steady_db : Database :=
  db_of (Some MOCK_PATIENT) steady_readings [] [].

(** The cache after one [set] for the patient of the tests. *)
Definition one_entry_cache : option (gmap string string) :=
  AnalysisCache.set None "test-patient-id" "insights" "cached"%string
    [("days"%string, Json.JInt 30)].

(** A database without the patient. *)
Definition unknown_patient_db : Database := db_of None [] [] [].

(** A patient with no reading, no medication and no lifestyle entry. *)
Definition no_data_db : Database := db_of (Some MOCK_PATIENT) [] [] [].

(** Seven readings of 210/120, one a day. *)
Definition crisis_readings : list Reading :=
  map (fun k =>
         {| systolic := 210;
            diastolic := 120;
            pulse := None;
            measurement_date := mock_now - Z.of_nat k * Predictions.day_us;
            time_of_day := None;
            position := None |}%Z)
    (seq 0 7).

(** [test_predictions.MOCK_IMPROVING_READINGS], with the first reading
    [s] for its 150: thirty daily readings, each 1 mmHg below the one of
    the day before. *)
Definition decreasing_readings (s : Z) : list Reading :=
  map (fun k =>
         let i := Z.of_nat k in
         {| systolic := s - i;
            diastolic := 90 - i / 2;
            pulse := Some 72;
            measurement_date := mock_now - (29 - i) * Predictions.day_us;
            time_of_day := None;
            position := None |}%Z)
    (seq 0 30).

(** Five days on which the second column is twice the first. *)
Definition doubled_days (date : Z) (key : string) : option R :=
  if String.eqb key "systolic" then Some (IZR date)
  else if String.eqb key "pulse" then Some (2 * IZR date)%R
  else None.

(** The same five days in binary64. *)
Definition doubled_days64 (date : Z) (key : string) : option float :=
  if String.eqb key "systolic" then Some (Correlations64.of_int date)
  else if String.eqb key "pulse" then Some (Correlations64.of_int (2 * date))
  else None.

(** Days on which the mean systolic pressure is 362/3 and the mean
    diastolic pressure 266/3, as on a day with the three readings 120/88,
    121/89 and 121/89: over the reals, and as [_build_daily_data] computes
    the two means in binary64. *)
Definition equal_days (date : Z) (key : string) : option R :=
  if String.eqb key "systolic" then Some (362 / 3)%R
  else if String.eqb key "diastolic" then Some (266 / 3)%R
  else None.

Definition equal_days64 (date : Z) (key : string) : option float :=
  if String.eqb key "systolic"
  then Some (Correlations64.of_int 362 / Correlations64.of_int 3)%float
  else if String.eqb key "diastolic"
  then Some (Correlations64.of_int 266 / Correlations64.of_int 3)%float
  else None.

(** Sixty days of history with the value 150 on each. *)
Definition flat_history : list Forecast.HistoricalDataPoint :=
  map (fun k => {| Forecast.date := Z.of_nat k; Forecast.value := 150%R |})
    (seq 0 60).

(** ** The response models, the cache key, the analyses and the endpoints *)

Section CollectedInsights.

Import Insights.

(** The insights of the four analyses, in the order in which
    [generate_insights] collects them, before it sorts and cuts. *)
Definition collected_insights (readings : list Reading)
    (medications : list Medication) (lifestyle : list LifestyleEntry)
    (now : string) : list Insight :=
  let insights := _analyze_bp_patterns readings now in
  let insights :=
    match medications with
    | [] => insights
    | _ => insights ++ _analyze_medication_adherence medications now
    end in
  let insights :=
    match lifestyle with
    | [] => insights
    | _ => insights ++ _analyze_lifestyle lifestyle now
    end in
  insights ++ _analyze_time_patterns readings now.

(** What holds of every insight that the analyses build: the [Insight]
    model accepts it, and its priority is at most 4. *)
Definition accepted (i : Insight) : Prop :=
  Responses.valid_Insight i = true /\ (1 <= priority i <= 4)%Z.

End CollectedInsights.

Section ForecastNames.

Open Scope string_scope.

(** The metric that [generate_forecast] works on: the requested one if it
    is one of the three it knows, the systolic pressure otherwise. *)
Definition effective_metric (metric : string) : string :=
  if String.eqb metric "systolic" || String.eqb metric "diastolic"
     || String.eqb metric "pulse"
  then metric else "systolic".

(** The name under which the forecast of a metric is returned. *)
Definition display_name (metric : string) : string :=
  if String.eqb metric "diastolic" then "Diastolic BP"
  else if String.eqb metric "pulse" then "Heart Rate"
  else "Systolic BP".

End ForecastNames.

(** A patient whose seven readings are all in the critical range. *)
Definition crisis_db : Database :=
  db_of (Some MOCK_PATIENT) crisis_readings [] [].

(** The database of [test_improving_trend_prediction]. *)
Definition improving_db : Database :=
  db_of (Some MOCK_PATIENT) (decreasing_readings 150) [] [].

Section JsonVocabulary.

(** [d.get(k)] on a dictionary in insertion order. *)
Fixpoint dict_get (k : string) (d : Json.dict) : option Json.jval :=
  match d with
  | [] => None
  | (k', v) :: t => if String.eqb k k' then Some v else dict_get k t
  end.

(** The order of [sort_keys=True]. *)
Definition key_leb (a b : string * Json.jval) : bool :=
  String.leb (fst a) (fst b).

End JsonVocabulary.

Section CorrelationFactors.

Import CorrelationAnalysis.

(** The ten factors that [analyze_correlations] relates to the systolic
    pressure. *)
Definition factor_names : list string :=
  ["Sodium Intake"; "Physical Activity"; "Sleep Duration"; "Stress Level";
   "Body Weight"; "Water Intake"; "Caffeine Intake"; "Alcohol Consumption";
   "Diastolic BP"; "Heart Rate"]%string.

(** The sign that the direction of a correlation announces, with the
    least magnitude that is reported. *)
Definition signed (c : Correlations.Correlation) : Prop :=
  (Correlations.direction c = "positive"%string
   /\ (1 / 10 <= Correlations.correlation c)%R)
  \/ (Correlations.direction c = "negative"%string
      /\ (Correlations.correlation c <= - (1 / 10))%R).

End CorrelationFactors.

Section PatternVocabulary.

Import PyR PatternAnalysis.
Open Scope R_scope.

(** The rank of the severity of a pattern: 0 for "high", 1 for "moderate",
    2 for "low". *)
Definition rank (p : Pattern) : Z := severity_order (severity p).

(** At most [n] patterns, each accepted by the [Pattern] model. *)
Definition bounded (n : nat) (l : list Pattern) : Prop :=
  (List.length l <= n)%nat
  /\ Forall (fun p => Responses.valid_Pattern p = true) l.

(** The population variance of the systolic pressure over the fourteen
    latest readings. *)
Definition systolic_variance (readings : list Reading) : R :=
  let values := map (fun r => IZR (systolic r)) (firstn 14 readings) in
  meanR (map (fun x => (x - meanR values) * (x - meanR values)) values).

End PatternVocabulary.

(** ** The endpoints *)

Section RouterVocabulary.

Import Router.

(** The response that the handler registered in [main.py] makes of a
    raised [AnalysisError]. *)
Definition error_response (e : AnalysisError) : option Errors.JSONResponse :=
  option_map Errors.analysis_error_handler (Errors.instance_of e).

(** The endpoint raised instead of returning a response. *)
Definition raises {A : Type} (o : outcome A) : bool :=
  match o with
  | Return _ => false
  | _ => true
  end.

(** A call that raises leaves the cache as it found it. *)
Definition keeps_cache_on_failure {A : Type}
    (cache : option (gmap string Cached))
    (result : outcome A * option (gmap string Cached)) : Prop :=
  raises (fst result) = true -> snd result = cache.

(** Whatever [endpoint] returns on [cache], it returns again on the cache
    that this call left, whatever the database then holds, and leaves that
    cache as it is. *)
Definition answered_from_cache {A Request : Type}
    (endpoint : Database -> option (gmap string Cached) -> Request
                -> outcome A * option (gmap string Cached))
    (db : Database) (cache : option (gmap string Cached))
    (request : Request) : Prop :=
  forall response cache',
    endpoint db cache request = (Return response, cache') ->
    forall db', endpoint db' cache' request = (Return response, cache').

End RouterVocabulary.

(** The request of the tests: the patient [test-patient-id], no time
    range. *)
Definition test_request : Router.AnalysisRequest.t :=
  {| Router.AnalysisRequest.patient_id := "test-patient-id";
     Router.AnalysisRequest.time_range := None |}.

(* ================================================================== *)
(** * Part III: properties *)
(* ================================================================== *)

(** ** The cache: what [invalidate] removes *)

Section CacheFacts.

Context {V : Type}.

Lemma hexchar_is_hex n : is_hex (MD5.hexchar n) = true.
Proof.
  unfold MD5.hexchar.
  destruct n as [|p|p]; try reflexivity.
  do 4 (destruct p as [p|p|]; try reflexivity).
Qed.

Lemma hex_all_hex bs : all_hex (MD5.hex bs) = true.
Proof.
  induction bs as [|b t IH]; simpl; [reflexivity|].
  now rewrite !hexchar_is_hex, IH.
Qed.

Lemma hexdigest_all_hex s : all_hex (MD5.hexdigest s) = true.
Proof. apply hex_all_hex. Qed.

Lemma prefix_all_hex a s :
  String.prefix a s = true -> all_hex s = true -> all_hex a = true.
Proof.
  revert s. induction a as [|c a IH]; intros s Hp Hs; [reflexivity|].
  destruct s as [|d s]; simpl in Hp; [discriminate|].
  destruct (ascii_dec c d) as [->|]; [|discriminate].
  simpl in Hs |- *. apply andb_true_iff in Hs as [Hd Hs].
  rewrite Hd. simpl. eauto.
Qed.

Lemma str_in_all_hex needle s :
  Py.str_in needle s = true -> all_hex s = true -> all_hex needle = true.
Proof.
  induction s as [|d s IH]; cbn [Py.str_in].
  - destruct (String.prefix needle "") eqn:Hp; [|discriminate].
    intros _ Hs. eapply prefix_all_hex; eauto.
  - destruct (String.prefix needle (String d s)) eqn:Hp; intros Hin Hs.
    + eapply prefix_all_hex; eauto.
    + apply andb_true_iff in Hs as [_ Hs]. auto.
Qed.

Lemma set_keeps_digests (c : option (gmap string V)) p t (v : V) kw :
  keys_are_digests c -> keys_are_digests (AnalysisCache.set c p t v kw).
Proof.
  intros Hc m k w Hm Hk. unfold AnalysisCache.set in Hm.
  injection Hm as <-.
  destruct (decide (k = AnalysisCache._make_key p t kw)) as [->|Hne].
  - eexists. reflexivity.
  - rewrite lookup_insert_ne in Hk by congruence.
    destruct c as [m0|].
    + eapply Hc; eauto.
    + rewrite lookup_empty in Hk. discriminate.
Qed.

(** A patient id with a character that is no lower-case hexadecimal digit
    (the hyphen of a UUID, say) occurs in no key, so that [invalidate]
    leaves the whole cache as it is. *)
Lemma invalidate_non_hex_id_is_identity (c : option (gmap string V)) pid :
  keys_are_digests c ->
  all_hex pid = false ->
  AnalysisCache.invalidate c pid = c.
Proof.
  intros Hc Hpid. destruct c as [m|]; [|reflexivity].
  unfold AnalysisCache.invalidate. f_equal.
  apply map_filter_id. intros k v Hk. simpl.
  destruct (Hc m k v eq_refl Hk) as [s ->].
  destruct (Py.str_in pid (MD5.hexdigest s)) eqn:Hin; [|reflexivity].
  apply str_in_all_hex in Hin; [congruence|apply hexdigest_all_hex].
Qed.

(** C1, on the code: [invalidate(patient_id)] looks for the patient id
    inside the MD5 digests that are the keys.  After
    [set("test-patient-id", "insights", v, days=30)], the call
    [invalidate("test-patient-id")] leaves that patient's entry in the
    cache, and [invalidate("a")] removes it although it belongs to another
    patient (its key [3859bdd1a71eb5aebb4ae6a708617a6a] contains an "a"). *)
Lemma invalidate_misses_by_digest (v : V) :
  let kwargs := [("days"%string, Json.JInt 30)] in
  let cache :=
    AnalysisCache.set None "test-patient-id" "insights" v kwargs in
  AnalysisCache._make_key "test-patient-id" "insights" kwargs
    = "3859bdd1a71eb5aebb4ae6a708617a6a"%string
  /\ AnalysisCache.get (AnalysisCache.invalidate cache "test-patient-id")
       "test-patient-id" "insights" kwargs = Some v
  /\ AnalysisCache.get (AnalysisCache.invalidate cache "a")
       "test-patient-id" "insights" kwargs = None.
Proof.
  intros kwargs cache.
  assert (Hk : AnalysisCache._make_key "test-patient-id" "insights" kwargs
               = "3859bdd1a71eb5aebb4ae6a708617a6a"%string)
    by (vm_compute; reflexivity).
  split; [exact Hk|].
  unfold cache, AnalysisCache.get, AnalysisCache.invalidate, AnalysisCache.set.
  rewrite Hk. split.
  - apply map_lookup_filter_Some. split.
    + apply lookup_insert_eq.
    + vm_compute. reflexivity.
  - apply map_lookup_filter_None. right. intros x _ Hx.
    vm_compute in Hx. discriminate.
Qed.

End CacheFacts.

(** An instance: the cache after one [set] for the patient
    [test-patient-id], whose id has hyphens. *)
Lemma invalidate_non_hex_id_is_identity_witness :
  keys_are_digests one_entry_cache
  /\ all_hex "test-patient-id" = false
  /\ AnalysisCache.invalidate one_entry_cache "test-patient-id"
     = one_entry_cache.
Proof.
  assert (Hc : keys_are_digests one_entry_cache).
  { apply set_keeps_digests. intros m k w Hm. discriminate. }
  assert (Hp : all_hex "test-patient-id" = false) by reflexivity.
  split; [exact Hc|]. split; [exact Hp|].
  exact (invalidate_non_hex_id_is_identity one_entry_cache
           "test-patient-id" Hc Hp).
Defined.

(** ** Risk assessment: the score, its label and the recommendations *)

Section RiskFacts.

Import RiskAssessment.
Open Scope Z_scope.

Lemma add_score n fs rs a : risk_score (add n fs rs a) = risk_score a + n.
Proof. reflexivity. Qed.

Lemma bp_analysis_grows readings a :
  risk_score a <= risk_score (bp_analysis readings a).
Proof.
  unfold bp_analysis. destruct readings as [|r t]; [rewrite add_score; lia|].
  cbv zeta. split_ifs; rewrite ?add_score; lia.
Qed.

Lemma medication_analysis_grows medications a :
  risk_score a <= risk_score (medication_analysis medications a).
Proof.
  unfold medication_analysis.
  destruct (filter is_active medications); [lia|].
  cbv zeta. split_ifs; rewrite ?add_score; lia.
Qed.

Lemma lifestyle_analysis_grows lifestyle a :
  risk_score a <= risk_score (lifestyle_analysis lifestyle a).
Proof.
  unfold lifestyle_analysis. destruct lifestyle as [|e t]; [lia|].
  cbv zeta. split_ifs; rewrite ?add_score; lia.
Qed.

Lemma demographics_analysis_grows age patient a :
  risk_score a <= risk_score (demographics_analysis age patient a).
Proof.
  unfold demographics_analysis. cbv zeta.
  split_ifs; rewrite ?add_score; lia.
Qed.

Lemma overall_spec a :
  0 <= risk_score a ->
  let r := overall a in
  riskScore r = Z.min 100 (risk_score a)
  /\ (70 <= riskScore r -> overallRisk r = "critical"%string)
  /\ (50 <= riskScore r < 70 -> overallRisk r = "high"%string)
  /\ (30 <= riskScore r < 50 -> overallRisk r = "moderate"%string)
  /\ (riskScore r < 30 -> overallRisk r = "low"%string)
  /\ recommendations r
     = firstn 5 (top_recommendation (overallRisk r) :: recommendations_ a).
Proof.
  intros Ha. unfold overall. cbv zeta.
  destruct (70 <=? Z.min 100 (risk_score a)) eqn:E70;
    [|destruct (50 <=? Z.min 100 (risk_score a)) eqn:E50;
      [|destruct (30 <=? Z.min 100 (risk_score a)) eqn:E30]];
    cbn [riskScore overallRisk recommendations];
    repeat split; try reflexivity; intros; try lia; exfalso; lia.
Qed.

(** C4: whenever [calculate_risk_assessment] returns, the score is between
    0 and 100, the label is the one of the score's band (70 and more
    critical, 50 to 69 high, 30 to 49 moderate, below 30 low), and the
    recommendations are at most five, the first being the label's own
    recommendation. *)
Theorem risk_score_label_recommendations db settings patient_id days r :
  calculate_risk_assessment db settings patient_id days = Ok r ->
  0 <= riskScore r <= 100
  /\ (70 <= riskScore r -> overallRisk r = "critical"%string)
  /\ (50 <= riskScore r < 70 -> overallRisk r = "high"%string)
  /\ (30 <= riskScore r < 50 -> overallRisk r = "moderate"%string)
  /\ (riskScore r < 30 -> overallRisk r = "low"%string)
  /\ (List.length (recommendations r) <= 5)%nat
  /\ exists rest,
       recommendations r = top_recommendation (overallRisk r) :: rest.
Proof.
  unfold calculate_risk_assessment.
  destruct (fetch_patient db patient_id) as [patient|]; [|discriminate].
  cbv zeta. destruct (users_age patient) as [age|e]; [|discriminate].
  cbn [bind]. intros [= <-].
  set (a0 := {| risk_score := 0; factors_ := []; recommendations_ := [] |}).
  set (a1 := bp_analysis _ a0).
  set (a2 := medication_analysis _ a1).
  set (a3 := lifestyle_analysis _ a2).
  set (a4 := demographics_analysis age patient a3).
  assert (Hpos : 0 <= risk_score a4).
  { pose proof (bp_analysis_grows
                  (fetch_blood_pressure_readings db patient_id days) a0).
    pose proof (medication_analysis_grows
                  (fetch_medications db patient_id) a1).
    pose proof (lifestyle_analysis_grows
                  (fetch_lifestyle_entries db patient_id days) a2).
    pose proof (demographics_analysis_grows age patient a3).
    fold a1 in H. fold a2 in H0. fold a3 in H1. fold a4 in H2.
    change (risk_score a0) with 0 in H. lia. }
  destruct (overall_spec a4 Hpos) as (Hs & H70 & H50 & H30 & H0 & Hrec).
  repeat split; try assumption; try lia.
  - rewrite Hrec. rewrite length_firstn. lia.
  - rewrite Hrec. cbn [firstn]. eexists. reflexivity.
Qed.

End RiskFacts.


(** The high-risk patient of the test suite scores 66, which is "high". *)
Example high_risk_assessment_value :
  match
    RiskAssessment.calculate_risk_assessment high_risk_db default_settings
      "test-patient-id" 30
  with
  | Ok r =>
      RiskAssessment.riskScore r = 66%Z
      /\ RiskAssessment.overallRisk r = "high"%string
  | Raise _ => False
  end.
Proof. vm_compute. split; reflexivity. Qed.

(** The theorem at the high-risk patient of the test suite. *)
Lemma risk_score_label_recommendations_witness :
  exists r,
    RiskAssessment.calculate_risk_assessment high_risk_db default_settings
      "test-patient-id" 30 = Ok r
    /\ (0 <= RiskAssessment.riskScore r <= 100)%Z
    /\ (List.length (RiskAssessment.recommendations r) <= 5)%nat
    /\ exists rest,
         RiskAssessment.recommendations r
         = top_recommendation (RiskAssessment.overallRisk r) :: rest.
Proof.
  destruct (RiskAssessment.calculate_risk_assessment high_risk_db
              default_settings "test-patient-id" 30) as [r|e] eqn:E.
  - exists r. split; [reflexivity|].
    pose proof (risk_score_label_recommendations _ _ _ _ _ E) as H.
    split; [apply H|]. split; apply H.
  - vm_compute in E. discriminate.
Defined.

(** ** Validation: which routines raise [InsufficientDataError] *)

Section ValidationFacts.

Open Scope Z_scope.

Lemma risk_assessment_result db settings patient_id days patient :
  fetch_patient db patient_id = Some patient ->
  (users patient <> UsersNone ->
   exists r,
     RiskAssessment.calculate_risk_assessment db settings patient_id days
     = Ok r)
  /\ (users patient = UsersNone ->
      RiskAssessment.calculate_risk_assessment db settings patient_id days
      = Raise AttributeError).
Proof.
  intros Hp. unfold RiskAssessment.calculate_risk_assessment.
  rewrite Hp. cbv zeta. unfold RiskAssessment.users_age.
  split; intros Hu.
  - destruct (users patient); [eexists; reflexivity|congruence|
                               eexists; reflexivity].
  - rewrite Hu. reflexivity.
Qed.

Lemma monitoring_score_result readings days :
  (days <> 0 \/ readings = [] ->
   exists s, HealthScore._calculate_monitoring_score readings days = Ok s)
  /\ (days = 0 /\ readings <> [] ->
      HealthScore._calculate_monitoring_score readings days
      = Raise ZeroDivisionError).
Proof.
  unfold HealthScore._calculate_monitoring_score. split.
  - intros H. destruct readings as [|r t]; [eauto|].
    destruct H as [H|H]; [|discriminate].
    apply Z.eqb_neq in H. rewrite H. eauto.
  - intros [-> H]. destruct readings; [congruence|reflexivity].
Qed.

Lemma health_score_result db settings patient_id days :
  fetch_patient db patient_id <> None ->
  let readings := fetch_blood_pressure_readings db patient_id days in
  (days <> 0 \/ readings = [] ->
   exists h,
     HealthScore.calculate_health_score db settings patient_id days = Ok h)
  /\ (days = 0 /\ readings <> [] ->
      HealthScore.calculate_health_score db settings patient_id days
      = Raise ZeroDivisionError).
Proof.
  intros Hp readings. unfold HealthScore.calculate_health_score.
  destruct (fetch_patient db patient_id); [|congruence].
  cbv zeta. fold readings.
  destruct (monitoring_score_result readings days) as [Hok Hzero].
  split; intros H.
  - destruct (Hok H) as [s ->]. unfold bind.
    destruct (fetch_lifestyle_entries db patient_id days); eauto.
  - rewrite (Hzero H). reflexivity.
Qed.

(** C2, as the code has it: with the patient found and fewer readings than
    the configured minimum, trend prediction, pattern detection,
    correlation analysis and the forecast raise [InsufficientDataError]
    with the actual and the required count; the risk assessment and the
    health score make no such check.  The risk assessment returns an
    assessment for any number of readings, unless the patient row holds
    [None] for the joined user, which is an [AttributeError]; the health
    score returns a score for any number of readings, unless the window is
    of zero days and there is a reading, which is a [ZeroDivisionError]. *)
Theorem insufficient_data_by_routine db settings patient_id days
    (detect : list Reading -> list LifestyleEntry -> list Patterns.Pattern)
    (correlate : list Reading -> list LifestyleEntry
                 -> result (list Correlations.Correlation))
    (metric : string) (forecast_days : Z) (patient : Patient) :
  fetch_patient db patient_id = Some patient ->
  let readings := fetch_blood_pressure_readings db patient_id days in
  let n := Z.of_nat (List.length readings) in
  let minimum := min_readings_for_analysis settings in
  n < minimum ->
  (exists msg,
     Predictions.calculate_predictions db settings patient_id days
     = Raise (InsufficientDataError msg (counts n minimum)))
  /\ (exists msg,
        Patterns.analyze_patterns detect db settings patient_id days
        = Raise (InsufficientDataError msg (counts n minimum)))
  /\ (exists msg,
        Correlations.analyze_correlations correlate db settings patient_id days
        = Raise (InsufficientDataError msg (counts n minimum)))
  /\ (exists msg,
        Forecast.generate_forecast db settings patient_id metric forecast_days
          days
        = Raise (InsufficientDataError msg (counts n minimum)))
  /\ (users patient <> UsersNone ->
      exists r,
        RiskAssessment.calculate_risk_assessment db settings patient_id days
        = Ok r)
  /\ (users patient = UsersNone ->
      RiskAssessment.calculate_risk_assessment db settings patient_id days
      = Raise AttributeError)
  /\ (days <> 0 \/ readings = [] ->
      exists h,
        HealthScore.calculate_health_score db settings patient_id days = Ok h)
  /\ (days = 0 /\ readings <> [] ->
      HealthScore.calculate_health_score db settings patient_id days
      = Raise ZeroDivisionError).
Proof.
  intros Hp readings n minimum Hn.
  assert (Hlt : (n <? minimum) = true) by (apply Z.ltb_lt; exact Hn).
  assert (Hfound : fetch_patient db patient_id <> None) by congruence.
  split; [|split; [|split; [|split]]].
  - unfold Predictions.calculate_predictions. rewrite Hp.
    cbv zeta. fold readings. fold n. fold minimum. rewrite Hlt.
    eexists. reflexivity.
  - unfold Patterns.analyze_patterns. rewrite Hp.
    cbv zeta. fold readings. fold n. fold minimum. rewrite Hlt.
    eexists. reflexivity.
  - unfold Correlations.analyze_correlations. rewrite Hp.
    cbv zeta. fold readings. fold n. fold minimum. rewrite Hlt.
    eexists. reflexivity.
  - unfold Forecast.generate_forecast. rewrite Hp.
    cbv zeta. fold readings. fold n. fold minimum. rewrite Hlt.
    eexists. reflexivity.
  - destruct (risk_assessment_result db settings patient_id days patient Hp)
      as [Hok Hnone].
    destruct (health_score_result db settings patient_id days Hfound)
      as [Hscore Hzero].
    split; [exact Hok|]. split; [exact Hnone|].
    split; [exact Hscore|exact Hzero].
Qed.

(** The theorem at the patient with three readings, whose user record
    gives the age 55: the predictions are refused, the assessment and the
    score are returned. *)
Lemma insufficient_data_by_routine_witness :
  fetch_patient three_readings_db "test-patient-id" = Some MOCK_PATIENT
  /\ 3 < min_readings_for_analysis default_settings
  /\ (exists msg,
        Predictions.calculate_predictions three_readings_db default_settings
          "test-patient-id" 30
        = Raise (InsufficientDataError msg (counts 3 7)))
  /\ (exists r,
        RiskAssessment.calculate_risk_assessment three_readings_db
          default_settings "test-patient-id" 30 = Ok r)
  /\ (exists h,
        HealthScore.calculate_health_score three_readings_db
          default_settings "test-patient-id" 30 = Ok h).
Proof.
  assert (Hp : fetch_patient three_readings_db "test-patient-id"
               = Some MOCK_PATIENT) by reflexivity.
  assert (Hn : 3 < min_readings_for_analysis default_settings)
    by reflexivity.
  pose proof (insufficient_data_by_routine three_readings_db default_settings
                "test-patient-id" 30 (fun _ _ => [])
                (fun _ _ => Ok []) "systolic" 30 MOCK_PATIENT Hp Hn) as H.
  split; [exact Hp|]. split; [exact Hn|].
  split; [apply H|]. split.
  - apply H. discriminate.
  - apply H. left. discriminate.
Defined.

(** C2 as stated fails for the risk assessment (and the health score): a
    patient with three readings over thirty days, the minimum being seven,
    gets an assessment, not [InsufficientDataError]. *)
Lemma risk_assessment_accepts_three_readings :
  fetch_patient three_readings_db "test-patient-id" <> None
  /\ List.length
       (fetch_blood_pressure_readings three_readings_db "test-patient-id" 30)
     = 3%nat
  /\ min_readings_for_analysis default_settings = 7
  /\ (forall msg details,
        RiskAssessment.calculate_risk_assessment three_readings_db
          default_settings "test-patient-id" 30
        <> Raise (InsufficientDataError msg details))
  /\ (forall msg details,
        HealthScore.calculate_health_score three_readings_db
          default_settings "test-patient-id" 30
        <> Raise (InsufficientDataError msg details)).
Proof.
  split; [discriminate|]. split; [reflexivity|]. split; [reflexivity|].
  split; intros msg details H; vm_compute in H; discriminate.
Qed.

End ValidationFacts.

(** ** The stable sort *)

Section SortFacts.

Context {A : Type} (key : A -> Z).

Lemma insert_le_perm (x : A) l :
  Permutation (Py.insert_le (fun a b => (key a <=? key b)%Z) x l) (x :: l).
Proof.
  induction l as [|y t IH]; simpl; [reflexivity|].
  destruct (key x <=? key y)%Z; [reflexivity|].
  rewrite IH. apply perm_swap.
Qed.

Lemma sort_by_perm (l : list A) : Permutation (Py.sort_by key l) l.
Proof.
  unfold Py.sort_by, Py.sort_le.
  induction l as [|x t IH]; simpl; [reflexivity|].
  rewrite insert_le_perm. now rewrite IH.
Qed.

Lemma insert_le_hd (a x : A) l :
  le_by key a x -> HdRel (le_by key) a l ->
  HdRel (le_by key) a (Py.insert_le (fun a b => (key a <=? key b)%Z) x l).
Proof.
  intros Hax Hal. destruct l as [|y t]; simpl; [now constructor|].
  destruct (key x <=? key y)%Z; constructor; [exact Hax|].
  now inversion Hal.
Qed.

Lemma insert_le_sorted (x : A) l :
  Sorted (le_by key) l ->
  Sorted (le_by key) (Py.insert_le (fun a b => (key a <=? key b)%Z) x l).
Proof.
  induction 1 as [|y t Ht IH Hy]; simpl; [repeat constructor|].
  destruct (key x <=? key y)%Z eqn:E.
  - constructor; [now constructor|]. constructor. apply Z.leb_le, E.
  - constructor; [exact IH|].
    apply insert_le_hd; [|exact Hy]. apply Z.leb_gt in E. unfold le_by. lia.
Qed.

Lemma sort_by_sorted (l : list A) : Sorted (le_by key) (Py.sort_by key l).
Proof.
  unfold Py.sort_by, Py.sort_le.
  induction l as [|x t IH]; simpl; [constructor|].
  now apply insert_le_sorted.
Qed.

Lemma firstn_subset n (l : list A) x : In x (firstn n l) -> In x l.
Proof.
  intros Hx. rewrite <- (firstn_skipn n l). apply in_or_app. now left.
Qed.

Lemma firstn_sorted n (l : list A) :
  Sorted (le_by key) l -> Sorted (le_by key) (firstn n l).
Proof.
  intros Hl. revert n. induction Hl as [|x t Ht IH Hx]; intros [|n]; simpl;
    try constructor.
  - apply IH.
  - destruct t as [|y t'], n as [|n]; simpl; constructor. now inversion Hx.
Qed.

End SortFacts.

(** ** Insights: size, order, and the "More Data Needed" item *)

Section InsightsFacts.

Import Insights.
Open Scope Z_scope.

Lemma bp_patterns_titles readings now :
  no_title "More Data Needed" (_analyze_bp_patterns readings now).
Proof.
  unfold _analyze_bp_patterns. destruct readings as [|r t]; [constructor|].
  cbv zeta. other_titles.
Qed.

Lemma medication_adherence_titles medications now :
  no_title "More Data Needed" (_analyze_medication_adherence medications now).
Proof.
  unfold _analyze_medication_adherence.
  destruct (filter is_active medications) as [|m t]; [constructor|].
  cbv zeta. other_titles.
Qed.

Lemma lifestyle_titles lifestyle now :
  no_title "More Data Needed" (_analyze_lifestyle lifestyle now).
Proof.
  unfold _analyze_lifestyle. destruct lifestyle as [|e t]; [constructor|].
  cbv zeta. other_titles.
Qed.

Lemma time_patterns_titles readings now :
  no_title "More Data Needed" (_analyze_time_patterns readings now).
Proof.
  unfold _analyze_time_patterns. cbv zeta. other_titles.
Qed.

(** C3, as the code has it: with the patient found, [generate_insights]
    returns at most eight insights (possibly none), their priorities never
    decrease along the list; with fewer readings than the minimum the list
    is the single info, priority 3 item "More Data Needed" whose message
    names both counts, and an item of that title appears in no other
    case. *)
Theorem insights_at_most_eight_sorted db settings now patient_id days :
  fetch_patient db patient_id <> None ->
  let n :=
    Z.of_nat (List.length (fetch_blood_pressure_readings db patient_id days)) in
  let minimum := min_readings_for_analysis settings in
  exists l,
    generate_insights db settings now patient_id days = Ok l
    /\ (List.length l <= 8)%nat
    /\ Sorted (fun a b => priority a <= priority b) l
    /\ (n < minimum ->
        exists i,
          l = [i]
          /\ type i = "info"%string /\ priority i = 3
          /\ title i = "More Data Needed"%string
          /\ In (Py.FInt n) (message i) /\ In (Py.FInt minimum) (message i))
    /\ (forall i,
          In i l -> title i = "More Data Needed"%string -> n < minimum).
Proof.
  intros Hp n minimum. unfold generate_insights.
  destruct (fetch_patient db patient_id) as [patient|]; [|congruence].
  cbv zeta. fold n. fold minimum.
  destruct (n <? minimum) eqn:Hn.
  - apply Z.ltb_lt in Hn. eexists. split; [reflexivity|].
    split; [simpl; lia|]. split; [repeat constructor|].
    split.
    + intros _. eexists. split; [reflexivity|]. cbn. tauto.
    + intros; exact Hn.
  - apply Z.ltb_ge in Hn. eexists. split; [reflexivity|].
    split; [rewrite length_firstn; lia|].
    split; [apply firstn_sorted, sort_by_sorted|].
    split; [intros; lia|].
    intros i Hi Ht. exfalso.
    apply firstn_subset in Hi.
    apply (Permutation_in _ (sort_by_perm priority _)) in Hi.
    assert (Hall : no_title "More Data Needed"
              (let insights :=
                 _analyze_bp_patterns
                   (fetch_blood_pressure_readings db patient_id days) now in
               let insights :=
                 match fetch_medications db patient_id with
                 | [] => insights
                 | _ =>
                     insights
                     ++ _analyze_medication_adherence
                          (fetch_medications db patient_id) now
                 end in
               let insights :=
                 match fetch_lifestyle_entries db patient_id days with
                 | [] => insights
                 | _ =>
                     insights
                     ++ _analyze_lifestyle
                          (fetch_lifestyle_entries db patient_id days) now
                 end in
               insights
               ++ _analyze_time_patterns
                    (fetch_blood_pressure_readings db patient_id days) now)).
    { cbv zeta. unfold no_title.
      apply Forall_app. split; [|apply time_patterns_titles].
      destruct (fetch_lifestyle_entries db patient_id days) eqn:El;
        [|apply Forall_app; split; [|apply lifestyle_titles]];
        (destruct (fetch_medications db patient_id) eqn:Em;
         [|apply Forall_app; split; [|apply medication_adherence_titles]]);
        apply bp_patterns_titles. }
    unfold no_title in Hall. rewrite Forall_forall in Hall.
    exact (Hall i Hi Ht).
Qed.

End InsightsFacts.

(** The theorem at the database of the test suite. *)
Lemma insights_at_most_eight_sorted_witness :
  fetch_patient insights_db "test-patient-id" <> None
  /\ exists l,
       Insights.generate_insights insights_db default_settings "now"
         "test-patient-id" 30 = Ok l
       /\ (List.length l <= 8)%nat
       /\ Sorted (fun a b => Insights.priority a <= Insights.priority b)%Z l.
Proof.
  assert (Hp : fetch_patient insights_db "test-patient-id" <> None)
    by discriminate.
  split; [exact Hp|].
  destruct (insights_at_most_eight_sorted insights_db default_settings "now"
              "test-patient-id" 30 Hp) as (l & Hl & Hlen & Hs & _).
  exists l. auto.
Defined.

(** C3 as stated fails on the lower bound: seven readings of 135/80 are
    enough for the analysis and trigger none of its rules, so that the
    list of insights is empty. *)
Lemma insights_can_be_empty :
  fetch_patient steady_db "test-patient-id" <> None
  /\ Z.of_nat
       (List.length
          (fetch_blood_pressure_readings steady_db "test-patient-id" 30))
     = min_readings_for_analysis default_settings
  /\ Insights.generate_insights steady_db default_settings "now"
       "test-patient-id" 30 = Ok [].
Proof.
  split; [discriminate|]. split; [reflexivity|]. vm_compute. reflexivity.
Qed.

(** ** Health score: the weighted mean of the categories present *)

Section HealthScoreFacts.

Import HealthScore.
Open Scope Z_scope.

Lemma round_Qeq x y : (x == y)%Q -> Py.round x = Py.round y.
Proof.
  intros E. unfold Py.round. cbv zeta.
  rewrite (Qfloor_comp _ _ E).
  assert (Ec : ((x - inject_Z (Qfloor y)) ?= 1 # 2)%Q
               = ((y - inject_Z (Qfloor y)) ?= 1 # 2)%Q).
  { apply Qcompare_comp; [rewrite E|]; reflexivity. }
  rewrite Ec. reflexivity.
Qed.

Lemma weights_spec c : weights (name c) = spec_weight c.
Proof.
  unfold weights, spec_weight.
  repeat match goal with
         | |- context [String.eqb ?a ?b] => destruct (String.eqb a b)
         end; reflexivity.
Qed.

Lemma weighted_mean_code cs :
  (Py.sumQ (map (fun c => inject_Z (score c) * weights (name c)) cs)
   / Py.sumQ (map (fun c => weights (name c)) cs))%Q
  = weighted_mean cs.
Proof.
  unfold weighted_mean. f_equal; f_equal; apply map_ext; intros c;
    now rewrite weights_spec.
Qed.

Lemma round_near x : (Qabs (inject_Z (Py.round x) - x) <= 1 # 2)%Q.
Proof.
  unfold Py.round. cbv zeta.
  pose proof (Qfloor_le x) as Hlo. pose proof (Qlt_floor x) as Hhi.
  rewrite inject_Z_plus in Hhi. change (inject_Z 1) with 1%Q in Hhi.
  apply Qabs_case; intros _;
    destruct (x - inject_Z (Qfloor x) ?= 1 # 2)%Q eqn:E;
    [apply Qeq_alt in E|apply Qlt_alt in E|apply Qgt_alt in E
    |apply Qeq_alt in E|apply Qlt_alt in E|apply Qgt_alt in E];
    try destruct (Z.even (Qfloor x));
    rewrite ?inject_Z_plus; change (inject_Z 1) with 1%Q; qlra.
Qed.

#[local] Opaque _calculate_bp_score _calculate_medication_score
  _calculate_lifestyle_score _calculate_sleep_score.

(** C5, as the code has it: the overall health score is the weighted mean
    of the categories of the result, rounded to an integer.  Without
    lifestyle data the categories are four, no "Sleep & Recovery" among
    them, and the mean is taken over the weights 0.35, 0.25, 0.20 and 0.10
    (their sum 0.90); with lifestyle data the sleep category is the fifth,
    with weight 0.10.  The model rounds the exact mean; the program rounds
    the quotient of two sums of doubles, which differs from the mean by
    far less than a millionth.  So the overall score is within a half and
    a millionth of the mean, and it is the nearest integer whenever the
    mean is not within a millionth of the middle between two integers.
    At the middle the doubles decide: for the scores 100, 33, 50 and 3 the
    mean is 59.5, the program computes 59.49999999999999 and returns
    59. *)
Theorem health_score_is_rounded_weighted_mean db settings patient_id days h :
  calculate_health_score db settings patient_id days = Ok h ->
  let lifestyle := fetch_lifestyle_entries db patient_id days in
  let mean := weighted_mean (categories h) in
  (lifestyle = [] ->
   exists bp med life mon,
     categories h
     = [category "Blood Pressure Control" bp;
        category "Medication Adherence" med;
        category "Lifestyle Factors" life;
        category "Monitoring Consistency" mon]
     /\ (mean == inject_Z (35 * bp + 25 * med + 20 * life + 10 * mon) / 90)%Q)
  /\ (lifestyle <> [] ->
      exists bp med life mon sleep,
        categories h
        = [category "Blood Pressure Control" bp;
           category "Medication Adherence" med;
           category "Lifestyle Factors" life;
           category "Monitoring Consistency" mon;
           category "Sleep & Recovery" sleep]
        /\ (mean
            == inject_Z
                 (35 * bp + 25 * med + 20 * life + 10 * mon + 10 * sleep)
               / 100)%Q)
  /\ (Qabs (inject_Z (overall h) - mean) <= (1 # 2) + (1 # 1000000))%Q
  /\ ((1 # 1000000 <= Qabs (mean - inject_Z (Qfloor mean) - (1 # 2)))%Q ->
      overall h = Py.round mean).
Proof.
  unfold calculate_health_score.
  destruct (fetch_patient db patient_id) as [patient|]; [|discriminate].
  cbv zeta.
  destruct (_calculate_monitoring_score
              (fetch_blood_pressure_readings db patient_id days) days)
    as [mon|e] eqn:Emon; [|discriminate].
  unfold bind.
  assert (Hnear : forall x z, z = Py.round x ->
            (Qabs (inject_Z z - x) <= (1 # 2) + (1 # 1000000))%Q).
  { intros x z ->. pose proof (round_near x). qlra. }
  destruct (fetch_lifestyle_entries db patient_id days) as [|e t] eqn:El;
    intros H; injection H as <-; cbn [overall categories app].
  - split; [|split; [congruence|split]].
    + intros _. do 4 eexists. split; [reflexivity|].
      unfold weighted_mean, category, spec_weight.
      cbn [map Py.sumQ fold_right name score String.eqb Ascii.eqb Bool.eqb].
      rewrite !inject_Z_plus, !inject_Z_mult. field.
    + apply Hnear. rewrite <- weighted_mean_code. reflexivity.
    + intros _. rewrite <- weighted_mean_code. reflexivity.
  - split; [congruence|split; [|split]].
    + intros _. do 5 eexists. split; [reflexivity|].
      unfold weighted_mean, category, spec_weight.
      cbn [map Py.sumQ fold_right name score String.eqb Ascii.eqb Bool.eqb].
      rewrite !inject_Z_plus, !inject_Z_mult. field.
    + apply Hnear. rewrite <- weighted_mean_code. reflexivity.
    + intros _. rewrite <- weighted_mean_code. reflexivity.
Qed.

End HealthScoreFacts.

(** The theorem at the patient without data: the four categories score 50,
    85, 50 and 0, the mean is 325/6 and the overall score is 54. *)
Lemma health_score_is_rounded_weighted_mean_witness :
  exists h,
    HealthScore.calculate_health_score no_data_db default_settings
      "test-patient-id" 30 = Ok h
    /\ (1 # 1000000
        <= Qabs (weighted_mean (HealthScore.categories h)
                 - inject_Z (Qfloor (weighted_mean (HealthScore.categories h)))
                 - (1 # 2)))%Q
    /\ HealthScore.overall h
       = Py.round (weighted_mean (HealthScore.categories h))
    /\ HealthScore.overall h = 54%Z.
Proof.
  destruct (HealthScore.calculate_health_score no_data_db default_settings
              "test-patient-id" 30) as [h|e] eqn:E.
  - exists h. split; [reflexivity|].
    pose proof (health_score_is_rounded_weighted_mean _ _ _ _ _ E)
      as (_ & _ & _ & Hround).
    cbv zeta in Hround.
    vm_compute in E. injection E as <-.
    match type of Hround with
    | ?P -> _ => assert (Hm : P) by (vm_compute; discriminate)
    end.
    split; [exact Hm|]. split; [exact (Hround Hm)|reflexivity].
  - vm_compute in E. discriminate.
Defined.

(** C5 as stated fails on the rounding: for the patient without data the
    weighted mean of the four categories is 325/6, the overall score
    54. *)
Lemma health_score_is_not_the_exact_mean :
  exists h,
    HealthScore.calculate_health_score no_data_db default_settings
      "test-patient-id" 30 = Ok h
    /\ (weighted_mean (HealthScore.categories h) == 325 # 6)%Q
    /\ HealthScore.overall h = 54%Z
    /\ ~ (inject_Z (HealthScore.overall h)
          == weighted_mean (HealthScore.categories h))%Q.
Proof.
  eexists. split; [vm_compute; reflexivity|].
  split; [vm_compute; reflexivity|]. split; [reflexivity|].
  vm_compute. discriminate.
Qed.

(** ** Sums and least squares over the rationals *)

Section RationalFacts.

Open Scope Q_scope.

Lemma lenQ_cons {A} (x : A) (l : list A) : Py.lenQ (x :: l) == 1 + Py.lenQ l.
Proof.
  unfold Py.lenQ. cbn [List.length]. rewrite Nat2Z.inj_succ.
  unfold Z.succ. rewrite inject_Z_plus. ring.
Qed.

Lemma lenQ_nonneg {A} (l : list A) : 0 <= Py.lenQ l.
Proof.
  unfold Py.lenQ. change 0 with (inject_Z 0). rewrite <- Zle_Qle. lia.
Qed.

Lemma lenQ_pos {A} (l : list A) : l <> [] -> 0 < Py.lenQ l.
Proof.
  destruct l as [|x t]; [congruence|]. intros _.
  rewrite lenQ_cons. pose proof (lenQ_nonneg t). qlra.
Qed.

Lemma on_line_sum a b xl yl :
  on_line a b xl yl -> Py.sumQ yl == a * Py.lenQ yl + b * Py.sumQ xl.
Proof.
  induction 1 as [|x y xl yl Hxy _ IH].
  - unfold Py.lenQ. cbn. ring.
  - rewrite lenQ_cons. cbn [Py.sumQ fold_right].
    fold (Py.sumQ yl). fold (Py.sumQ xl). rewrite IH, Hxy. ring.
Qed.

Lemma on_line_cross a b mx my xl yl :
  on_line a b xl yl -> my == a + b * mx ->
  Py.sumQ (map (fun p => (fst p - mx) * (snd p - my)) (combine xl yl))
  == b * Py.sumQ (map (fun x => (x - mx) * (x - mx)) xl).
Proof.
  intros H Hm. induction H as [|x y xl yl Hxy _ IH].
  - cbn. ring.
  - cbn [combine map Py.sumQ fold_right fst snd].
    fold (Py.sumQ (map (fun p => (fst p - mx) * (snd p - my)) (combine xl yl))).
    fold (Py.sumQ (map (fun x => (x - mx) * (x - mx)) xl)).
    rewrite IH, Hxy, Hm. ring.
Qed.

Lemma on_line_squares a b mx my xl yl :
  on_line a b xl yl -> my == a + b * mx ->
  Py.sumQ (map (fun y => (y - my) * (y - my)) yl)
  == b * b * Py.sumQ (map (fun x => (x - mx) * (x - mx)) xl).
Proof.
  intros H Hm. induction H as [|x y xl yl Hxy _ IH].
  - cbn. ring.
  - cbn [map Py.sumQ fold_right].
    fold (Py.sumQ (map (fun y => (y - my) * (y - my)) yl)).
    fold (Py.sumQ (map (fun x => (x - mx) * (x - mx)) xl)).
    rewrite IH, Hxy, Hm. ring.
Qed.

Lemma xs_length n : List.length (Predictions.xs n) = n.
Proof. unfold Predictions.xs. now rewrite length_map, length_seq. Qed.

Lemma on_line_mean a b y :
  y <> [] ->
  on_line a b (Predictions.xs (List.length y)) y ->
  Py.meanQ y == a + b * Py.meanQ (Predictions.xs (List.length y)).
Proof.
  intros Hy H. unfold Py.meanQ.
  rewrite (on_line_sum _ _ _ _ H).
  assert (El : Py.lenQ (Predictions.xs (List.length y)) = Py.lenQ y)
    by (unfold Py.lenQ; now rewrite xs_length).
  rewrite El. pose proof (lenQ_pos y Hy). field. qlra.
Qed.

Lemma on_line_numerator a b y :
  y <> [] ->
  on_line a b (Predictions.xs (List.length y)) y ->
  Predictions.numerator y == b * Predictions.denominator (List.length y).
Proof.
  intros Hy H. unfold Predictions.numerator, Predictions.denominator.
  cbv zeta. apply (on_line_cross a b); [exact H|].
  now apply on_line_mean.
Qed.

Lemma on_line_ss_tot a b y :
  y <> [] ->
  on_line a b (Predictions.xs (List.length y)) y ->
  Predictions.ss_tot y
  == b * b * Predictions.denominator (List.length y).
Proof.
  intros Hy H. unfold Predictions.ss_tot, Predictions.denominator.
  cbv zeta. apply (on_line_squares a b); [exact H|].
  now apply on_line_mean.
Qed.

(** With at least two distinct positions the fit recovers the line. *)
Lemma on_line_fit a b y :
  y <> [] ->
  on_line a b (Predictions.xs (List.length y)) y ->
  ~ Predictions.denominator (List.length y) == 0 ->
  Predictions.slope y == b /\ Predictions.intercept y == a.
Proof.
  intros Hy H Hd.
  assert (Hs : Predictions.slope y == b).
  { unfold Predictions.slope.
    destruct (Qeq_bool (Predictions.denominator (List.length y)) 0) eqn:E.
    - apply Qeq_bool_eq in E. contradiction.
    - rewrite (on_line_numerator a b y Hy H). field. exact Hd. }
  split; [exact Hs|].
  unfold Predictions.intercept. rewrite Hs, (on_line_mean a b y Hy H). ring.
Qed.

(** A constant series is a line of slope [0]. *)
Lemma constant_on_line c xl yl :
  List.length xl = List.length yl ->
  Forall (fun y => y == c) yl -> on_line c 0 xl yl.
Proof.
  intros Hl Hy. revert xl Hl.
  induction Hy as [|y yl Hc _ IH]; intros [|x xl] Hl; try discriminate.
  - constructor.
  - constructor; [rewrite Hc; ring|]. apply IH. now injection Hl.
Qed.

Lemma constant_fit c y :
  y <> [] ->
  Forall (fun v => v == c) y ->
  Predictions.slope y == 0
  /\ Predictions.intercept y == c
  /\ Predictions.ss_tot y == 0
  /\ Predictions.r_squared y = 0.
Proof.
  intros Hy Hc.
  assert (H : on_line c 0 (Predictions.xs (List.length y)) y)
    by (apply constant_on_line; [apply xs_length|exact Hc]).
  assert (Hs : Predictions.slope y == 0).
  { unfold Predictions.slope.
    destruct (Qeq_bool (Predictions.denominator (List.length y)) 0);
      [reflexivity|].
    rewrite (on_line_numerator c 0 y Hy H). unfold Qdiv. ring. }
  assert (Ht : Predictions.ss_tot y == 0)
    by (rewrite (on_line_ss_tot c 0 y Hy H); ring).
  split; [exact Hs|]. split; [|split; [exact Ht|]].
  - unfold Predictions.intercept.
    rewrite Hs, (on_line_mean c 0 y Hy H). ring.
  - unfold Predictions.r_squared, Py.gtQ.
    destruct (Qle_bool (Predictions.ss_tot y) 0) eqn:E; [reflexivity|].
    exfalso. assert (Hle : Predictions.ss_tot y <= 0) by (rewrite Ht; qlra).
    apply Qle_bool_iff in Hle. congruence.
Qed.

End RationalFacts.

(** ** Rounding and clamping over the rationals *)

Section RoundingFacts.

Open Scope Q_scope.

Lemma round_of_Z x n : x == inject_Z n -> Py.round x = n.
Proof.
  intros E. rewrite (round_Qeq _ _ E). unfold Py.round. cbv zeta.
  rewrite Qfloor_Z.
  assert (Hlt : (inject_Z n - inject_Z n ?= 1 # 2) = Lt).
  { apply (proj1 (Qlt_alt _ _)).
    setoid_replace (inject_Z n - inject_Z n) with 0
      using relation Qeq by ring.
    reflexivity. }
  now rewrite Hlt.
Qed.

Lemma round1_of_Z x n : x == inject_Z n -> Py.round1 x == inject_Z n.
Proof.
  intros E. unfold Py.round1.
  rewrite (round_of_Z (x * 10) (n * 10)).
  - rewrite inject_Z_mult. field.
  - rewrite E, inject_Z_mult. reflexivity.
Qed.

Lemma round_le_Z x z : x <= inject_Z z -> (Py.round x <= z)%Z.
Proof.
  intros Hx. unfold Py.round. cbv zeta.
  pose proof (Qfloor_le x) as Hf.
  assert (Hfz : (Qfloor x <= z)%Z).
  { rewrite Zle_Qle. eapply Qle_trans; eauto. }
  destruct (Z.eq_dec (Qfloor x) z) as [E|E].
  - assert (Hlt : (x - inject_Z (Qfloor x) ?= 1 # 2) = Lt).
    { apply (proj1 (Qlt_alt _ _)). rewrite E. revert Hx.
      generalize (inject_Z z). intros q Hq. qlra. }
    rewrite Hlt. lia.
  - destruct (x - inject_Z (Qfloor x) ?= 1 # 2);
      [destruct (Z.even (Qfloor x))| |]; lia.
Qed.

Lemma round1_le_Z x z : x <= inject_Z z -> Py.round1 x <= inject_Z z.
Proof.
  intros Hx. unfold Py.round1.
  assert (H : (Py.round (x * 10) <= z * 10)%Z).
  { apply round_le_Z. rewrite inject_Z_mult. change (inject_Z 10) with 10.
    revert Hx. generalize (inject_Z z). intros q Hq. qlra. }
  rewrite Zle_Qle, inject_Z_mult in H.
  change (inject_Z 10) with 10 in H.
  apply Qle_shift_div_r; [reflexivity|]. exact H.
Qed.

Lemma Qmax_Qeq a x y : x == y -> Qmax a x == Qmax a y.
Proof.
  intros E.
  destruct (Q.max_spec a x) as [[? ->]|[? ->]],
           (Q.max_spec a y) as [[? ->]|[? ->]]; qlra.
Qed.

Lemma Qmin_Qeq a x y : x == y -> Qmin a x == Qmin a y.
Proof.
  intros E.
  destruct (Q.min_spec a x) as [[? ->]|[? ->]],
           (Q.min_spec a y) as [[? ->]|[? ->]]; qlra.
Qed.

Lemma clamp_of_Z lo hi x c :
  x == inject_Z c ->
  Qmax (inject_Z lo) (Qmin (inject_Z hi) x)
  == inject_Z (Z.max lo (Z.min hi c)).
Proof.
  intros E.
  rewrite (Qmax_Qeq _ _ (inject_Z (Z.min hi c))).
  - destruct (Q.max_spec (inject_Z lo) (inject_Z (Z.min hi c)))
      as [[H ->]|[H ->]].
    + rewrite <- Zlt_Qlt in H. now rewrite Z.max_r by lia.
    + rewrite <- Zle_Qle in H. now rewrite Z.max_l by lia.
  - rewrite (Qmin_Qeq _ _ _ E).
    destruct (Q.min_spec (inject_Z hi) (inject_Z c)) as [[H ->]|[H ->]].
    + rewrite <- Zlt_Qlt in H. now rewrite Z.min_l by lia.
    + rewrite <- Zle_Qle in H. now rewrite Z.min_r by lia.
Qed.

End RoundingFacts.

(** ** Trend prediction *)

Section PredictionFacts.

Import Predictions.
Open Scope Q_scope.

Lemma series_length metric_key readings :
  List.length (series metric_key readings) = List.length readings.
Proof.
  unfold series. rewrite length_map.
  apply Permutation_length, sort_by_perm.
Qed.

Lemma series_nonempty metric_key readings :
  readings <> [] -> series metric_key readings <> [].
Proof.
  intros Hr Hs. apply (f_equal (@List.length Q)) in Hs.
  rewrite series_length in Hs. destruct readings; [congruence|discriminate].
Qed.

Lemma recent_nonempty values : values <> [] -> recent values <> [].
Proof.
  intros Hv. unfold recent.
  destruct (7 <=? List.length values)%nat eqn:E; [|exact Hv].
  apply Nat.leb_le in E. intros Hn.
  apply (f_equal (@List.length Q)) in Hn.
  unfold Py.lastn in Hn. rewrite length_skipn in Hn. cbn in Hn. lia.
Qed.

(** What [_calculate_metric_prediction] returns on a non-empty list of
    readings, field by field. *)
Lemma metric_prediction_fields readings metric_key metric_name timeframe_days :
  readings <> [] ->
  let sorted_readings := Py.sort_by measurement_date readings in
  let values := series metric_key readings in
  let daily_change := slope values * readings_per_day sorted_readings in
  let future_x :=
    Py.lenQ values + inject_Z timeframe_days * readings_per_day sorted_readings
  in
  _calculate_metric_prediction readings metric_key metric_name timeframe_days
  = Ok {| metric := metric_name;
          currentValue := Py.round1 (Py.meanQ (recent values));
          predictedValue :=
            Py.round1
              (reasonable metric_key (intercept values + slope values * future_x));
          confidence :=
            if (1 <? List.length values)%nat then
              Py.int
                (Qmax 30
                   (Qmin 95
                      (r_squared values * 100
                       * Qmin 1 (Py.lenQ values / 30))))
            else 30%Z;
          timeframe := [Py.FInt timeframe_days; Py.Lit " days"];
          trend := trend_of metric_key daily_change |}.
Proof.
  intros Hr. cbv zeta. unfold _calculate_metric_prediction. cbv zeta.
  fold (series metric_key readings).
  fold (recent (series metric_key readings)).
  pose proof (recent_nonempty _ (series_nonempty metric_key _ Hr)) as Hn.
  destruct (recent (series metric_key readings)) eqn:E; [congruence|].
  reflexivity.
Qed.

(** The label of a daily change. *)
Lemma trend_of_spec metric_key daily_change :
  (metric_key = "systolic"%string \/ metric_key = "diastolic"%string ->
   (daily_change < - (3 # 10) ->
    trend_of metric_key daily_change = "improving"%string)
   /\ (3 # 10 < daily_change ->
       trend_of metric_key daily_change = "worsening"%string)
   /\ (- (3 # 10) <= daily_change <= 3 # 10 ->
       trend_of metric_key daily_change = "stable"%string))
  /\ (metric_key = "pulse"%string ->
      (Qabs daily_change < 1 # 2 ->
       trend_of metric_key daily_change = "stable"%string)
      /\ (1 # 2 <= Qabs daily_change -> daily_change < 0 ->
          trend_of metric_key daily_change = "improving"%string)
      /\ (1 # 2 <= Qabs daily_change -> 0 < daily_change ->
          trend_of metric_key daily_change = "worsening"%string)).
Proof.
  unfold trend_of, Py.ltQ, Py.gtQ. split.
  - intros Hk.
    assert (Hb : (String.eqb metric_key "systolic"
                  || String.eqb metric_key "diastolic")%bool = true)
      by (destruct Hk as [-> | ->]; reflexivity).
    rewrite Hb. clear Hb Hk.
    destruct (Qle_bool (- (3 # 10)) daily_change) eqn:E1;
      destruct (Qle_bool daily_change (3 # 10)) eqn:E2; cbn [negb];
      try apply Qle_bool_iff in E1; try apply Qle_bool_iff in E2;
      repeat split; intros; try reflexivity; exfalso;
      try (assert (Hc : - (3 # 10) <= daily_change) by qlra;
           apply Qle_bool_iff in Hc; congruence);
      try (assert (Hc : daily_change <= 3 # 10) by qlra;
           apply Qle_bool_iff in Hc; congruence);
      qlra.
  - intros ->. cbn [String.eqb Ascii.eqb Bool.eqb orb].
    destruct (Qle_bool (1 # 2) (Qabs daily_change)) eqn:E1;
      destruct (Qle_bool 0 daily_change) eqn:E2; cbn [negb];
      try apply Qle_bool_iff in E1; try apply Qle_bool_iff in E2;
      repeat split; intros; try reflexivity; exfalso;
      try (assert (Hc : 1 # 2 <= Qabs daily_change) by assumption;
           apply Qle_bool_iff in Hc; congruence);
      try (assert (Hc : 0 <= daily_change) by qlra;
           apply Qle_bool_iff in Hc; congruence);
      qlra.
Qed.

End PredictionFacts.

Section ConstantSeries.

Import Predictions.
Open Scope Q_scope.

Lemma reasonable_of_Z metric_key x c :
  In metric_key ["systolic"; "diastolic"; "pulse"]%string ->
  x == inject_Z c ->
  reasonable metric_key x
  == inject_Z (Z.max (fst (plausible_range metric_key))
                 (Z.min (snd (plausible_range metric_key)) c)).
Proof.
  intros Hk E.
  destruct Hk as [<-|[<-|[<-|[]]]]; cbn -[Qmax Qmin Z.max Z.min];
    apply (clamp_of_Z _ _ _ _ E).
Qed.

Lemma int_of_Z x n : x == inject_Z n -> Py.int x = n.
Proof.
  unfold Qeq, Py.int. cbn [inject_Z Qnum Qden]. intros E.
  rewrite Z.mul_1_r in E. rewrite E. apply Z.quot_mul. discriminate.
Qed.

Lemma series_constant metric_key readings c :
  Forall (fun r => value_of metric_key r = c) readings ->
  Forall (fun v => v == inject_Z c) (series metric_key readings).
Proof.
  intros H. unfold series. apply Forall_map.
  apply (Permutation_Forall (Permutation_sym (sort_by_perm _ readings))).
  apply (Forall_impl _ (P := fun r => value_of metric_key r = c));
    [|exact H].
  intros r ->. reflexivity.
Qed.

Lemma skipn_Forall {A} (P : A -> Prop) k (l : list A) :
  Forall P l -> Forall P (skipn k l).
Proof.
  intros H. rewrite <- (firstn_skipn k l) in H.
  now apply Forall_app in H.
Qed.

Lemma meanQ_constant c l :
  l <> [] -> Forall (fun v => v == c) l -> Py.meanQ l == c.
Proof.
  intros Hl H.
  assert (Hs : Py.sumQ l == c * Py.lenQ l).
  { clear Hl. induction H as [|x t Hx _ IH].
    - unfold Py.lenQ. cbn. ring.
    - rewrite lenQ_cons. cbn [Py.sumQ fold_right]. fold (Py.sumQ t).
      rewrite IH, Hx. ring. }
  unfold Py.meanQ. rewrite Hs. pose proof (lenQ_pos l Hl).
  field. qlra.
Qed.

(** C7, as the code has it: on readings whose metric is one constant [c]
    the fitted slope is 0, the total sum of squares is 0 so that R squared
    is the literal 0 of the guard (no division takes place), the trend is
    "stable", the confidence 30, and the predicted value is [c] brought
    into the plausible range of the metric; it is [c] itself whenever [c]
    lies in that range. *)
Theorem constant_series_prediction readings metric_key metric_name
    timeframe_days c :
  In metric_key ["systolic"; "diastolic"; "pulse"]%string ->
  readings <> [] ->
  Forall (fun r => value_of metric_key r = c) readings ->
  let values := series metric_key readings in
  let lo := fst (plausible_range metric_key) in
  let hi := snd (plausible_range metric_key) in
  slope values == 0
  /\ ss_tot values == 0
  /\ r_squared values = 0
  /\ exists p,
       _calculate_metric_prediction readings metric_key metric_name
         timeframe_days = Ok p
       /\ currentValue p == inject_Z c
       /\ predictedValue p == inject_Z (Z.max lo (Z.min hi c))
       /\ ((lo <= c <= hi)%Z -> predictedValue p == inject_Z c)
       /\ confidence p = 30%Z
       /\ trend p = "stable"%string.
Proof.
  intros Hk Hr Hc values lo hi.
  pose proof (series_constant _ _ _ Hc) as Hv. fold values in Hv.
  pose proof (series_nonempty metric_key _ Hr) as Hne. fold values in Hne.
  destruct (constant_fit _ values Hne Hv) as (Hs & Hi & Ht & Hr2).
  split; [exact Hs|]. split; [exact Ht|]. split; [exact Hr2|].
  eexists. split; [apply metric_prediction_fields; exact Hr|].
  cbn [currentValue predictedValue confidence trend]. fold values.
  assert (Hp : predictedValue
                 {| metric := metric_name; currentValue := 0;
                    predictedValue :=
                      Py.round1
                        (reasonable metric_key
                           (intercept values
                            + slope values
                              * (Py.lenQ values
                                 + inject_Z timeframe_days
                                   * readings_per_day
                                       (Py.sort_by measurement_date readings))));
                    confidence := 0; timeframe := []; trend := "" |}
               == inject_Z (Z.max lo (Z.min hi c))).
  { cbn [predictedValue]. apply round1_of_Z.
    apply reasonable_of_Z; [exact Hk|]. rewrite Hi, Hs. ring. }
  cbn [predictedValue] in Hp.
  split; [|split; [exact Hp|split; [|split]]].
  - apply round1_of_Z. apply meanQ_constant.
    + apply recent_nonempty, Hne.
    + unfold recent. destruct (7 <=? List.length values)%nat; [|exact Hv].
      apply skipn_Forall, Hv.
  - intros Hb. rewrite Hp. now rewrite Z.min_r, Z.max_r by lia.
  - rewrite Hr2. destruct (1 <? List.length values)%nat; [|reflexivity].
    apply int_of_Z.
    set (t := 0 * 100 * Qmin 1 (Py.lenQ values / 30)).
    assert (Ht0 : t == 0) by (unfold t; ring).
    destruct (Q.min_spec 95 t) as [[H1 ->]|[H1 ->]];
      [destruct (Q.max_spec 30 95) as [[H2 ->]|[H2 ->]]
      |destruct (Q.max_spec 30 t) as [[H2 ->]|[H2 ->]]];
      change (inject_Z 30) with 30; qlra.
  - destruct (trend_of_spec metric_key
                (slope values
                 * readings_per_day (Py.sort_by measurement_date readings)))
      as [Hbp Hpulse].
    assert (Hdc : slope values
                  * readings_per_day (Py.sort_by measurement_date readings)
                  == 0) by (rewrite Hs; ring).
    destruct Hk as [<-|[<-|[<-|[]]]].
    + apply Hbp; [now left|]. rewrite Hdc. split; discriminate.
    + apply Hbp; [now right|]. rewrite Hdc. split; discriminate.
    + apply Hpulse; [reflexivity|]. rewrite Hdc. reflexivity.
Qed.

End ConstantSeries.

(** The theorem at seven readings of 135 mmHg. *)
Lemma constant_series_prediction_witness :
  exists p,
    Predictions._calculate_metric_prediction steady_readings "systolic"
      "Systolic BP" 30 = Ok p
    /\ (Predictions.predictedValue p == 135)%Q
    /\ Predictions.confidence p = 30%Z
    /\ Predictions.trend p = "stable"%string.
Proof.
  assert (Hk : In "systolic"%string ["systolic"; "diastolic"; "pulse"]%string)
    by (left; reflexivity).
  assert (Hr : steady_readings <> []) by discriminate.
  assert (Hc : Forall (fun r => Predictions.value_of "systolic" r = 135%Z)
                 steady_readings)
    by (repeat constructor).
  destruct (constant_series_prediction steady_readings "systolic"
              "Systolic BP" 30 135 Hk Hr Hc)
    as (_ & _ & _ & p & Hp & _ & _ & Hin & Hconf & Htrend).
  exists p. split; [exact Hp|]. split; [|split; assumption].
  apply Hin. cbn. lia.
Defined.

(** C7 as stated fails outside the plausible range: a systolic pressure
    that is 210 on every reading is predicted as 200. *)
Lemma constant_series_prediction_is_clamped :
  Forall (fun r => systolic r = 210%Z) crisis_readings
  /\ exists p,
       Predictions._calculate_metric_prediction crisis_readings "systolic"
         "Systolic BP" 30 = Ok p
       /\ (Predictions.predictedValue p == 200)%Q
       /\ ~ (Predictions.predictedValue p == 210)%Q.
Proof.
  split; [repeat constructor|].
  eexists. split; [vm_compute; reflexivity|].
  split; [reflexivity|discriminate].
Qed.

Section DecreasingSeries.

Import Predictions.
Open Scope Q_scope.












End DecreasingSeries.

(** ** Sums over the reals *)

Section RealSums.

Import PyR.
Open Scope R_scope.

Lemma lenR_cons {A} (x : A) (l : list A) : lenR (x :: l) = lenR l + 1.
Proof. unfold lenR. cbn [List.length]. now rewrite S_INR. Qed.

Lemma lenR_nonneg {A} (l : list A) : 0 <= lenR l.
Proof. apply pos_INR. Qed.

(** The sum of products of deviations from [mf] and [mg], expanded. *)
Lemma sum_deviations {A} (f g : A -> R) (mf mg : R) (l : list A) :
  sumR (map (fun a => (f a - mf) * (g a - mg)) l)
  = sumR (map (fun a => f a * g a) l)
    - mf * sumR (map g l) - mg * sumR (map f l) + lenR l * mf * mg.
Proof.
  induction l as [|a l IH].
  - unfold lenR. cbn. ring.
  - rewrite lenR_cons. cbn [map sumR fold_right].
    fold (sumR (map (fun a => (f a - mf) * (g a - mg)) l)).
    fold (sumR (map (fun a => f a * g a) l)).
    fold (sumR (map g l)). fold (sumR (map f l)).
    rewrite IH. ring.
Qed.

(** Deviations from the means: [n] times their sum of products is the
    numerator of the computational formula. *)
Lemma sum_mean_deviations {A} (f g : A -> R) (l : list A) :
  l <> [] ->
  lenR l
  * sumR (map (fun a => (f a - meanR (map f l)) * (g a - meanR (map g l))) l)
  = lenR l * sumR (map (fun a => f a * g a) l)
    - sumR (map f l) * sumR (map g l).
Proof.
  intros Hl. rewrite sum_deviations. unfold meanR.
  assert (Hn : lenR l <> 0).
  { destruct l; [congruence|]. rewrite lenR_cons.
    pose proof (lenR_nonneg l). rlra. }
  assert (Ef : lenR (map f l) = lenR l)
    by (unfold lenR; now rewrite length_map).
  assert (Eg : lenR (map g l) = lenR l)
    by (unfold lenR; now rewrite length_map).
  rewrite Ef, Eg. field. exact Hn.
Qed.

Lemma sum_squares_nonneg {A} (f : A -> R) (m : R) (l : list A) :
  0 <= sumR (map (fun a => (f a - m) * (f a - m)) l).
Proof.
  induction l as [|a l IH]; cbn [map sumR fold_right]; [rlra|].
  fold (sumR (map (fun a => (f a - m) * (f a - m)) l)).
  pose proof (Rle_0_sqr (f a - m)) as H. unfold Rsqr in H. rlra.
Qed.

End RealSums.

(** ** Correlation analysis: the per-factor Pearson coefficient *)

Section CorrelationFacts.

Import PyR Correlations.
Open Scope R_scope.

Lemma computational_formula pairs :
  pairs <> [] ->
  0 < denominator_sq pairs ->
  numerator pairs / sqrt (denominator_sq pairs) = pearson pairs.
Proof.
  intros Hne Hd. unfold pearson. cbv zeta.
  set (mx := meanR (map fst pairs)). set (my := meanR (map snd pairs)).
  set (Sxy := sumR (map (fun p => (fst p - mx) * (snd p - my)) pairs)).
  set (Sxx := sumR (map (fun p => (fst p - mx) * (fst p - mx)) pairs)).
  set (Syy := sumR (map (fun p => (snd p - my) * (snd p - my)) pairs)).
  set (n := lenR pairs).
  assert (Hn : 0 < n).
  { unfold n. destruct pairs; [congruence|]. rewrite lenR_cons.
    pose proof (lenR_nonneg pairs). rlra. }
  assert (Hnum : numerator pairs = n * Sxy).
  { unfold numerator, Sxy, mx, my, n. cbv zeta.
    now rewrite (sum_mean_deviations fst snd pairs Hne). }
  assert (Hxx : n * sumR (map (fun p => fst p ^ 2) pairs)
                - sumR (map fst pairs) ^ 2 = n * Sxx).
  { unfold Sxx, mx, n.
    rewrite (sum_mean_deviations fst fst pairs Hne).
    f_equal; [f_equal; f_equal; apply map_ext; intros; ring|ring]. }
  assert (Hyy : n * sumR (map (fun p => snd p ^ 2) pairs)
                - sumR (map snd pairs) ^ 2 = n * Syy).
  { unfold Syy, my, n.
    rewrite (sum_mean_deviations snd snd pairs Hne).
    f_equal; [f_equal; f_equal; apply map_ext; intros; ring|ring]. }
  assert (Hden : denominator_sq pairs = (n * n) * (Sxx * Syy)).
  { unfold denominator_sq. cbv zeta. fold n. rewrite Hxx, Hyy. ring. }
  assert (Hsxx : 0 <= Sxx) by apply sum_squares_nonneg.
  assert (Hsyy : 0 <= Syy) by apply sum_squares_nonneg.
  assert (Hprod : 0 < Sxx * Syy).
  { rewrite Hden in Hd. rnra. }
  assert (Hsx : 0 < Sxx) by rnra.
  assert (Hsy : 0 < Syy) by rnra.
  rewrite Hnum, Hden.
  rewrite sqrt_mult by rnra. rewrite sqrt_square by rlra.
  rewrite sqrt_mult by rlra.
  pose proof (sqrt_lt_R0 _ Hsx). pose proof (sqrt_lt_R0 _ Hsy).
  field. repeat split; rlra.
Qed.

(** In exact arithmetic, [_calculate_factor_correlation] returns [None]
    exactly when there are fewer than five paired samples, or the
    denominator (the square root of [denominator_sq]) is not positive, or
    the magnitude of the quotient is below 0.1; what it returns otherwise
    is that quotient, which is the Pearson coefficient of the paired
    samples. *)
Lemma factor_correlation_absent_or_pearson
    (daily_data : Z -> string -> option R) (dates : list Z)
    (outcome_key factor_key : string) :
  let pairs := paired daily_data dates outcome_key factor_key in
  let denominator := sqrt (denominator_sq pairs) in
  let result :=
    _calculate_factor_correlation daily_data dates outcome_key factor_key in
  (result = None <->
   (List.length pairs < 5)%nat \/ denominator <= 0
   \/ Rabs (numerator pairs / denominator) < 1 / 10)
  /\ (forall c,
        result = Some c ->
        c = numerator pairs / denominator /\ c = pearson pairs).
Proof.
  intros pairs denominator result. unfold result.
  unfold _calculate_factor_correlation, correlation_of_pairs. fold pairs.
  cbv zeta. fold denominator.
  destruct (List.length pairs <? 5)%nat eqn:E5.
  { apply Nat.ltb_lt in E5. split; [tauto|discriminate]. }
  apply Nat.ltb_ge in E5.
  assert (Hne : pairs <> []) by (intros Hn; rewrite Hn in E5; cbn in E5; lia).
  destruct (Rle_dec (denominator_sq pairs) 0) as [Hle|Hgt].
  { split; [|discriminate]. split; [|reflexivity]. intros _.
    right; left. unfold denominator. rewrite sqrt_neg_0 by exact Hle. rlra. }
  assert (Hd : 0 < denominator_sq pairs) by rlra.
  assert (Hs : 0 < denominator) by (apply sqrt_lt_R0, Hd).
  destruct (Req_dec_T denominator 0) as [E0|_]; [rlra|].
  destruct (Rlt_dec (Rabs (numerator pairs / denominator)) (1 / 10))
    as [Hw|Hw].
  - split; [tauto|discriminate].
  - split.
    + split; [discriminate|]. intros [H|[H|H]]; [lia|rlra|contradiction].
    + intros c [= <-]. split; [reflexivity|].
      now apply computational_formula.
Qed.

End CorrelationFacts.

(** For the five days of [doubled_days], whose pulse is twice the day
    number, the coefficient between the two is 1. *)
Example factor_correlation_of_doubled_days :
  Correlations._calculate_factor_correlation doubled_days [1; 2; 3; 4; 5]%Z
    "systolic" "pulse" = Some 1%R.
Proof.
  unfold Correlations._calculate_factor_correlation,
    Correlations.correlation_of_pairs.
  cbn [Correlations.paired doubled_days String.eqb Ascii.eqb Bool.eqb
         List.length Nat.ltb Nat.leb].
  set (pairs := [(1, 2 * 1); (2, 2 * 2); (3, 2 * 3); (4, 2 * 4);
                 (5, 2 * 5)]%R).
  assert (Hnum : Correlations.numerator pairs = 100%R).
  { unfold Correlations.numerator, pairs, PyR.lenR, PyR.sumR.
    cbn [map fold_right fst snd List.length INR]. rlra. }
  assert (Hden : Correlations.denominator_sq pairs = (100 * 100)%R).
  { unfold Correlations.denominator_sq, pairs, PyR.lenR, PyR.sumR.
    cbn [map fold_right fst snd List.length INR]. rlra. }
  rewrite Hnum, Hden, sqrt_square by rlra.
  destruct (Rle_dec (100 * 100) 0) as [H|_]; [rlra|].
  destruct (Req_dec_T 100 0) as [H|_]; [rlra|].
  replace (100 / 100)%R with 1%R by rlra.
  rewrite Rabs_R1.
  destruct (Rlt_dec 1 (1 / 10)) as [H|_]; [rlra|]. reflexivity.
Qed.

(** C6, on the code: the guard [denominator_sq <= 0] is to tell the
    columns without variance, for which there is no Pearson coefficient,
    but in binary64 the two differences of [denominator_sq] do not cancel.
    On five days with the mean pressures 362/3 and 266/3, the same on each
    day, the exact denominator is 0 and the exact computation returns
    [None]; the program computes the numerator -5.82e-11 and the
    denominator 4.12e-11 and returns -1.414213562373095, which is no
    correlation coefficient: it is below -1.  (On the five days of
    [doubled_days] both computations return 1.) *)
Theorem factor_correlation_leaves_unit_interval :
  Correlations64._calculate_factor_correlation equal_days64
    [1; 2; 3; 4; 5]%Z "systolic" "diastolic"
  = Some (-0x1.6a09e667f3bccp+0)%float
  /\ (-0x1.6a09e667f3bccp+0 <? -1)%float = true
  /\ Correlations._calculate_factor_correlation equal_days
       [1; 2; 3; 4; 5]%Z "systolic" "diastolic" = None
  /\ Correlations64._calculate_factor_correlation doubled_days64
       [1; 2; 3; 4; 5]%Z "systolic" "pulse" = Some 1%float
  /\ Correlations._calculate_factor_correlation doubled_days
       [1; 2; 3; 4; 5]%Z "systolic" "pulse" = Some 1%R.
Proof.
  split; [vm_compute; reflexivity|]. split; [vm_compute; reflexivity|].
  split; [|split; [vm_compute; reflexivity
                  |exact factor_correlation_of_doubled_days]].
  unfold Correlations._calculate_factor_correlation,
    Correlations.correlation_of_pairs.
  cbn [Correlations.paired equal_days String.eqb Ascii.eqb Bool.eqb
         List.length Nat.ltb Nat.leb].
  match goal with
  | |- context [Rle_dec ?d 0] => assert (E : d = 0%R)
  end.
  { unfold Correlations.denominator_sq, PyR.lenR, PyR.sumR.
    cbn [map fold_right fst snd List.length INR]. field. }
  rewrite E. destruct (Rle_dec 0 0) as [_|H]; [reflexivity|rlra].
Qed.

(** ** Rounding over the reals *)

Section RealRounding.

Import PyR.
Open Scope R_scope.

Lemma round_IZR z : round (IZR z) = z.
Proof.
  unfold round. cbv zeta. rewrite ZfloorZ.
  destruct (Rlt_dec (IZR z - IZR z) (1 / 2)) as [_|H]; [reflexivity|].
  exfalso. apply H. rlra.
Qed.


Lemma round_bounds x :
  (Zfloor x <= round x <= Zfloor x + 1)%Z.
Proof.
  unfold round. cbv zeta.
  destruct (Rlt_dec (x - IZR (Zfloor x)) (1 / 2));
    [|destruct (Rlt_dec (1 / 2) (x - IZR (Zfloor x)));
      [|destruct (Z.even (Zfloor x))]]; lia.
Qed.

(** [round] is monotone. *)
Lemma round_le x y : x <= y -> (round x <= round y)%Z.
Proof.
  intros Hxy. pose proof (Zfloor_le x y Hxy) as Hf.
  destruct (Z.eq_dec (Zfloor x) (Zfloor y)) as [E|E].
  - unfold round. cbv zeta. rewrite E.
    destruct (Rlt_dec (x - IZR (Zfloor y)) (1 / 2)) as [Hx|Hx];
      destruct (Rlt_dec (y - IZR (Zfloor y)) (1 / 2)) as [Hy|Hy];
      try lia; try (exfalso; rlra).
    + destruct (Rlt_dec (1 / 2) (y - IZR (Zfloor y)));
        [|destruct (Z.even (Zfloor y))]; lia.
    + destruct (Rlt_dec (1 / 2) (x - IZR (Zfloor y))) as [Hx'|Hx'];
        destruct (Rlt_dec (1 / 2) (y - IZR (Zfloor y))) as [Hy'|Hy'];
        try lia; try (exfalso; rlra);
        destruct (Z.even (Zfloor y)); lia.
  - pose proof (round_bounds x). pose proof (round_bounds y). lia.
Qed.

Lemma round1_le x y : x <= y -> round1 x <= round1 y.
Proof.
  intros Hxy. unfold round1.
  assert (H : (round (x * 10) <= round (y * 10))%Z)
    by (apply round_le; rlra).
  apply IZR_le in H. rlra.
Qed.

End RealRounding.

(** ** The forecast: margin, bounds and their order *)

Section ForecastFacts.

Import PyR Forecast.
Open Scope R_scope.

Lemma wider_contains_plausible metric :
  fst (wider metric) <= fst (plausible metric)
  /\ fst (plausible metric) <= snd (plausible metric)
  /\ snd (plausible metric) <= snd (wider metric).
Proof.
  unfold wider, plausible.
  destruct (String.eqb metric "systolic");
    [|destruct (String.eqb metric "diastolic")]; cbn [fst snd]; rlra.
Qed.

Lemma clamp_bounds lo hi x : lo <= hi -> lo <= Rmax lo (Rmin hi x) <= hi.
Proof.
  intros H. unfold Rmax, Rmin.
  destruct (Rle_dec hi x); destruct (Rle_dec lo _); rlra.
Qed.

(** The fields of the forecast point of day [i]. *)
Lemma forecast_point_fields y last_date forecast_days metric i :
  let slope := fst (regression y) in
  let intercept := snd (regression y) in
  let P :=
    Rmax (fst (plausible metric))
      (Rmin (snd (plausible metric))
         (intercept + slope * (lenR y + IZR i - 1))) in
  let m :=
    (196 / 100) * std_error y * (1 + (1 / 2) * (IZR i / IZR forecast_days)) in
  forecast_point y last_date forecast_days metric i
  = {| fdate := (last_date + i)%Z;
       predicted := round1 P;
       upperBound := round1 (Rmin (snd (wider metric)) (P + m));
       lowerBound := round1 (Rmax (fst (wider metric)) (P - m)) |}.
Proof.
  cbv zeta. unfold forecast_point, plausible, wider, margin.
  destruct (regression y) as [slope intercept]. cbn [fst snd].
  replace (1 + IZR i / IZR forecast_days * (1 / 2))
    with (1 + 1 / 2 * (IZR i / IZR forecast_days)) by ring.
  destruct (String.eqb metric "systolic");
    [|destruct (String.eqb metric "diastolic")]; reflexivity.
Qed.

Lemma std_error_nonneg y : 0 <= std_error y.
Proof.
  unfold std_error.
  destruct (2 <? List.length (residuals y))%nat; [apply sqrt_pos|rlra].
Qed.

Lemma in_days_ahead forecast_days i :
  In i (days_ahead forecast_days) -> (1 <= i <= forecast_days)%Z.
Proof.
  unfold days_ahead. rewrite in_map_iff. intros (k & <- & Hk).
  apply in_seq in Hk. lia.
Qed.

Lemma margin_nonneg y i forecast_days :
  (1 <= i <= forecast_days)%Z ->
  0 <= (196 / 100) * std_error y * (1 + (1 / 2) * (IZR i / IZR forecast_days)).
Proof.
  intros [Hi Hf]. pose proof (std_error_nonneg y) as Hs.
  assert (H1 : 1 <= IZR i) by (apply IZR_le in Hi; exact Hi).
  assert (H2 : 1 <= IZR forecast_days)
    by (apply (IZR_le 1); lia).
  assert (H3 : 0 <= IZR i / IZR forecast_days).
  { apply Rmult_le_pos; [rlra|]. left. apply Rinv_0_lt_compat. rlra. }
  apply Rmult_le_pos; [rlra|rlra].
Qed.

(** C10: for every history, horizon and metric, each forecast point has
    its lower bound at most its predicted value at most its upper bound:
    the margin is never negative, the predicted value stays in the
    plausible range, and the limits of the bounds contain that range. *)
Theorem forecast_bounds_ordered historical forecast_days metric :
  historical <> [] ->
  exists points,
    _generate_forecast_points historical forecast_days metric = Ok points
    /\ List.length points = Z.to_nat forecast_days
    /\ Forall (fun p => lowerBound p <= predicted p <= upperBound p) points.
Proof.
  intros Hh. unfold _generate_forecast_points. cbv zeta.
  destruct (rev historical) as [|last rest] eqn:Er.
  { apply (f_equal (@rev HistoricalDataPoint)) in Er.
    rewrite rev_involutive in Er. contradiction. }
  eexists. split; [reflexivity|]. split.
  - unfold days_ahead. now rewrite !length_map, length_seq.
  - apply Forall_map, Forall_forall. intros i Hi.
    apply in_days_ahead in Hi.
    rewrite forecast_point_fields. cbn [predicted upperBound lowerBound].
    pose proof (margin_nonneg (map value historical) i forecast_days Hi) as Hm.
    destruct (wider_contains_plausible metric) as (Hlo & Hmid & Hhi).
    set (P := Rmax (fst (plausible metric)) (Rmin (snd (plausible metric)) _)).
    assert (HP : fst (plausible metric) <= P <= snd (plausible metric))
      by (apply clamp_bounds; exact Hmid).
    split; apply round1_le.
    + unfold Rmax. destruct (Rle_dec _ _); rlra.
    + unfold Rmin. destruct (Rle_dec _ _); rlra.
Qed.

End ForecastFacts.

(** The theorem at the flat history, for a horizon of thirty days. *)
Lemma forecast_bounds_ordered_witness :
  flat_history <> []
  /\ exists points,
       Forecast._generate_forecast_points flat_history 30 "systolic"
       = Ok points
       /\ List.length points = 30%nat
       /\ Forall (fun p =>
                    (Forecast.lowerBound p <= Forecast.predicted p
                     <= Forecast.upperBound p)%R) points.
Proof.
  assert (H : flat_history <> []) by discriminate.
  split; [exact H|].
  exact (forecast_bounds_ordered flat_history 30 "systolic" H).
Defined.

Section FlatHistory.

Import PyR Forecast.
Open Scope R_scope.

Lemma sumR_constant c l :
  Forall (fun v => v = c) l -> sumR l = c * lenR l.
Proof.
  induction 1 as [|v l Hv _ IH].
  - unfold lenR. cbn. ring.
  - rewrite lenR_cons. cbn [sumR fold_right]. fold (sumR l).
    rewrite IH, Hv. ring.
Qed.

Lemma lenR_pos {A} (l : list A) : l <> [] -> 0 < lenR l.
Proof.
  destruct l; [congruence|]. intros _. rewrite lenR_cons.
  pose proof (lenR_nonneg l). rlra.
Qed.

Lemma meanR_constant c l :
  l <> [] -> Forall (fun v => v = c) l -> meanR l = c.
Proof.
  intros Hl H. unfold meanR. rewrite (sumR_constant c l H).
  pose proof (lenR_pos l Hl). field. rlra.
Qed.











End FlatHistory.



(** ** Further properties *)

Section PatientNotFound.

(** Every routine resolves the patient first: when the patient is absent,
    each of the seven raises [PatientNotFoundError] with the id. *)
Theorem patient_not_found_by_routine db settings now patient_id days
    (detect : list Reading -> list LifestyleEntry -> list Patterns.Pattern)
    (correlate : list Reading -> list LifestyleEntry
                 -> result (list Correlations.Correlation))
    (metric : string) (forecast_days : Z) :
  fetch_patient db patient_id = None ->
  Insights.generate_insights db settings now patient_id days
  = Raise (PatientNotFoundError patient_id)
  /\ RiskAssessment.calculate_risk_assessment db settings patient_id days
     = Raise (PatientNotFoundError patient_id)
  /\ Predictions.calculate_predictions db settings patient_id days
     = Raise (PatientNotFoundError patient_id)
  /\ HealthScore.calculate_health_score db settings patient_id days
     = Raise (PatientNotFoundError patient_id)
  /\ Patterns.analyze_patterns detect db settings patient_id days
     = Raise (PatientNotFoundError patient_id)
  /\ Correlations.analyze_correlations correlate db settings patient_id days
     = Raise (PatientNotFoundError patient_id)
  /\ Forecast.generate_forecast db settings patient_id metric forecast_days
       days
     = Raise (PatientNotFoundError patient_id).
Proof.
  intros Hp.
  unfold Insights.generate_insights, RiskAssessment.calculate_risk_assessment,
    Predictions.calculate_predictions, HealthScore.calculate_health_score,
    Patterns.analyze_patterns, Correlations.analyze_correlations,
    Forecast.generate_forecast.
  rewrite Hp. repeat split; reflexivity.
Qed.

(** The theorem at the database without the patient, as in
    [test_generate_insights_patient_not_found]. *)
Lemma patient_not_found_by_routine_witness :
  fetch_patient unknown_patient_db "non-existent-patient" = None
  /\ Insights.generate_insights unknown_patient_db default_settings "now"
       "non-existent-patient" 30
     = Raise (PatientNotFoundError "non-existent-patient").
Proof.
  assert (H : fetch_patient unknown_patient_db "non-existent-patient" = None)
    by reflexivity.
  split; [exact H|].
  apply (patient_not_found_by_routine unknown_patient_db default_settings
           "now" "non-existent-patient" 30 (fun _ _ => [])
           (fun _ _ => Ok []) "systolic" 30 H).
Defined.

End PatientNotFound.

Section ExactLine.

Import Predictions.
Open Scope Q_scope.

Lemma squares_nonneg m l :
  0 <= Py.sumQ (map (fun x => (x - m) * (x - m)) l).
Proof.
  induction l as [|x l IH]; cbn [map Py.sumQ fold_right]; [discriminate|].
  fold (Py.sumQ (map (fun x => (x - m) * (x - m)) l)).
  assert (H : 0 <= (x - m) * (x - m)).
  { destruct (Qlt_le_dec (x - m) 0) as [Hn|Hp].
    - setoid_replace ((x - m) * (x - m)) with ((m - x) * (m - x))
        using relation Qeq by ring.
      apply Qmult_le_0_compat; qlra.
    - apply Qmult_le_0_compat; exact Hp. }
  qlra.
Qed.

(** Two positions or more are not all equal to their mean. *)
Lemma denominator_positive n : (2 <= n)%nat -> 0 < denominator n.
Proof.
  intros Hn. destruct n as [|[|k]]; try lia.
  unfold denominator. cbv zeta.
  set (m := Py.meanQ (xs (S (S k)))).
  unfold xs. cbn [seq map Py.sumQ fold_right].
  fold (Py.sumQ (map (fun x => (x - m) * (x - m))
                   (map (fun i => inject_Z (Z.of_nat i)) (seq 2 k)))).
  pose proof (squares_nonneg m
                (map (fun i => inject_Z (Z.of_nat i)) (seq 2 k))) as Hrest.
  change (inject_Z (Z.of_nat 0)) with 0.
  change (inject_Z (Z.of_nat 1)) with 1.
  assert (Hm : 0 <= (m - (1 # 2)) * (m - (1 # 2))).
  { destruct (Qlt_le_dec (m - (1 # 2)) 0) as [Hneg|Hpos].
    - setoid_replace ((m - (1 # 2)) * (m - (1 # 2)))
        with (((1 # 2) - m) * ((1 # 2) - m)) using relation Qeq by ring.
      apply Qmult_le_0_compat; qlra.
    - apply Qmult_le_0_compat; exact Hpos. }
  assert (E : (0 - m) * (0 - m) + (1 - m) * (1 - m)
              == 2 * ((m - (1 # 2)) * (m - (1 # 2))) + (1 # 2)) by ring.
  revert Hrest Hm E.
  generalize (Py.sumQ (map (fun x => (x - m) * (x - m))
                         (map (fun i => inject_Z (Z.of_nat i)) (seq 2 k)))).
  generalize ((m - (1 # 2)) * (m - (1 # 2))).
  generalize ((0 - m) * (0 - m)). generalize ((1 - m) * (1 - m)).
  intros. qlra.
Qed.

(** On two readings or more whose values lie exactly on a line over their
    positions, the least-squares fit of [_calculate_metric_prediction] is
    that line. *)
Theorem regression_recovers_line a b y :
  (2 <= List.length y)%nat ->
  on_line a b (xs (List.length y)) y ->
  slope y == b /\ intercept y == a.
Proof.
  intros Hn H. apply on_line_fit.
  - destruct y; [cbn in Hn; lia|discriminate].
  - exact H.
  - pose proof (denominator_positive _ Hn). intros E. rewrite E in H0.
    discriminate.
Qed.

(** The theorem at the values 1, 3, 5: slope 2, intercept 1. *)
Lemma regression_recovers_line_witness :
  (2 <= List.length [1; 3; 5])%nat
  /\ on_line 1 2 (xs 3) [1; 3; 5]
  /\ slope [1; 3; 5] == 2 /\ intercept [1; 3; 5] == 1.
Proof.
  assert (Hn : (2 <= List.length [1; 3; 5])%nat) by (cbn; lia).
  assert (H : on_line 1 2 (xs (List.length [1; 3; 5])) [1; 3; 5])
    by (repeat constructor).
  split; [exact Hn|]. split; [exact H|].
  exact (regression_recovers_line 1 2 [1; 3; 5] Hn H).
Defined.

End ExactLine.

(** With too few readings, as in
    [test_generate_insights_insufficient_data], the single insight is the
    information that more data is needed. *)
Example insights_for_three_readings :
  Insights.generate_insights
    (db_of (Some MOCK_PATIENT) (firstn 3 MOCK_READINGS) [] [])
    default_settings "now" "test-patient-id" 30
  = Ok [Insights.more_data_needed 3 7 "now"].
Proof. reflexivity. Qed.

(* ================================================================== *)
(** * Part IV: the response models, the cache key, the analyses and the
    endpoints *)
(* ================================================================== *)

(** ** The response models accept what the services build *)

Section SortedPrefix.

Context {A : Type} (key : A -> Z).

Lemma le_by_trans : Relations_1.Transitive (le_by key).
Proof. intros x y z. unfold le_by. lia. Qed.

Lemma sorted_strongly (l : list A) :
  Sorted (le_by key) l -> StronglySorted (le_by key) l.
Proof. apply Sorted_StronglySorted, le_by_trans. Qed.

(** In a list sorted by its key, the items whose key is at most [k] are a
    prefix. *)
Lemma sorted_filter_prefix k (l : list A) :
  StronglySorted (le_by key) l ->
  filter (fun y => (key y <=? k)%Z) l
  = firstn (List.length (filter (fun y => (key y <=? k)%Z) l)) l.
Proof.
  induction 1 as [|a l Hl IH Ha]; [reflexivity|].
  cbn [filter]. destruct (key a <=? k)%Z eqn:E.
  - cbn [List.length firstn]. now rewrite <- IH.
  - assert (Hnone : filter (fun y => (key y <=? k)%Z) l = []).
    { apply Z.leb_gt in E. clear IH Hl.
      induction l as [|b l IHl]; [reflexivity|].
      cbn [filter]. inversion Ha as [|? ? Hb Hrest]; subst.
      unfold le_by in Hb.
      destruct (key b <=? k)%Z eqn:Eb; [apply Z.leb_le in Eb; lia|].
      now apply IHl. }
    rewrite Hnone. reflexivity.
Qed.

Lemma filter_perm_length (p : A -> bool) (l l' : list A) :
  Permutation l l' ->
  List.length (filter p l) = List.length (filter p l').
Proof.
  induction 1 as [|x l l' _ IH|x y l|l l' l'' _ IH1 _ IH2];
    cbn [filter]; try reflexivity.
  - destruct (p x); cbn [List.length]; congruence.
  - destruct (p x), (p y); reflexivity.
  - congruence.
Qed.

Lemma firstn_more (m n : nat) (l : list A) x :
  (m <= n)%nat -> In x (firstn m l) -> In x (firstn n l).
Proof.
  revert n l. induction m as [|m IH]; intros n l Hmn Hx;
    [destruct l; contradiction|].
  destruct l as [|a l]; [contradiction|].
  destruct n as [|n]; [lia|].
  cbn [firstn] in *. destruct Hx as [->|Hx]; [now left|right].
  apply IH; [lia|exact Hx].
Qed.

(** An item whose key is at most [k] survives the cut to [n] items of the
    sorted list when at most [n] items have such a key. *)
Lemma kept_by_cut k n (l : list A) x :
  In x l -> (key x <= k)%Z ->
  (List.length (filter (fun y => (key y <=? k)%Z) l) <= n)%nat ->
  In x (firstn n (Py.sort_by key l)).
Proof.
  intros Hx Hk Hn.
  pose proof (sort_by_perm key l) as Hperm.
  pose proof (sorted_strongly _ (sort_by_sorted key l)) as Hs.
  apply (firstn_more
           (List.length (filter (fun y => (key y <=? k)%Z) (Py.sort_by key l)))).
  - rewrite (filter_perm_length _ _ _ Hperm). exact Hn.
  - rewrite <- (sorted_filter_prefix k _ Hs).
    apply filter_In. split.
    + apply (Permutation_in _ (Permutation_sym Hperm)), Hx.
    + now apply Z.leb_le.
Qed.

End SortedPrefix.

Section InsightsModel.

Import Insights.
Open Scope Z_scope.

(** What every insight that the service builds satisfies. *)
Ltac built_insights :=
  unfold Insights.when;
  repeat match goal with
         | |- Forall _ (_ ++ _) => apply Forall_app; split
         | |- Forall _ (if ?c then _ else _) => destruct c
         | |- Forall _ (match ?l with [] => _ | _ :: _ => _ end) => destruct l
         | |- Forall _ (_ :: _) =>
             constructor; [split; [reflexivity|cbn; lia]|]
         | |- Forall _ [] => constructor
         end.

Lemma bp_patterns_accepted readings now :
  Forall accepted (_analyze_bp_patterns readings now).
Proof.
  unfold _analyze_bp_patterns, accepted.
  destruct readings as [|r t]; [constructor|].
  cbv zeta. built_insights.
Qed.

Lemma medication_adherence_accepted medications now :
  Forall accepted (_analyze_medication_adherence medications now).
Proof.
  unfold _analyze_medication_adherence, accepted.
  destruct (filter is_active medications) as [|m t]; [constructor|].
  cbv zeta. built_insights.
Qed.

Lemma lifestyle_accepted lifestyle now :
  Forall accepted (_analyze_lifestyle lifestyle now).
Proof.
  unfold _analyze_lifestyle, accepted.
  destruct lifestyle as [|e t]; [constructor|].
  cbv zeta. built_insights.
Qed.

Lemma time_patterns_accepted readings now :
  Forall accepted (_analyze_time_patterns readings now).
Proof.
  unfold _analyze_time_patterns, accepted. cbv zeta. built_insights.
Qed.

Lemma collected_accepted readings medications lifestyle now :
  Forall accepted (collected_insights readings medications lifestyle now).
Proof.
  unfold collected_insights. cbv zeta.
  apply Forall_app. split; [|apply time_patterns_accepted].
  destruct lifestyle;
    [|apply Forall_app; split; [|apply lifestyle_accepted]];
    (destruct medications;
     [|apply Forall_app; split; [|apply medication_adherence_accepted]]);
    apply bp_patterns_accepted.
Qed.

(** [generate_insights] with the patient found. *)
Lemma generate_insights_found db settings now patient_id days patient :
  fetch_patient db patient_id = Some patient ->
  let readings := fetch_blood_pressure_readings db patient_id days in
  let n := Z.of_nat (List.length readings) in
  generate_insights db settings now patient_id days
  = if n <? min_readings_for_analysis settings then
      Ok [more_data_needed n (min_readings_for_analysis settings) now]
    else
      Ok (firstn 8
            (Py.sort_by priority
               (collected_insights readings (fetch_medications db patient_id)
                  (fetch_lifestyle_entries db patient_id days) now))).
Proof.
  intros Hp. unfold generate_insights. rewrite Hp. reflexivity.
Qed.

(** Whatever the data, [generate_insights] raises nothing but
    [PatientNotFoundError], and every insight it returns passes the
    validation of the [Insight] model: its type is one of the four
    literals, its priority lies between 1 and 5 (in fact, between 1 and
    4). *)
Theorem insights_satisfy_response_model db settings now patient_id days :
  match generate_insights db settings now patient_id days with
  | Ok l =>
      fetch_patient db patient_id <> None
      /\ forallb Responses.valid_Insight l = true
      /\ Forall (fun i => 1 <= priority i <= 4) l
  | Raise e =>
      fetch_patient db patient_id = None
      /\ e = PatientNotFoundError patient_id
  end.
Proof.
  destruct (fetch_patient db patient_id) as [patient|] eqn:Hp.
  - rewrite (generate_insights_found _ _ _ _ _ _ Hp). cbv zeta.
    destruct (_ <? _).
    + split; [discriminate|]. split; [reflexivity|].
      repeat constructor; cbn; lia.
    + split; [discriminate|].
      assert (H : Forall accepted
                    (firstn 8
                       (Py.sort_by priority
                          (collected_insights
                             (fetch_blood_pressure_readings db patient_id days)
                             (fetch_medications db patient_id)
                             (fetch_lifestyle_entries db patient_id days)
                             now)))).
      { apply Forall_forall. intros i Hi.
        apply firstn_subset in Hi.
        apply (Permutation_in _ (sort_by_perm priority _)) in Hi.
        pose proof (collected_accepted
                      (fetch_blood_pressure_readings db patient_id days)
                      (fetch_medications db patient_id)
                      (fetch_lifestyle_entries db patient_id days) now) as Ha.
        rewrite Forall_forall in Ha. now apply Ha. }
      split.
      * apply forallb_forall. intros i Hi.
        rewrite Forall_forall in H. now apply H.
      * eapply Forall_impl; [|exact H]. intros i [_ Hi]. exact Hi.
  - unfold generate_insights. rewrite Hp. split; reflexivity.
Qed.

(** The number of insights of priority 1 that one analysis can add. *)
Ltac count_urgent :=
  unfold Insights.when;
  repeat rewrite ?filter_app, ?length_app;
  repeat match goal with
         | |- context [if ?c then _ else _] => destruct c
         | |- context [match ?l with [] => _ | _ :: _ => _ end] => destruct l
         end;
  cbn; lia.

Lemma bp_patterns_urgent readings now :
  (List.length
     (filter (fun i => (priority i <=? 1)%Z) (_analyze_bp_patterns readings now))
   <= 3)%nat.
Proof.
  unfold _analyze_bp_patterns.
  destruct readings as [|r t]; [cbn; lia|].
  cbv zeta. count_urgent.
Qed.

Lemma medication_adherence_urgent medications now :
  filter (fun i => (priority i <=? 1)%Z)
    (_analyze_medication_adherence medications now) = [].
Proof.
  unfold _analyze_medication_adherence.
  destruct (filter is_active medications) as [|m t]; [reflexivity|].
  cbv zeta. unfold Insights.when. rewrite filter_app.
  repeat match goal with
         | |- context [if ?c then _ else _] => destruct c
         | |- context [match ?l with [] => _ | _ :: _ => _ end] => destruct l
         end; reflexivity.
Qed.

Lemma lifestyle_urgent lifestyle now :
  filter (fun i => (priority i <=? 1)%Z) (_analyze_lifestyle lifestyle now) = [].
Proof.
  unfold _analyze_lifestyle.
  destruct lifestyle as [|e t]; [reflexivity|].
  cbv zeta. unfold Insights.when. rewrite !filter_app.
  repeat match goal with
         | |- context [if ?c then _ else _] => destruct c
         end; reflexivity.
Qed.

Lemma time_patterns_urgent readings now :
  filter (fun i => (priority i <=? 1)%Z) (_analyze_time_patterns readings now) = [].
Proof.
  unfold _analyze_time_patterns. cbv zeta.
  repeat match goal with
         | |- context [if ?c then _ else _] => destruct c
         end; reflexivity.
Qed.

Lemma collected_urgent readings medications lifestyle now :
  (List.length
     (filter (fun i => (priority i <=? 1)%Z)
        (collected_insights readings medications lifestyle now)) <= 3)%nat.
Proof.
  unfold collected_insights. cbv zeta.
  pose proof (bp_patterns_urgent readings now) as Hbp.
  destruct lifestyle, medications;
    rewrite ?filter_app, ?length_app, ?medication_adherence_urgent,
      ?lifestyle_urgent, ?time_patterns_urgent; cbn [List.length]; lia.
Qed.

(** The insight on critical readings is among the collected ones as soon
    as one of the fourteen latest readings is critical. *)
Lemma critical_collected readings medications lifestyle now :
  Exists (fun r => is_critical r = true) (firstn 14 readings) ->
  exists i,
    In i (collected_insights readings medications lifestyle now)
    /\ title i = "Critical Reading Detected"%string
    /\ type i = "danger"%string /\ priority i = 1
    /\ message i
       = [Py.Lit "You had ";
          Py.FInt (Py.count is_critical (firstn 14 readings));
          Py.Lit " reading(s) in the critical range. Seek medical attention if symptoms occur."].
Proof.
  intros Hex.
  assert (Hpos : (0 <? Py.count is_critical (firstn 14 readings)) = true).
  { apply Z.ltb_lt. unfold Py.count.
    apply Exists_exists in Hex. destruct Hex as [r [Hin Hr]].
    assert (Hf : In r (filter is_critical (firstn 14 readings)))
      by (apply filter_In; split; assumption).
    destruct (filter is_critical (firstn 14 readings)); [contradiction|].
    cbn [List.length]. lia. }
  exists
     {| type := "danger";
        title := "Critical Reading Detected";
        message :=
          [Py.Lit "You had ";
           Py.FInt (Py.count is_critical (firstn 14 readings));
           Py.Lit " reading(s) in the critical range. Seek medical attention if symptoms occur."];
        priority := 1;
        timestamp := now;
        recommendations :=
          Some ["Seek immediate medical attention if experiencing symptoms"%string;
                "Contact your healthcare provider today"%string;
                "Do not skip medications"%string] |}.
  split; [|repeat split].
  assert (Hbp : In
     {| type := "danger";
        title := "Critical Reading Detected";
        message :=
          [Py.Lit "You had ";
           Py.FInt (Py.count is_critical (firstn 14 readings));
           Py.Lit " reading(s) in the critical range. Seek medical attention if symptoms occur."];
        priority := 1;
        timestamp := now;
        recommendations :=
          Some ["Seek immediate medical attention if experiencing symptoms"%string;
                "Contact your healthcare provider today"%string;
                "Do not skip medications"%string] |}
     (_analyze_bp_patterns readings now)).
  { unfold _analyze_bp_patterns.
    destruct readings as [|r t];
      [apply Exists_exists in Hex; destruct Hex as [? [[] _]]|].
    cbv zeta. rewrite Hpos. unfold Insights.when at 2.
    apply in_or_app. right. apply in_or_app. right.
    apply in_or_app. left. now left. }
  unfold collected_insights. cbv zeta.
  apply in_or_app. left.
  destruct lifestyle; [|apply in_or_app; left];
    (destruct medications; [|apply in_or_app; left]); exact Hbp.
Qed.

(** The cut to eight insights never drops an insight of priority 1: with
    the patient found and enough readings, every such insight that the
    analyses produce is returned; in particular, whenever one of the
    fourteen latest readings is critical (systolic at least 180 or
    diastolic at least 120), the danger insight "Critical Reading Detected"
    with the count of such readings is in the result. *)
Theorem urgent_insights_are_kept db settings now patient_id days :
  fetch_patient db patient_id <> None ->
  let readings := fetch_blood_pressure_readings db patient_id days in
  let medications := fetch_medications db patient_id in
  let lifestyle := fetch_lifestyle_entries db patient_id days in
  min_readings_for_analysis settings <= Z.of_nat (List.length readings) ->
  exists l,
    generate_insights db settings now patient_id days = Ok l
    /\ (forall i,
          In i (collected_insights readings medications lifestyle now) ->
          priority i = 1 -> In i l)
    /\ (Exists (fun r => is_critical r = true) (firstn 14 readings) ->
        exists i,
          In i l
          /\ title i = "Critical Reading Detected"%string
          /\ type i = "danger"%string /\ priority i = 1
          /\ In (Py.FInt (Py.count is_critical (firstn 14 readings)))
               (message i)).
Proof.
  intros Hp readings medications lifestyle Hn.
  destruct (fetch_patient db patient_id) as [patient|] eqn:Ep; [|congruence].
  rewrite (generate_insights_found _ _ _ _ _ _ Ep). cbv zeta.
  fold readings medications lifestyle.
  apply Z.ltb_ge in Hn. rewrite Hn.
  eexists. split; [reflexivity|].
  assert (Hkept : forall i,
            In i (collected_insights readings medications lifestyle now) ->
            priority i = 1 ->
            In i (firstn 8
                    (Py.sort_by priority
                       (collected_insights readings medications lifestyle
                          now)))).
  { intros i Hi Hprio. apply (kept_by_cut priority 1); [exact Hi|lia|].
    pose proof (collected_urgent readings medications lifestyle now). lia. }
  split; [exact Hkept|].
  intros Hex.
  destruct (critical_collected readings medications lifestyle now Hex)
    as [i [Hi [Ht [Hty [Hprio Hmsg]]]]].
  exists i. split; [now apply Hkept|].
  repeat split; try assumption.
  rewrite Hmsg. right. now left.
Qed.

End InsightsModel.

Section RiskModel.

Import RiskAssessment.
Open Scope Z_scope.

Lemma add_factors n fs rs a :
  forallb Responses.valid_RiskFactor (factors_ a) = true ->
  forallb Responses.valid_RiskFactor fs = true ->
  forallb Responses.valid_RiskFactor (factors_ (add n fs rs a)) = true.
Proof.
  intros Ha Hfs. cbn [add factors_]. rewrite forallb_app, Ha, Hfs. reflexivity.
Qed.

(** Follows the accumulator through the [let]s of an analysis: each step
    adds factors with a valid impact, or none. *)
Ltac added_step :=
  split_ifs; repeat (apply add_factors; [|reflexivity]); assumption.

Ltac added_factors :=
  cbv beta iota;
  repeat lazymatch goal with
         | |- forallb ?f (factors_ (let x := ?v in @?body x)) = true =>
             lazymatch type of v with
             | acc =>
                 let H := fresh "H" in
                 let a' := fresh "a" in
                 assert (H : forallb f (factors_ v) = true) by added_step;
                 set (a' := v) in *; clearbody a';
                 change (forallb f (factors_ (body a')) = true); cbv beta
             | _ => change (forallb f (factors_ (body v)) = true); cbv beta
             end
         end;
  added_step.

Lemma bp_analysis_factors readings a :
  forallb Responses.valid_RiskFactor (factors_ a) = true ->
  forallb Responses.valid_RiskFactor (factors_ (bp_analysis readings a)) = true.
Proof.
  intros Ha. destruct readings as [|r t]; cbv delta [bp_analysis];
    added_factors.
Qed.

Lemma medication_analysis_factors medications a :
  forallb Responses.valid_RiskFactor (factors_ a) = true ->
  forallb Responses.valid_RiskFactor
    (factors_ (medication_analysis medications a)) = true.
Proof.
  intros Ha. unfold medication_analysis.
  destruct (filter is_active medications) as [|m t]; added_factors.
Qed.

Lemma lifestyle_analysis_factors lifestyle a :
  forallb Responses.valid_RiskFactor (factors_ a) = true ->
  forallb Responses.valid_RiskFactor
    (factors_ (lifestyle_analysis lifestyle a)) = true.
Proof.
  intros Ha. destruct lifestyle as [|e t]; cbv delta [lifestyle_analysis];
    added_factors.
Qed.

Lemma demographics_analysis_factors age patient a :
  forallb Responses.valid_RiskFactor (factors_ a) = true ->
  forallb Responses.valid_RiskFactor
    (factors_ (demographics_analysis age patient a)) = true.
Proof.
  intros Ha. cbv delta [demographics_analysis]. added_factors.
Qed.

Lemma overall_valid a :
  0 <= risk_score a ->
  forallb Responses.valid_RiskFactor (factors_ a) = true ->
  Responses.valid_RiskAssessment (overall a) = true.
Proof.
  intros Hs Hf. unfold overall, Responses.valid_RiskAssessment. cbv zeta.
  assert (Hr : Responses.ge_le 0 100 (Z.min 100 (risk_score a)) = true).
  { unfold Responses.ge_le. apply andb_true_intro.
    split; apply Z.leb_le; lia. }
  split_ifs; cbn [overallRisk riskScore factors]; rewrite Hr, Hf; reflexivity.
Qed.

(** Whatever the data, [calculate_risk_assessment] raises nothing but
    [PatientNotFoundError], when the patient is absent, and
    [AttributeError], when the patient row holds [None] for the joined
    user; the assessment it returns in every other case passes the
    validation of the [RiskAssessment] model: the level is one of the four
    literals, the score lies between 0 and 100, and the impact of every
    factor is "low", "moderate" or "high". *)
Theorem risk_assessment_satisfies_response_model db settings patient_id days :
  match calculate_risk_assessment db settings patient_id days with
  | Ok r =>
      (exists patient,
         fetch_patient db patient_id = Some patient
         /\ users patient <> UsersNone)
      /\ Responses.valid_RiskAssessment r = true
  | Raise e =>
      (fetch_patient db patient_id = None
       /\ e = PatientNotFoundError patient_id)
      \/ (exists patient,
            fetch_patient db patient_id = Some patient
            /\ users patient = UsersNone
            /\ e = AttributeError)
  end.
Proof.
  unfold calculate_risk_assessment.
  destruct (fetch_patient db patient_id) as [patient|];
    [|left; split; reflexivity].
  cbv zeta. unfold users_age.
  destruct (users patient) as [| |age] eqn:Eu; cbn [bind];
    [|right; exists patient; repeat split; assumption|];
    (split; [exists patient; split; [reflexivity|congruence]|]);
    set (a0 := {| risk_score := 0; factors_ := []; recommendations_ := [] |});
    (apply overall_valid;
     [pose proof (bp_analysis_grows
                    (fetch_blood_pressure_readings db patient_id days) a0);
      pose proof (medication_analysis_grows (fetch_medications db patient_id)
                    (bp_analysis
                       (fetch_blood_pressure_readings db patient_id days)
                       a0));
      pose proof (lifestyle_analysis_grows
                    (fetch_lifestyle_entries db patient_id days)
                    (medication_analysis (fetch_medications db patient_id)
                       (bp_analysis
                          (fetch_blood_pressure_readings db patient_id days)
                          a0)));
      match goal with
      | |- 0 <= risk_score (demographics_analysis ?g patient ?a) =>
          pose proof (demographics_analysis_grows g patient a)
      end;
      change (risk_score a0) with 0 in *; lia
     |apply demographics_analysis_factors, lifestyle_analysis_factors,
        medication_analysis_factors, bp_analysis_factors; reflexivity]).
Qed.

End RiskModel.

Section PredictionModel.

Import Predictions.
Open Scope Q_scope.

Lemma round_ge_Z x z : inject_Z z <= x -> (z <= Py.round x)%Z.
Proof.
  intros Hx. unfold Py.round. cbv zeta.
  assert (Hf : (z <= Qfloor x)%Z).
  { rewrite <- (Qfloor_Z z). now apply Qfloor_resp_le. }
  destruct (x - inject_Z (Qfloor x) ?= 1 # 2);
    [destruct (Z.even (Qfloor x))| |]; lia.
Qed.

Lemma round1_ge_Z x z : inject_Z z <= x -> inject_Z z <= Py.round1 x.
Proof.
  intros Hx. unfold Py.round1.
  assert (H : (z * 10 <= Py.round (x * 10))%Z).
  { apply round_ge_Z. rewrite inject_Z_mult. change (inject_Z 10) with 10.
    revert Hx. generalize (inject_Z z). intros q Hq. qlra. }
  rewrite Zle_Qle, inject_Z_mult in H.
  change (inject_Z 10) with 10 in H.
  apply Qle_shift_div_l; [reflexivity|]. exact H.
Qed.

(** [int(x)] of a float between two non-negative integers. *)
Lemma int_between a b x :
  (0 <= a)%Z -> inject_Z a <= x <= inject_Z b -> (a <= Py.int x <= b)%Z.
Proof.
  intros Ha [Hlo Hhi]. unfold Py.int.
  destruct x as [n d]. unfold Qle in Hlo, Hhi. cbn in *.
  rewrite Z.quot_div_nonneg by lia. split.
  - apply Z.div_le_lower_bound; lia.
  - apply Z.div_le_upper_bound; lia.
Qed.

Lemma clamp_between (lo hi : Z) x :
  (lo <= hi)%Z ->
  inject_Z lo <= Qmax (inject_Z lo) (Qmin (inject_Z hi) x) <= inject_Z hi.
Proof.
  intros H. rewrite Zle_Qle in H.
  destruct (Q.max_spec (inject_Z lo) (Qmin (inject_Z hi) x)) as [[H1 ->]|[H1 ->]];
    destruct (Q.min_spec (inject_Z hi) x) as [[H2 E]|[H2 E]];
    rewrite ?E in *; split; qlra.
Qed.

Lemma confidence_between v :
  (30 <= Py.int (Qmax 30 (Qmin 95 v)) <= 95)%Z.
Proof.
  apply int_between; [lia|]. apply (clamp_between 30 95). lia.
Qed.

Lemma trend_of_literal metric_key daily_change :
  Responses.literal ["improving"; "stable"; "worsening"]%string
    (trend_of metric_key daily_change) = true.
Proof. unfold trend_of. split_ifs; reflexivity. Qed.

Lemma reasonable_between metric_key x :
  In metric_key ["systolic"; "diastolic"; "pulse"]%string ->
  inject_Z (fst (plausible_range metric_key))
  <= Py.round1 (reasonable metric_key x)
  <= inject_Z (snd (plausible_range metric_key)).
Proof.
  intros [<-|[<-|[<-|[]]]]; cbn [plausible_range fst snd];
    unfold reasonable; cbn [String.eqb Ascii.eqb Bool.eqb];
    (split; [apply round1_ge_Z|apply round1_le_Z]).
  - apply (clamp_between 80 200); lia.
  - apply (clamp_between 80 200); lia.
  - apply (clamp_between 50 130); lia.
  - apply (clamp_between 50 130); lia.
  - apply (clamp_between 40 150); lia.
  - apply (clamp_between 40 150); lia.
Qed.

(** What holds of every prediction of one of the three metrics. *)
Lemma metric_prediction_model readings metric_key metric_name :
  readings <> [] ->
  In metric_key ["systolic"; "diastolic"; "pulse"]%string ->
  exists p,
    _calculate_metric_prediction readings metric_key metric_name 30 = Ok p
    /\ metric p = metric_name
    /\ inject_Z (fst (plausible_range metric_key)) <= predictedValue p
       <= inject_Z (snd (plausible_range metric_key))
    /\ Responses.valid_TrendPrediction p = true
    /\ (30 <= confidence p <= 95)%Z
    /\ timeframe p = [Py.FInt 30; Py.Lit " days"].
Proof.
  intros Hr Hk.
  pose proof (metric_prediction_fields readings metric_key metric_name 30 Hr)
    as E.
  cbv zeta in E. rewrite E. eexists. split; [reflexivity|].
  cbn [metric predictedValue confidence timeframe trend].
  assert (Hc : (30 <= (if (1 <? List.length (series metric_key readings))%nat
                       then
                         Py.int
                           (Qmax 30
                              (Qmin 95
                                 (r_squared (series metric_key readings) * 100
                                  * Qmin 1
                                      (Py.lenQ (series metric_key readings)
                                       / 30))))
                       else 30%Z) <= 95)%Z).
  { destruct (1 <? List.length (series metric_key readings))%nat;
      [apply confidence_between|lia]. }
  split; [reflexivity|]. split; [now apply reasonable_between|].
  split; [|split; [exact Hc|reflexivity]].
  unfold Responses.valid_TrendPrediction, Responses.ge_le.
  cbn [confidence trend]. rewrite trend_of_literal.
  apply andb_true_intro. split; [|reflexivity].
  apply andb_true_intro. split; apply Z.leb_le; lia.
Qed.

(** With the patient found and at least the minimum of readings (and one
    at least), [calculate_predictions] returns the prediction for the
    systolic pressure, then the one for the diastolic pressure, then, if
    and only if five readings or more have a pulse, the one for the heart
    rate.  Each passes the validation of the [TrendPrediction] model (the
    trend is one of the three literals, the confidence lies between 0 and
    100; in fact between 30 and 95), has the time frame "30 days", and its
    predicted value lies in the range of its metric: 80 to 200, 50 to 130
    and 40 to 150. *)
Theorem predictions_satisfy_response_model db settings patient_id days :
  fetch_patient db patient_id <> None ->
  let readings := fetch_blood_pressure_readings db patient_id days in
  let with_pulse := filter (fun r => Py.truthy_Z (pulse r)) readings in
  readings <> [] ->
  (min_readings_for_analysis settings <= Z.of_nat (List.length readings))%Z ->
  exists sys dia rest,
    calculate_predictions db settings patient_id days
    = Ok (sys :: dia :: rest)
    /\ metric sys = "Systolic BP"%string
    /\ 80 <= predictedValue sys <= 200
    /\ metric dia = "Diastolic BP"%string
    /\ 50 <= predictedValue dia <= 130
    /\ ((List.length with_pulse < 5)%nat -> rest = [])
    /\ ((5 <= List.length with_pulse)%nat ->
        exists hr,
          rest = [hr] /\ metric hr = "Heart Rate"%string
          /\ 40 <= predictedValue hr <= 150)
    /\ Forall (fun p =>
                 Responses.valid_TrendPrediction p = true
                 /\ (30 <= confidence p <= 95)%Z
                 /\ timeframe p = [Py.FInt 30; Py.Lit " days"])
         (sys :: dia :: rest).
Proof.
  intros Hp readings with_pulse Hr Hn.
  unfold calculate_predictions.
  destruct (fetch_patient db patient_id) as [patient|]; [|congruence].
  cbv zeta. fold readings. apply Z.ltb_ge in Hn. rewrite Hn.
  destruct (metric_prediction_model readings "systolic" "Systolic BP" Hr)
    as [sys [Es [Hms [Hvs [Hok_s [Hc_s Ht_s]]]]]]; [cbn; tauto|].
  destruct (metric_prediction_model readings "diastolic" "Diastolic BP" Hr)
    as [dia [Ed [Hmd [Hvd [Hok_d [Hc_d Ht_d]]]]]]; [cbn; tauto|].
  rewrite Es, Ed. unfold bind. fold with_pulse.
  change (80 <= predictedValue sys <= 200) in Hvs.
  change (50 <= predictedValue dia <= 130) in Hvd.
  destruct (5 <=? List.length with_pulse)%nat eqn:E5.
  - apply Nat.leb_le in E5.
    assert (Hwp : with_pulse <> [])
      by (intros E0; rewrite E0 in E5; cbn in E5; lia).
    destruct (metric_prediction_model with_pulse "pulse" "Heart Rate" Hwp)
      as [hr [Eh [Hmh [Hvh [Hok_h [Hc_h Ht_h]]]]]]; [cbn; tauto|].
    change (40 <= predictedValue hr <= 150) in Hvh.
    rewrite Eh. exists sys, dia, [hr]. split; [reflexivity|].
    split; [exact Hms|]. split; [exact Hvs|].
    split; [exact Hmd|]. split; [exact Hvd|].
    split; [intros; lia|]. split.
    + intros _. exists hr. split; [reflexivity|]. split; [exact Hmh|exact Hvh].
    + repeat (apply Forall_cons; [split; [assumption|split; assumption]|]).
      apply Forall_nil.
  - apply Nat.leb_gt in E5.
    exists sys, dia, []. split; [reflexivity|].
    split; [exact Hms|]. split; [exact Hvs|].
    split; [exact Hmd|]. split; [exact Hvd|].
    split; [reflexivity|]. split; [intros; lia|].
    repeat (apply Forall_cons; [split; [assumption|split; assumption]|]).
    apply Forall_nil.
Qed.

Lemma sumQ_nonneg l : Forall (fun v => 0 <= v) l -> 0 <= Py.sumQ l.
Proof.
  induction 1 as [|v l Hv _ IH]; cbn [Py.sumQ fold_right]; [discriminate|].
  fold (Py.sumQ l). qlra.
Qed.

Lemma square_nonneg (q : Q) : 0 <= q * q.
Proof.
  destruct (Qlt_le_dec q 0) as [Hn|Hp].
  - setoid_replace (q * q) with ((- q) * (- q)) using relation Qeq by ring.
    apply Qmult_le_0_compat; qlra.
  - now apply Qmult_le_0_compat.
Qed.

Lemma ss_res_nonneg y : 0 <= ss_res y.
Proof.
  unfold ss_res. apply sumQ_nonneg, Forall_forall. intros v Hv.
  apply in_map_iff in Hv. destruct Hv as [p [<- _]]. cbv zeta.
  apply square_nonneg.
Qed.

Lemma r_squared_le_1 y : r_squared y <= 1.
Proof.
  unfold r_squared. destruct (Py.gtQ (ss_tot y) 0) eqn:E; [|discriminate].
  unfold Py.gtQ in E. apply negb_true_iff in E.
  assert (Ht : 0 < ss_tot y).
  { apply Qnot_le_lt. intros H. apply Qle_bool_iff in H. congruence. }
  assert (Hq : 0 <= ss_res y / ss_tot y).
  { apply Qle_shift_div_l; [exact Ht|]. rewrite Qmult_0_l. apply ss_res_nonneg. }
  revert Hq. generalize (ss_res y / ss_tot y). intros q Hq. qlra.
Qed.

(** With nine readings or fewer (the configured minimum is seven), the
    confidence of a prediction is 30, however well the values fit a line:
    the factor [n / 30] keeps [r_squared * 100 * data_factor] at or below
    30, the lower bound of the clamp. *)
Theorem confidence_is_30_up_to_nine_readings readings metric_key metric_name
    timeframe_days :
  readings <> [] ->
  (List.length readings <= 9)%nat ->
  exists p,
    _calculate_metric_prediction readings metric_key metric_name timeframe_days
    = Ok p
    /\ confidence p = 30%Z.
Proof.
  intros Hr Hn.
  pose proof (metric_prediction_fields readings metric_key metric_name
                timeframe_days Hr) as E.
  cbv zeta in E. rewrite E. eexists. split; [reflexivity|].
  cbn [confidence].
  destruct (1 <? List.length (series metric_key readings))%nat;
    [|reflexivity].
  apply (int_of_Z _ 30).
  set (values := series metric_key readings).
  assert (Hlen : 0 <= Py.lenQ values <= 9).
  { unfold Py.lenQ, values. rewrite series_length.
    change 0 with (inject_Z 0). change 9 with (inject_Z 9).
    rewrite <- !Zle_Qle. lia. }
  assert (Hd : 0 <= Qmin 1 (Py.lenQ values / 30) <= 3 # 10).
  { assert (Hq : 0 <= Py.lenQ values / 30 <= 3 # 10).
    { split.
      - apply Qle_shift_div_l; [reflexivity|]. qlra.
      - apply Qle_shift_div_r; [reflexivity|]. qlra. }
    destruct (Q.min_spec 1 (Py.lenQ values / 30)) as [[H1 ->]|[H1 ->]]; qlra. }
  pose proof (r_squared_le_1 values) as Hr2.
  assert (Hprod : r_squared values * 100 * Qmin 1 (Py.lenQ values / 30) <= 30).
  { assert (H0 : 0 <= (1 - r_squared values)
                      * Qmin 1 (Py.lenQ values / 30)).
    { apply Qmult_le_0_compat; qlra. }
    setoid_replace ((1 - r_squared values) * Qmin 1 (Py.lenQ values / 30))
      with (Qmin 1 (Py.lenQ values / 30)
            - r_squared values * Qmin 1 (Py.lenQ values / 30))
      using relation Qeq in H0 by ring.
    setoid_replace (r_squared values * 100 * Qmin 1 (Py.lenQ values / 30))
      with (100 * (r_squared values * Qmin 1 (Py.lenQ values / 30)))
      using relation Qeq by ring.
    revert H0 Hd.
    generalize (r_squared values * Qmin 1 (Py.lenQ values / 30)).
    generalize (Qmin 1 (Py.lenQ values / 30)). intros d q H0 Hd. qlra. }
  revert Hprod.
  generalize (r_squared values * 100 * Qmin 1 (Py.lenQ values / 30)).
  intros v Hv.
  destruct (Q.min_spec 95 v) as [[H1 E1]|[H1 E1]];
    destruct (Q.max_spec 30 (Qmin 95 v)) as [[H2 E2]|[H2 E2]];
    rewrite E2; rewrite ?E1 in *; change (inject_Z 30) with 30; qlra.
Qed.

End PredictionModel.

Section HealthScoreModel.

Import HealthScore.
Open Scope Z_scope.

Lemma round_between lo hi x :
  (inject_Z lo <= x <= inject_Z hi)%Q -> lo <= Py.round x <= hi.
Proof.
  intros [Hlo Hhi]. split; [now apply round_ge_Z|now apply round_le_Z].
Qed.

Lemma meanZ_between lo hi l :
  l <> [] -> Forall (fun v => lo <= v <= hi) l ->
  (inject_Z lo <= Py.meanZ l <= inject_Z hi)%Q.
Proof.
  intros Hl Hall. unfold Py.meanZ.
  assert (Hsum : lo * Z.of_nat (List.length l) <= Py.sumZ l
                 <= hi * Z.of_nat (List.length l)).
  { clear Hl. induction Hall as [|v l Hv _ IH]; [cbn; lia|].
    cbn [Py.sumZ fold_right List.length]. fold (Py.sumZ l).
    rewrite Nat2Z.inj_succ. nia. }
  pose proof (lenQ_pos l Hl) as Hpos. unfold Py.lenQ in *.
  destruct Hsum as [H1 H2]. rewrite Zle_Qle, inject_Z_mult in H1, H2.
  split.
  - apply Qle_shift_div_l; [exact Hpos|exact H1].
  - apply Qle_shift_div_r; [exact Hpos|exact H2].
Qed.

Lemma bp_score_between readings : 0 <= _calculate_bp_score readings <= 100.
Proof. unfold _calculate_bp_score. destruct readings; lia. Qed.

Lemma medication_score_between medications :
  0 <= _calculate_medication_score medications <= 100.
Proof.
  unfold _calculate_medication_score.
  destruct medications; [lia|].
  destruct (filter is_active _); [lia|].
  destruct (present_rates _); lia.
Qed.

Lemma lifestyle_day_score_between entry :
  40 <= lifestyle_day_score entry <= 100.
Proof. unfold lifestyle_day_score. split_ifs; lia. Qed.

Lemma sleep_day_score_between entry : 50 <= sleep_day_score entry <= 100.
Proof. unfold sleep_day_score. split_ifs; lia. Qed.

Lemma averaged_score_between {A} (f : A -> Z) lo hi (l : list A) :
  lo <= 50 <= hi ->
  (forall a, lo <= f a <= hi) ->
  lo <= match l with
        | [] => 50
        | _ =>
            match map f (firstn 7 l) with
            | [] => 50
            | _ => Py.round (Py.meanZ (map f (firstn 7 l)))
            end
        end <= hi.
Proof.
  intros H50 Hf. destruct l as [|a l]; [lia|].
  destruct (map f (firstn 7 (a :: l))) eqn:E; [lia|]. rewrite <- E.
  apply round_between, meanZ_between.
  - rewrite E. discriminate.
  - apply Forall_forall. intros v Hv. apply in_map_iff in Hv.
    destruct Hv as [x [<- _]]. apply Hf.
Qed.

Lemma lifestyle_score_between lifestyle :
  40 <= _calculate_lifestyle_score lifestyle <= 100.
Proof.
  apply (averaged_score_between lifestyle_day_score 40 100); [lia|].
  apply lifestyle_day_score_between.
Qed.

Lemma sleep_score_between lifestyle :
  50 <= _calculate_sleep_score lifestyle <= 100.
Proof.
  apply (averaged_score_between sleep_day_score 50 100); [lia|].
  apply sleep_day_score_between.
Qed.

Lemma monitoring_score_between readings days s :
  _calculate_monitoring_score readings days = Ok s -> 0 <= s <= 100.
Proof.
  unfold _calculate_monitoring_score. destruct readings; [intros [= <-]; lia|].
  destruct (days =? 0); [discriminate|]. cbv zeta. intros [= <-]. lia.
Qed.

Lemma weights_positive name : (0 < weights name)%Q.
Proof. unfold weights. split_ifs; reflexivity. Qed.

Lemma category_valid name s :
  0 <= s <= 100 -> Responses.valid_HealthCategory (category name s) = true.
Proof.
  intros Hs. unfold Responses.valid_HealthCategory, Responses.ge_le, category.
  cbn [score status]. apply andb_true_intro. split.
  - apply andb_true_intro. split; apply Z.leb_le; lia.
  - unfold _score_to_status. split_ifs; reflexivity.
Qed.

(** The weighted average of scores between 0 and 100. *)
Lemma weighted_average_between (cs : list HealthCategory) :
  cs <> [] ->
  Forall (fun c => 0 <= score c <= 100) cs ->
  (0 <= Py.sumQ (map (fun c => inject_Z (score c) * weights (name c)) cs)
        / Py.sumQ (map (fun c => weights (name c)) cs) <= 100)%Q.
Proof.
  intros Hne Hall.
  assert (H : ((0 < Py.sumQ (map (fun c => weights (name c)) cs))%Q
               \/ cs = [])
              /\ (0 <= Py.sumQ
                         (map (fun c => inject_Z (score c) * weights (name c))
                            cs)
                  <= 100 * Py.sumQ (map (fun c => weights (name c)) cs))%Q).
  { clear Hne. induction Hall as [|c cs Hc _ [IHw IHs]].
    - split; [now right|]. cbn. split; discriminate.
    - cbn [map Py.sumQ fold_right].
      fold (Py.sumQ (map (fun c => weights (name c)) cs)).
      fold (Py.sumQ (map (fun c => inject_Z (score c) * weights (name c))%Q
                       cs)).
      pose proof (weights_positive (name c)) as Hw.
      assert (Hsw : (0 <= Py.sumQ (map (fun c => weights (name c)) cs))%Q).
      { destruct IHw as [IHw| ->]; [qlra|cbn; discriminate]. }
      assert (Hsc : (0 <= inject_Z (score c) <= 100)%Q).
      { change 0%Q with (inject_Z 0). change 100%Q with (inject_Z 100).
        rewrite <- !Zle_Qle. exact Hc. }
      assert (H1 : (0 <= inject_Z (score c) * weights (name c))%Q)
        by (apply Qmult_le_0_compat; qlra).
      assert (H2 : (0 <= (100 - inject_Z (score c)) * weights (name c))%Q)
        by (apply Qmult_le_0_compat; qlra).
      setoid_replace ((100 - inject_Z (score c)) * weights (name c))%Q
        with (100 * weights (name c)
              - inject_Z (score c) * weights (name c))%Q
        using relation Qeq in H2 by ring.
      revert H1 H2 IHs Hsw.
      generalize (inject_Z (score c) * weights (name c))%Q.
      generalize (Py.sumQ
                    (map (fun c => inject_Z (score c) * weights (name c))%Q
                       cs)).
      generalize (Py.sumQ (map (fun c => weights (name c)) cs)).
      generalize (weights (name c)) Hw. intros w Hw' sw ss p H1 H2 IHs Hsw.
      split; [left; qlra|split; qlra]. }
  destruct H as [[Hw|Hw] [Hs1 Hs2]]; [|congruence].
  split.
  - apply Qle_shift_div_l; [exact Hw|]. now rewrite Qmult_0_l.
  - apply Qle_shift_div_r; [exact Hw|exact Hs2].
Qed.

#[local] Opaque _calculate_bp_score _calculate_medication_score
  _calculate_lifestyle_score _calculate_sleep_score
  _calculate_monitoring_score weights.

(** Every health score that [calculate_health_score] returns passes the
    validation of the [HealthScore] model: the overall score and the score
    of every category lie between 0 and 100, and every status is one of
    the four literals, namely the one that [_score_to_status] gives to the
    score.  At most five improvement areas are returned.  The lifestyle
    score is never below 40, and the sleep score never below 50, so that
    the status of "Sleep & Recovery" is never "poor". *)
Theorem health_score_satisfies_response_model db settings patient_id days h :
  calculate_health_score db settings patient_id days = Ok h ->
  Responses.valid_HealthScore h = true
  /\ Forall (fun c => status c = _score_to_status (score c)) (categories h)
  /\ (List.length (improvementAreas h) <= 5)%nat
  /\ Forall (fun c => name c = "Lifestyle Factors"%string -> 40 <= score c)
       (categories h)
  /\ Forall (fun c =>
               name c = "Sleep & Recovery"%string ->
               50 <= score c /\ status c <> "poor"%string)
       (categories h).
Proof.
  unfold calculate_health_score.
  destruct (fetch_patient db patient_id) as [patient|]; [|discriminate].
  cbv zeta.
  destruct (_calculate_monitoring_score
              (fetch_blood_pressure_readings db patient_id days) days)
    as [mon|e] eqn:Emon; [|discriminate].
  unfold bind.
  pose proof (bp_score_between
                (fetch_blood_pressure_readings db patient_id days)) as Hbp.
  pose proof (medication_score_between (fetch_medications db patient_id))
    as Hmed.
  pose proof (lifestyle_score_between
                (fetch_lifestyle_entries db patient_id days)) as Hlife.
  pose proof (sleep_score_between
                (fetch_lifestyle_entries db patient_id days)) as Hsleep.
  pose proof (monitoring_score_between _ _ _ Emon) as Hmon.
  assert (Hstatus : forall s, 50 <= s -> _score_to_status s <> "poor"%string).
  { intros s Hs. unfold _score_to_status.
    destruct (85 <=? s); [discriminate|].
    destruct (70 <=? s); [discriminate|].
    destruct (50 <=? s) eqn:E; [discriminate|]. apply Z.leb_gt in E. lia. }
  set (bp := _calculate_bp_score _) in *.
  set (med := _calculate_medication_score _) in *.
  set (life := _calculate_lifestyle_score _) in *.
  set (sleep := _calculate_sleep_score _) in *.
  destruct (fetch_lifestyle_entries db patient_id days) as [|e t];
    intros H; injection H as <-;
    unfold Responses.valid_HealthScore;
    cbn [overall categories improvementAreas app forallb].
  - split.
    + rewrite !category_valid by lia. rewrite !andb_true_r.
      unfold Responses.ge_le. apply andb_true_intro.
      assert (Hw := weighted_average_between
                [category "Blood Pressure Control" bp;
                 category "Medication Adherence" med;
                 category "Lifestyle Factors" life;
                 category "Monitoring Consistency" mon]).
      apply round_between in Hw;
        [|discriminate|repeat constructor; cbn [category score]; lia].
      split; apply Z.leb_le; apply Hw.
    + split; [repeat constructor|]. split; [rewrite length_firstn; lia|].
      split.
      * repeat (apply Forall_cons;
                [cbn [category name score]; intros Hn;
                 try discriminate Hn; lia|]).
        apply Forall_nil.
      * repeat (apply Forall_cons;
                [cbn [category name score status]; intros Hn;
                 try discriminate Hn; (split; [lia|apply Hstatus; lia])|]).
        apply Forall_nil.
  - split.
    + rewrite !category_valid by lia. rewrite !andb_true_r.
      unfold Responses.ge_le. apply andb_true_intro.
      assert (Hw := weighted_average_between
                [category "Blood Pressure Control" bp;
                 category "Medication Adherence" med;
                 category "Lifestyle Factors" life;
                 category "Monitoring Consistency" mon;
                 category "Sleep & Recovery" sleep]).
      apply round_between in Hw;
        [|discriminate|repeat constructor; cbn [category score]; lia].
      split; apply Z.leb_le; apply Hw.
    + split; [repeat constructor|]. split; [rewrite length_firstn; lia|].
      split.
      * repeat (apply Forall_cons;
                [cbn [category name score]; intros Hn;
                 try discriminate Hn; lia|]).
        apply Forall_nil.
      * repeat (apply Forall_cons;
                [cbn [category name score status]; intros Hn;
                 try discriminate Hn; (split; [lia|apply Hstatus; lia])|]).
        apply Forall_nil.
Qed.

#[local] Transparent _calculate_monitoring_score.

(** With the patient found, [calculate_health_score] fails exactly when
    the window is of zero days and there is a reading: the monitoring score
    divides the number of readings by the number of days, and the
    [ZeroDivisionError] is raised.  In every other case a score is
    returned. *)
Theorem health_score_fails_on_zero_days db settings patient_id days :
  fetch_patient db patient_id <> None ->
  let readings := fetch_blood_pressure_readings db patient_id days in
  (days = 0 /\ readings <> [] ->
   calculate_health_score db settings patient_id days
   = Raise ZeroDivisionError)
  /\ (days <> 0 \/ readings = [] ->
      exists h, calculate_health_score db settings patient_id days = Ok h).
Proof.
  intros Hp readings. unfold calculate_health_score.
  destruct (fetch_patient db patient_id) as [patient|]; [|congruence].
  cbv zeta. fold readings. unfold _calculate_monitoring_score.
  split.
  - intros [-> Hr]. destruct readings; [congruence|]. reflexivity.
  - intros Hd. destruct readings as [|r t].
    + unfold bind.
      destruct (fetch_lifestyle_entries db patient_id days); eauto.
    + destruct Hd as [Hd|Hd]; [|discriminate].
      apply Z.eqb_neq in Hd. rewrite Hd. cbv zeta. unfold bind.
      destruct (fetch_lifestyle_entries db patient_id days); eauto.
Qed.

End HealthScoreModel.

Section ForecastModel.

Import Forecast.
Open Scope Z_scope.

Lemma sort_le_Z (l : list Z) : Py.sort_le Z.leb l = Py.sort_by (fun x => x) l.
Proof. reflexivity. Qed.

(** A duplicate-free list in ascending order is in strictly ascending
    order. *)
Lemma strictly_ascending (l : list Z) :
  Sorted (le_by (fun x => x)) l -> NoDup l -> StronglySorted Z.lt l.
Proof.
  intros Hs Hd. apply sorted_strongly in Hs.
  induction Hs as [|a l Hl IH Ha]; [constructor|].
  inversion Hd as [|? ? Hnotin Hd']; subst.
  constructor; [now apply IH|].
  rewrite Forall_forall in *. intros x Hx.
  specialize (Ha x Hx). unfold le_by in Ha.
  assert (x <> a) by (intros ->; contradiction). lia.
Qed.

Lemma days_with_values_ascending readings metric :
  StronglySorted Z.lt (days_with_values readings metric).
Proof.
  unfold days_with_values. rewrite sort_le_Z.
  apply strictly_ascending; [apply sort_by_sorted|].
  eapply Permutation_NoDup;
    [apply Permutation_sym, sort_by_perm|apply NoDup_nodup].
Qed.

Lemma historical_dates readings metric :
  map date (_build_historical_data readings metric)
  = days_with_values readings metric.
Proof.
  unfold _build_historical_data. rewrite map_map. cbn [date]. apply map_id.
Qed.

(** The forecast points follow the last historical date, day by day. *)
Lemma generate_points_dates historical forecast_days metric :
  historical <> [] ->
  exists points,
    _generate_forecast_points historical forecast_days metric = Ok points
    /\ map fdate points
       = map (fun i => List.last (map date historical) 0 + i)
           (days_ahead forecast_days)
    /\ List.length points = Z.to_nat forecast_days.
Proof.
  intros Hne. unfold _generate_forecast_points. cbv zeta.
  destruct (exists_last Hne) as [front [lst ->]].
  rewrite rev_app_distr. cbn [rev app].
  eexists. split; [reflexivity|]. split.
  - assert (El : List.last (map date (front ++ [lst])) 0 = date lst).
    { rewrite map_app. cbn [map]. apply last_last. }
    rewrite El, map_map.
    apply map_ext. intros i. now rewrite forecast_point_fields.
  - rewrite length_map. unfold days_ahead. now rewrite length_map, length_seq.
Qed.

(** With the patient found, at least the minimum of readings, and values
    of the metric on seven different days or more, [generate_forecast]
    returns a forecast: under the display name of the metric (an unknown
    metric is treated as the systolic pressure); with one historical point
    per day that has a value, in strictly ascending order of the dates;
    and with [forecast_days] forecast points, dated day by day from the
    day after the last historical one. *)
Theorem forecast_structure db settings patient_id metric forecast_days
    history_days :
  fetch_patient db patient_id <> None ->
  let readings := fetch_blood_pressure_readings db patient_id history_days in
  let days := days_with_values readings (effective_metric metric) in
  min_readings_for_analysis settings <= Z.of_nat (List.length readings) ->
  (7 <= List.length days)%nat ->
  exists f,
    generate_forecast db settings patient_id metric forecast_days history_days
    = Ok f
    /\ Forecast.metric f = display_name (effective_metric metric)
    /\ map date (historical f) = days
    /\ StronglySorted Z.lt days
    /\ map fdate (forecast f)
       = map (fun i => List.last days 0 + i) (days_ahead forecast_days)
    /\ List.length (forecast f) = Z.to_nat forecast_days.
Proof.
  intros Hp readings days Hn H7. unfold generate_forecast.
  fold (effective_metric metric). cbv zeta.
  destruct (fetch_patient db patient_id) as [patient|]; [|congruence].
  fold readings. apply Z.ltb_ge in Hn. rewrite Hn.
  pose proof (historical_dates readings (effective_metric metric)) as Hd.
  fold days in Hd.
  assert (Hlen : List.length
                   (_build_historical_data readings (effective_metric metric))
                 = List.length days).
  { rewrite <- Hd. now rewrite length_map. }
  rewrite Hlen.
  assert (E7 : (List.length days <? 7)%nat = false) by (apply Nat.ltb_ge; lia).
  rewrite E7.
  assert (Hne : _build_historical_data readings (effective_metric metric)
                <> []).
  { intros E0. rewrite E0 in Hlen. cbn in Hlen. lia. }
  destruct (generate_points_dates _ forecast_days (effective_metric metric)
              Hne) as [points [Ep [Hdates Hcount]]].
  rewrite Ep. unfold bind. eexists. split; [reflexivity|].
  cbn [Forecast.metric historical forecast].
  split.
  { unfold display_name, effective_metric.
    destruct (String.eqb metric "systolic") eqn:E1;
      [apply String.eqb_eq in E1; subst; reflexivity|].
    destruct (String.eqb metric "diastolic") eqn:E2;
      [apply String.eqb_eq in E2; subst; reflexivity|].
    destruct (String.eqb metric "pulse") eqn:E3;
      [apply String.eqb_eq in E3; subst; reflexivity|].
    reflexivity. }
  split; [exact Hd|].
  split; [apply days_with_values_ascending|].
  split; [now rewrite Hdates, Hd|exact Hcount].
Qed.

End ForecastModel.

(** The theorem at the patient whose readings are all critical. *)
Lemma urgent_insights_are_kept_witness :
  fetch_patient crisis_db "test-patient-id" <> None
  /\ (min_readings_for_analysis default_settings
      <= Z.of_nat
           (List.length
              (fetch_blood_pressure_readings crisis_db "test-patient-id" 30)))%Z
  /\ Exists (fun r => Insights.is_critical r = true)
       (firstn 14 (fetch_blood_pressure_readings crisis_db "test-patient-id" 30))
  /\ exists l i,
       Insights.generate_insights crisis_db default_settings "now"
         "test-patient-id" 30 = Ok l
       /\ In i l
       /\ Insights.title i = "Critical Reading Detected"%string.
Proof.
  assert (Hp : fetch_patient crisis_db "test-patient-id" <> None)
    by discriminate.
  assert (Hn : (min_readings_for_analysis default_settings
                <= Z.of_nat
                     (List.length
                        (fetch_blood_pressure_readings crisis_db
                           "test-patient-id" 30)))%Z)
    by (vm_compute; discriminate).
  assert (Hex : Exists (fun r => Insights.is_critical r = true)
                  (firstn 14
                     (fetch_blood_pressure_readings crisis_db
                        "test-patient-id" 30)))
    by (apply Exists_cons_hd; reflexivity).
  split; [exact Hp|]. split; [exact Hn|]. split; [exact Hex|].
  destruct (urgent_insights_are_kept crisis_db default_settings "now"
              "test-patient-id" 30 Hp Hn) as [l [El [_ Hc]]].
  destruct (Hc Hex) as [i [Hi [Ht _]]].
  exists l, i. split; [exact El|]. split; [exact Hi|exact Ht].
Defined.

(** The theorem at the improving patient of the test suite: three
    predictions, the third for the heart rate. *)
Lemma predictions_satisfy_response_model_witness :
  fetch_patient improving_db "test-patient-id" <> None
  /\ fetch_blood_pressure_readings improving_db "test-patient-id" 30 <> []
  /\ (min_readings_for_analysis default_settings
      <= Z.of_nat
           (List.length
              (fetch_blood_pressure_readings improving_db "test-patient-id"
                 30)))%Z
  /\ exists sys dia rest,
       Predictions.calculate_predictions improving_db default_settings
         "test-patient-id" 30 = Ok (sys :: dia :: rest)
       /\ List.length rest = 1%nat
       /\ Forall (fun p => Responses.valid_TrendPrediction p = true)
            (sys :: dia :: rest).
Proof.
  assert (Hp : fetch_patient improving_db "test-patient-id" <> None)
    by discriminate.
  assert (Hr : fetch_blood_pressure_readings improving_db "test-patient-id" 30
               <> []) by discriminate.
  assert (Hn : (min_readings_for_analysis default_settings
                <= Z.of_nat
                     (List.length
                        (fetch_blood_pressure_readings improving_db
                           "test-patient-id" 30)))%Z)
    by (vm_compute; discriminate).
  split; [exact Hp|]. split; [exact Hr|]. split; [exact Hn|].
  destruct (predictions_satisfy_response_model improving_db default_settings
              "test-patient-id" 30 Hp Hr Hn)
    as [sys [dia [rest [E [_ [_ [_ [_ [_ [H5 Hall]]]]]]]]]].
  exists sys, dia, rest. split; [exact E|]. split.
  - destruct H5 as [hr [-> _]]; [vm_compute; lia|reflexivity].
  - eapply Forall_impl; [|exact Hall]. intros p [Hv _]. exact Hv.
Defined.

(** The theorem at seven steady readings. *)
Lemma confidence_is_30_up_to_nine_readings_witness :
  steady_readings <> []
  /\ (List.length steady_readings <= 9)%nat
  /\ exists p,
       Predictions._calculate_metric_prediction steady_readings "systolic"
         "Systolic BP" 30 = Ok p
       /\ Predictions.confidence p = 30%Z.
Proof.
  assert (Hr : steady_readings <> []) by discriminate.
  assert (Hn : (List.length steady_readings <= 9)%nat) by (vm_compute; lia).
  split; [exact Hr|]. split; [exact Hn|].
  exact (confidence_is_30_up_to_nine_readings steady_readings "systolic"
           "Systolic BP" 30 Hr Hn).
Defined.

(** The theorem at the patient without data: four categories, the overall
    score between 0 and 100. *)
Lemma health_score_satisfies_response_model_witness :
  exists h,
    HealthScore.calculate_health_score no_data_db default_settings
      "test-patient-id" 30 = Ok h
    /\ Responses.valid_HealthScore h = true
    /\ (List.length (HealthScore.improvementAreas h) <= 5)%nat.
Proof.
  destruct (HealthScore.calculate_health_score no_data_db default_settings
              "test-patient-id" 30) as [h|e] eqn:E; [|discriminate E].
  exists h. split; [reflexivity|].
  destruct (health_score_satisfies_response_model no_data_db default_settings
              "test-patient-id" 30 h E) as [Hv [_ [Hl _]]].
  split; [exact Hv|exact Hl].
Defined.

(** The theorem at three readings and a window of zero days. *)
Lemma health_score_fails_on_zero_days_witness :
  fetch_patient three_readings_db "test-patient-id" <> None
  /\ fetch_blood_pressure_readings three_readings_db "test-patient-id" 0 <> []
  /\ HealthScore.calculate_health_score three_readings_db default_settings
       "test-patient-id" 0 = Raise ZeroDivisionError
  /\ exists h,
       HealthScore.calculate_health_score three_readings_db default_settings
         "test-patient-id" 30 = Ok h.
Proof.
  assert (Hp : fetch_patient three_readings_db "test-patient-id" <> None)
    by discriminate.
  assert (Hr : fetch_blood_pressure_readings three_readings_db
                 "test-patient-id" 0 <> []) by discriminate.
  split; [exact Hp|]. split; [exact Hr|]. split.
  - apply (proj1 (health_score_fails_on_zero_days three_readings_db
                    default_settings "test-patient-id" 0 Hp)).
    split; [reflexivity|exact Hr].
  - apply (proj2 (health_score_fails_on_zero_days three_readings_db
                    default_settings "test-patient-id" 30 Hp)).
    left. discriminate.
Defined.

(** The theorem at the improving patient of the test suite: thirty days of
    history, thirty forecast points. *)
Lemma forecast_structure_witness :
  fetch_patient improving_db "test-patient-id" <> None
  /\ (min_readings_for_analysis default_settings
      <= Z.of_nat
           (List.length
              (fetch_blood_pressure_readings improving_db "test-patient-id"
                 60)))%Z
  /\ (7 <= List.length
             (Forecast.days_with_values
                (fetch_blood_pressure_readings improving_db "test-patient-id"
                   60)
                (effective_metric "systolic")))%nat
  /\ exists f,
       Forecast.generate_forecast improving_db default_settings
         "test-patient-id" "systolic" 30 60 = Ok f
       /\ Forecast.metric f = "Systolic BP"%string
       /\ List.length (Forecast.forecast f) = 30%nat.
Proof.
  assert (Hp : fetch_patient improving_db "test-patient-id" <> None)
    by discriminate.
  assert (Hn : (min_readings_for_analysis default_settings
                <= Z.of_nat
                     (List.length
                        (fetch_blood_pressure_readings improving_db
                           "test-patient-id" 60)))%Z)
    by (vm_compute; discriminate).
  assert (H7 : (7 <= List.length
                       (Forecast.days_with_values
                          (fetch_blood_pressure_readings improving_db
                             "test-patient-id" 60)
                          (effective_metric "systolic")))%nat)
    by (vm_compute; lia).
  split; [exact Hp|]. split; [exact Hn|]. split; [exact H7|].
  destruct (forecast_structure improving_db default_settings
              "test-patient-id" "systolic" 30 60 Hp Hn H7)
    as [f [E [Hm [_ [_ [_ Hl]]]]]].
  exists f. split; [exact E|]. split; [exact Hm|exact Hl].
Defined.

(** ** The cache key *)

Section StringOrder.

Lemma ascii_compare_eq a b : Ascii.compare a b = Eq -> a = b.
Proof.
  unfold Ascii.compare. intros H. apply N.compare_eq in H.
  rewrite <- (ascii_N_embedding a), <- (ascii_N_embedding b). now rewrite H.
Qed.

Lemma ascii_compare_refl a : Ascii.compare a a = Eq.
Proof. unfold Ascii.compare. apply N.compare_refl. Qed.

Lemma ascii_compare_lt_trans a b c :
  Ascii.compare a b = Lt -> Ascii.compare b c = Lt -> Ascii.compare a c = Lt.
Proof.
  unfold Ascii.compare. rewrite !N.compare_lt_iff. lia.
Qed.

Lemma string_compare_lt_trans s1 :
  forall s2 s3,
    String.compare s1 s2 = Lt -> String.compare s2 s3 = Lt ->
    String.compare s1 s3 = Lt.
Proof.
  induction s1 as [|a s1 IH]; intros [|b s2] [|c s3]; cbn;
    try discriminate; try reflexivity.
  destruct (Ascii.compare a b) eqn:Eab; try discriminate;
    destruct (Ascii.compare b c) eqn:Ebc; try discriminate; intros H1 H2.
  - apply ascii_compare_eq in Eab, Ebc. subst.
    rewrite ascii_compare_refl. now apply (IH s2).
  - apply ascii_compare_eq in Eab. subst. now rewrite Ebc.
  - apply ascii_compare_eq in Ebc. subst. now rewrite Eab.
  - now rewrite (ascii_compare_lt_trans _ _ _ Eab Ebc).
Qed.

Lemma string_compare_refl s : String.compare s s = Eq.
Proof.
  induction s as [|a s IH]; [reflexivity|].
  cbn. now rewrite ascii_compare_refl.
Qed.

Lemma string_leb_trans s1 s2 s3 :
  String.leb s1 s2 = true -> String.leb s2 s3 = true ->
  String.leb s1 s3 = true.
Proof.
  unfold String.leb.
  destruct (String.compare s1 s2) eqn:E12; try discriminate;
    destruct (String.compare s2 s3) eqn:E23; try discriminate; intros _ _.
  - apply String.compare_eq_iff in E12, E23. subst.
    now rewrite string_compare_refl.
  - apply String.compare_eq_iff in E12. subst. now rewrite E23.
  - apply String.compare_eq_iff in E23. subst. now rewrite E12.
  - now rewrite (string_compare_lt_trans _ _ _ E12 E23).
Qed.

End StringOrder.

Section StableSortFacts.

Context {A : Type} (le : A -> A -> bool).
Hypothesis le_total : forall a b, le a b = true \/ le b a = true.
Hypothesis le_trans :
  forall a b c, le a b = true -> le b c = true -> le a c = true.

Lemma insert_le_permutation (x : A) l :
  Permutation (Py.insert_le le x l) (x :: l).
Proof.
  induction l as [|y l IH]; [reflexivity|].
  cbn [Py.insert_le]. destruct (le x y); [reflexivity|].
  rewrite IH. apply perm_swap.
Qed.

Lemma sort_le_permutation (l : list A) : Permutation (Py.sort_le le l) l.
Proof.
  induction l as [|x l IH]; [reflexivity|].
  cbn [Py.sort_le fold_right]. fold (Py.sort_le le l).
  rewrite insert_le_permutation. now constructor.
Qed.

Lemma insert_le_strongly_sorted (x : A) l :
  StronglySorted (fun a b => le a b = true) l ->
  StronglySorted (fun a b => le a b = true) (Py.insert_le le x l).
Proof.
  induction 1 as [|y l Hl IH Hy]; [repeat constructor|].
  cbn [Py.insert_le]. destruct (le x y) eqn:E.
  - constructor; [now constructor|]. constructor; [exact E|].
    eapply Forall_impl; [|exact Hy]. intros b Hb. eapply le_trans; eauto.
  - constructor; [exact IH|].
    assert (Hyx : le y x = true) by (destruct (le_total x y); congruence).
    apply Forall_forall. intros b Hb.
    apply (Permutation_in _ (insert_le_permutation x l)) in Hb.
    destruct Hb as [<-|Hb]; [exact Hyx|].
    rewrite Forall_forall in Hy. now apply Hy.
Qed.

Lemma sort_le_strongly_sorted (l : list A) :
  StronglySorted (fun a b => le a b = true) (Py.sort_le le l).
Proof.
  induction l as [|x l IH]; [constructor|].
  cbn [Py.sort_le fold_right]. fold (Py.sort_le le l).
  now apply insert_le_strongly_sorted.
Qed.

(** Two sorted lists with the same items, no two of which are equivalent
    for the order, are the same list. *)
Lemma sorted_permutation_unique (l1 l2 : list A) :
  (forall a b, In a l1 -> In b l1 -> le a b = true -> le b a = true -> a = b) ->
  StronglySorted (fun a b => le a b = true) l1 ->
  StronglySorted (fun a b => le a b = true) l2 ->
  Permutation l1 l2 -> l1 = l2.
Proof.
  revert l2. induction l1 as [|a l1 IH]; intros l2 Hanti H1 H2 Hp.
  - apply Permutation_nil in Hp. now subst.
  - destruct l2 as [|b l2];
      [apply Permutation_sym, Permutation_nil in Hp; discriminate|].
    inversion H1 as [|? ? H1' Ha]; subst.
    inversion H2 as [|? ? H2' Hb]; subst.
    rewrite Forall_forall in Ha, Hb.
    assert (Eab : a = b).
    { assert (Hb1 : In b (a :: l1))
        by (apply (Permutation_in _ (Permutation_sym Hp)); now left).
      assert (Ha2 : In a (b :: l2))
        by (apply (Permutation_in _ Hp); now left).
      destruct Hb1 as [E|Hb1]; [exact E|].
      destruct Ha2 as [E|Ha2]; [now symmetry|].
      apply Hanti; [now left|now right|now apply Ha|now apply Hb]. }
    subst b. f_equal. apply IH; try assumption.
    + intros x y Hx Hy. apply Hanti; now right.
    + now apply Permutation_cons_inv in Hp.
Qed.

End StableSortFacts.

Section DictFacts.

Import Json.

Lemma dict_get_set k v k' d :
  dict_get k' (dict_set k v d)
  = if String.eqb k' k then Some v else dict_get k' d.
Proof.
  induction d as [|[k0 v0] d IH]; cbn [dict_set dict_get fst snd].
  - destruct (String.eqb k' k); reflexivity.
  - destruct (String.eqb k k0) eqn:E; cbn [dict_get].
    + apply String.eqb_eq in E. subst k0.
      destruct (String.eqb k' k); reflexivity.
    + rewrite IH. destruct (String.eqb k' k0) eqn:E0;
        [|reflexivity].
      apply String.eqb_eq in E0. subst k0.
      destruct (String.eqb k' k) eqn:E1; [|reflexivity].
      apply String.eqb_eq in E1. subst k'.
      rewrite String.eqb_refl in E. discriminate.
Qed.

Lemma dict_set_keys k v d :
  forall k', In k' (map fst (dict_set k v d)) <-> k' = k \/ In k' (map fst d).
Proof.
  induction d as [|[k0 v0] d IH]; intros k'; cbn [dict_set map fst In].
  - intuition congruence.
  - destruct (String.eqb k k0) eqn:E; cbn [map fst In].
    + apply String.eqb_eq in E. subst k0. intuition congruence.
    + rewrite IH. intuition congruence.
Qed.

Lemma dict_set_nodup k v d :
  NoDup (map fst d) -> NoDup (map fst (dict_set k v d)).
Proof.
  induction d as [|[k0 v0] d IH]; cbn [dict_set map fst]; intros Hd.
  - repeat constructor. intros [].
  - inversion Hd as [|? ? Hnotin Hd']; subst.
    destruct (String.eqb k k0) eqn:E; cbn [map fst].
    + apply String.eqb_eq in E. subst k0. now constructor.
    + constructor; [|now apply IH].
      rewrite dict_set_keys. intros [->|Hin]; [|contradiction].
      rewrite String.eqb_refl in E. discriminate.
Qed.

Lemma dict_get_none k d : dict_get k d = None <-> ~ In k (map fst d).
Proof.
  induction d as [|[k0 v0] d IH]; cbn [dict_get map fst In]; [tauto|].
  destruct (String.eqb k k0) eqn:E.
  - apply String.eqb_eq in E. subst. split; [discriminate|tauto].
  - apply String.eqb_neq in E. rewrite IH. intuition congruence.
Qed.

Lemma dict_get_in k v d :
  NoDup (map fst d) -> (dict_get k d = Some v <-> In (k, v) d).
Proof.
  induction d as [|[k0 v0] d IH]; cbn [dict_get map fst In]; intros Hd.
  - split; [discriminate|tauto].
  - inversion Hd as [|? ? Hnotin Hd']; subst.
    destruct (String.eqb k k0) eqn:E.
    + apply String.eqb_eq in E. subst k0. split.
      * intros [= ->]. now left.
      * intros [[= ->]|Hin]; [reflexivity|].
        exfalso. apply Hnotin. apply in_map_iff. now exists (k, v).
    + apply String.eqb_neq in E. rewrite (IH Hd'). split; [tauto|].
      intros [[= -> ->]|Hin]; [congruence|exact Hin].
Qed.

Lemma dict_update_nodup d kw :
  NoDup (map fst d) -> NoDup (map fst (dict_update d kw)).
Proof.
  unfold dict_update. revert d.
  induction kw as [|[k v] kw IH]; intros d Hd; [exact Hd|].
  cbn [fold_left fst snd]. apply IH. now apply dict_set_nodup.
Qed.

(** [{**d, **kw}] read at a key: the keyword wins. *)
Lemma dict_get_update k d kw :
  NoDup (map fst kw) ->
  dict_get k (dict_update d kw)
  = match dict_get k kw with
    | Some v => Some v
    | None => dict_get k d
    end.
Proof.
  unfold dict_update. revert d.
  induction kw as [|[k0 v0] kw IH]; intros d Hkw; [reflexivity|].
  inversion Hkw as [|? ? Hnotin Hkw']; subst.
  cbn [fold_left fst snd dict_get]. rewrite (IH _ Hkw'), dict_get_set.
  destruct (String.eqb k k0) eqn:E; [|reflexivity].
  apply String.eqb_eq in E. subst k0.
  apply dict_get_none in Hnotin. now rewrite Hnotin.
Qed.

Lemma dict_get_permutation k kw1 kw2 :
  NoDup (map fst kw1) -> Permutation kw1 kw2 ->
  dict_get k kw1 = dict_get k kw2.
Proof.
  intros Hd Hp.
  assert (Hd2 : NoDup (map fst kw2))
    by (eapply Permutation_NoDup; [apply Permutation_map, Hp|exact Hd]).
  destruct (dict_get k kw1) as [v|] eqn:E1.
  - symmetry. apply (dict_get_in _ _ _ Hd2).
    apply (Permutation_in _ Hp). now apply (dict_get_in _ _ _ Hd).
  - symmetry. apply dict_get_none. apply dict_get_none in E1.
    intros Hin. apply E1.
    apply (Permutation_in _ (Permutation_sym (Permutation_map fst Hp))), Hin.
Qed.

Lemma nodup_keys_nodup (d : dict) : NoDup (map fst d) -> NoDup d.
Proof.
  induction d as [|[k v] d IH]; intros Hd; [constructor|].
  inversion Hd as [|? ? Hnotin Hd']; subst.
  constructor; [|now apply IH].
  intros Hin. apply Hnotin. apply in_map_iff. now exists (k, v).
Qed.

(** [json.dumps(sort_keys=True)] of two dictionaries with the same
    content. *)
Lemma dumps_sorted_same d1 d2 :
  NoDup (map fst d1) -> NoDup (map fst d2) ->
  (forall k, dict_get k d1 = dict_get k d2) ->
  dumps_sorted d1 = dumps_sorted d2.
Proof.
  intros H1 H2 Hget. unfold dumps_sorted.
  change (fun a b : string * jval => String.leb (fst a) (fst b)) with key_leb.
  assert (Hperm : Permutation d1 d2).
  { apply NoDup_Permutation; try now apply nodup_keys_nodup.
    intros [k v]. rewrite <- (dict_get_in _ _ _ H1), <- (dict_get_in _ _ _ H2).
    now rewrite Hget. }
  assert (Htotal : forall a b, key_leb a b = true \/ key_leb b a = true)
    by (intros a b; apply String.leb_total).
  assert (Htrans : forall a b c,
            key_leb a b = true -> key_leb b c = true -> key_leb a c = true)
    by (intros a b c; apply string_leb_trans).
  assert (E : Py.sort_le key_leb d1 = Py.sort_le key_leb d2).
  { apply (sorted_permutation_unique key_leb).
    - intros a b Ha Hb Hab Hba.
      apply (Permutation_in _ (sort_le_permutation key_leb d1)) in Ha, Hb.
      destruct a as [ka va], b as [kb vb]. unfold key_leb in *. cbn in *.
      assert (ka = kb) by now apply String.leb_antisym. subst kb.
      apply (dict_get_in _ _ _ H1) in Ha, Hb. congruence.
    - now apply sort_le_strongly_sorted.
    - now apply sort_le_strongly_sorted.
    - rewrite !sort_le_permutation. exact Hperm. }
  now rewrite E.
Qed.

End DictFacts.

Section KeyFacts.

(** The cache key does not depend on the order in which the keywords are
    passed: [json.dumps(..., sort_keys=True)] serialises the same
    dictionary.  (Keywords are distinct, as in any call.) *)
Theorem make_key_ignores_keyword_order patient_id analysis_type
    (kwargs1 kwargs2 : Json.dict) :
  NoDup (map fst kwargs1) ->
  Permutation kwargs1 kwargs2 ->
  AnalysisCache._make_key patient_id analysis_type kwargs1
  = AnalysisCache._make_key patient_id analysis_type kwargs2.
Proof.
  intros Hd Hp. unfold AnalysisCache._make_key. cbv zeta. f_equal.
  assert (Hd2 : NoDup (map fst kwargs2))
    by (eapply Permutation_NoDup; [apply Permutation_map, Hp|exact Hd]).
  assert (Hbase : NoDup
                    (map fst
                       [("patient_id"%string, Json.JStr patient_id);
                        ("type"%string, Json.JStr analysis_type)])).
  { repeat constructor; cbn; intuition discriminate. }
  apply dumps_sorted_same; try (now apply dict_update_nodup).
  intros k. rewrite !dict_get_update by assumption.
  now rewrite (dict_get_permutation k kwargs1 kwargs2).
Qed.

Lemma le_bytes_length n x : List.length (MD5.le_bytes n x) = n.
Proof. unfold MD5.le_bytes. now rewrite length_map, length_seq. Qed.

Lemma digest_length msg : List.length (MD5.digest msg) = 16%nat.
Proof.
  unfold MD5.digest. cbv zeta. now rewrite !length_app, !le_bytes_length.
Qed.

Lemma hex_length bs : String.length (MD5.hex bs) = (2 * List.length bs)%nat.
Proof.
  induction bs as [|b bs IH]; [reflexivity|].
  cbn [MD5.hex String.length List.length]. rewrite IH. lia.
Qed.

(** Every cache key is a string of 32 lower-case hexadecimal digits,
    whatever the patient id, the analysis type and the keywords. *)
Theorem make_key_is_a_digest patient_id analysis_type (kwargs : Json.dict) :
  String.length (AnalysisCache._make_key patient_id analysis_type kwargs)
  = 32%nat
  /\ all_hex (AnalysisCache._make_key patient_id analysis_type kwargs) = true.
Proof.
  unfold AnalysisCache._make_key. cbv zeta. split.
  - unfold MD5.hexdigest. now rewrite hex_length, digest_length.
  - apply hexdigest_all_hex.
Qed.

End KeyFacts.

(** The theorem at the keywords of the forecast endpoint, in both
    orders. *)
Lemma make_key_ignores_keyword_order_witness :
  NoDup (map fst [("metric"%string, Json.JStr "systolic");
                  ("days"%string, Json.JInt 30)])
  /\ Permutation
       [("metric"%string, Json.JStr "systolic"); ("days"%string, Json.JInt 30)]
       [("days"%string, Json.JInt 30); ("metric"%string, Json.JStr "systolic")]
  /\ AnalysisCache._make_key "test-patient-id" "forecast"
       [("metric"%string, Json.JStr "systolic"); ("days"%string, Json.JInt 30)]
     = AnalysisCache._make_key "test-patient-id" "forecast"
         [("days"%string, Json.JInt 30);
          ("metric"%string, Json.JStr "systolic")].
Proof.
  assert (Hd : NoDup (map fst [("metric"%string, Json.JStr "systolic");
                               ("days"%string, Json.JInt 30)])).
  { repeat constructor; cbn; intuition discriminate. }
  assert (Hp : Permutation
                 [("metric"%string, Json.JStr "systolic");
                  ("days"%string, Json.JInt 30)]
                 [("days"%string, Json.JInt 30);
                  ("metric"%string, Json.JStr "systolic")])
    by apply perm_swap.
  split; [exact Hd|]. split; [exact Hp|].
  exact (make_key_ignores_keyword_order "test-patient-id" "forecast" _ _ Hd Hp).
Defined.

Section CacheOperations.

Context {V : Type}.

Lemma str_in_empty s : Py.str_in "" s = true.
Proof. destruct s; reflexivity. Qed.

(** What [get] finds after [invalidate]: nothing under a key that contains
    the patient id, and under any other key what was there before; so that
    [invalidate] never adds or alters an entry, a second [invalidate] for
    the same id changes nothing, and [invalidate] with the empty string,
    which every key contains, empties the cache as [clear] does. *)
Theorem invalidate_removes_matching_keys (c : option (gmap string V))
    (id patient_id analysis_type : string) (kwargs : Json.dict) :
  AnalysisCache.get (AnalysisCache.invalidate c id) patient_id analysis_type
    kwargs
  = (if Py.str_in id
          (AnalysisCache._make_key patient_id analysis_type kwargs)
     then None
     else AnalysisCache.get c patient_id analysis_type kwargs)
  /\ AnalysisCache.invalidate (AnalysisCache.invalidate c id) id
     = AnalysisCache.invalidate c id
  /\ AnalysisCache.invalidate c "" = AnalysisCache.clear c.
Proof.
  destruct c as [m|]; cbn [AnalysisCache.get AnalysisCache.invalidate
                             AnalysisCache.clear].
  - split; [|split].
    + set (k := AnalysisCache._make_key patient_id analysis_type kwargs).
      destruct (Py.str_in id k) eqn:E.
      * apply map_lookup_filter_None. right. intros v _ H.
        cbn [fst] in H. congruence.
      * destruct (m !! k) as [v|] eqn:Ek.
        -- apply map_lookup_filter_Some. split; [exact Ek|exact E].
        -- apply map_lookup_filter_None. now left.
    + f_equal. apply map_filter_id. intros k v Hk.
      apply map_lookup_filter_Some in Hk. apply Hk.
    + f_equal. apply map_empty. intros k.
      apply map_lookup_filter_None. right. intros v _ H.
      cbn [fst] in H. rewrite str_in_empty in H. discriminate.
  - split; [|split]; try reflexivity.
    now destruct (Py.str_in id _).
Qed.

End CacheOperations.

Section DecoratorFacts.

Context {V A : Type}.

Import CachedAnalysis.

(** A first call of a decorated analysis, on a cache without the entry:
    a failure is passed on and nothing is stored; a result is returned and
    stored, and from then on every call for that patient returns that
    result, whatever its other arguments and without running the analysis
    (the key is made of the patient id and the analysis type only), and
    leaves the cache as it is. *)
Theorem cached_analysis_ignores_arguments (analysis_type : string)
    (func : string -> A -> result V) (c : option (gmap string V))
    (patient_id : string) (args : A) :
  AnalysisCache.get c patient_id analysis_type [] = None ->
  match func patient_id args with
  | Raise e =>
      cached_analysis analysis_type func c patient_id args = (Raise e, c)
  | Ok r =>
      exists c',
        cached_analysis analysis_type func c patient_id args = (Ok r, c')
        /\ forall (func' : string -> A -> result V) (args' : A),
             cached_analysis analysis_type func' c' patient_id args'
             = (Ok r, c')
  end.
Proof.
  intros Hmiss. unfold cached_analysis. rewrite Hmiss.
  destruct (func patient_id args) as [r|e]; [|reflexivity].
  eexists. split; [reflexivity|]. intros func' args'.
  assert (Hhit : AnalysisCache.get
                   (AnalysisCache.set c patient_id analysis_type r [])
                   patient_id analysis_type [] = Some r).
  { unfold AnalysisCache.get, AnalysisCache.set. apply lookup_insert_eq. }
  now rewrite Hhit.
Qed.

End DecoratorFacts.

(** The theorem at an analysis that returns its second argument: after
    the call with 30, the call with 60 still returns 30. *)
Lemma cached_analysis_ignores_arguments_witness :
  AnalysisCache.get (V := Z) None "test-patient-id" "insights" [] = None
  /\ exists c',
       CachedAnalysis.cached_analysis "insights"
         (fun (_ : string) (days : Z) => Ok days) None "test-patient-id" 30%Z
       = (Ok 30%Z, c')
       /\ CachedAnalysis.cached_analysis "insights"
            (fun (_ : string) (days : Z) => Ok days) c' "test-patient-id" 60%Z
          = (Ok 30%Z, c').
Proof.
  assert (Hmiss : AnalysisCache.get (V := Z) None "test-patient-id" "insights"
                    [] = None) by reflexivity.
  split; [exact Hmiss|].
  destruct (cached_analysis_ignores_arguments "insights"
              (fun (_ : string) (days : Z) => Ok days) None "test-patient-id"
              30%Z Hmiss) as [c' [E Hnext]].
  exists c'. split; [exact E|]. apply Hnext.
Defined.

(** ** Correlation analysis: bounds, symmetry, and the response *)

Section CauchySchwarz.

Import PyR.
Open Scope R_scope.

Lemma sum_combination {A} (f g : A -> R) (u v : R) (l : list A) :
  sumR (map (fun a => (u * f a - v * g a) * (u * f a - v * g a)) l)
  = u * u * sumR (map (fun a => f a * f a) l)
    - 2 * u * v * sumR (map (fun a => f a * g a) l)
    + v * v * sumR (map (fun a => g a * g a) l).
Proof.
  induction l as [|a l IH]; cbn [map sumR fold_right]; [ring|].
  fold (sumR (map (fun a => (u * f a - v * g a) * (u * f a - v * g a)) l)).
  fold (sumR (map (fun a => f a * f a) l)).
  fold (sumR (map (fun a => f a * g a) l)).
  fold (sumR (map (fun a => g a * g a) l)).
  rewrite IH. ring.
Qed.

Lemma sum_of_squares_nonneg {A} (h : A -> R) (l : list A) :
  0 <= sumR (map (fun a => h a * h a) l).
Proof.
  induction l as [|a l IH]; cbn [map sumR fold_right]; [rlra|].
  fold (sumR (map (fun a => h a * h a) l)).
  pose proof (Rle_0_sqr (h a)) as H. unfold Rsqr in H. rlra.
Qed.

(** The inequality of Cauchy and Schwarz. *)
Lemma cauchy_schwarz {A} (f g : A -> R) (l : list A) :
  sumR (map (fun a => f a * g a) l) * sumR (map (fun a => f a * g a) l)
  <= sumR (map (fun a => f a * f a) l) * sumR (map (fun a => g a * g a) l).
Proof.
  set (Sff := sumR (map (fun a => f a * f a) l)).
  set (Sfg := sumR (map (fun a => f a * g a) l)).
  set (Sgg := sumR (map (fun a => g a * g a) l)).
  assert (Hcomb : forall u v,
            0 <= u * u * Sff - 2 * u * v * Sfg + v * v * Sgg).
  { intros u v. unfold Sff, Sfg, Sgg. rewrite <- sum_combination.
    apply (sum_of_squares_nonneg (fun a => u * f a - v * g a)). }
  assert (Hff : 0 <= Sff) by apply sum_of_squares_nonneg.
  assert (Hgg : 0 <= Sgg) by apply sum_of_squares_nonneg.
  pose proof (Hcomb Sfg Sff) as H1.
  pose proof (Hcomb 1 1) as H2. pose proof (Hcomb 1 (-1)) as H3.
  destruct (Rle_lt_or_eq_dec _ _ Hff) as [Hpos|Hzero].
  - assert (H : 0 <= Sff * (Sff * Sgg - Sfg * Sfg)) by rlra.
    destruct (Rle_or_lt (Sfg * Sfg) (Sff * Sgg)) as [Hle|Hgt]; [exact Hle|].
    exfalso. assert (0 < Sff * (Sfg * Sfg - Sff * Sgg))
      by (apply Rmult_lt_0_compat; rlra). rlra.
  - rewrite <- Hzero in *.
    pose proof (Hcomb Sgg Sfg) as H4.
    destruct (Rle_lt_or_eq_dec _ _ Hgg) as [Hgpos|Hgzero].
    + assert (H : 0 <= Sgg * (- (Sfg * Sfg))) by rlra.
      destruct (Rle_or_lt (Sfg * Sfg) 0) as [Hle|Hgt]; [rlra|].
      exfalso. assert (0 < Sgg * (Sfg * Sfg))
        by (apply Rmult_lt_0_compat; rlra). rlra.
    + rewrite <- Hgzero in *. assert (E : Sfg = 0) by rlra.
      rewrite E. rlra.
Qed.

End CauchySchwarz.

Section CorrelationBounds.

Import PyR Correlations CorrelationAnalysis.
Open Scope R_scope.

Lemma lenR_positive {A} (l : list A) : l <> [] -> 0 < lenR l.
Proof.
  destruct l; [congruence|]. intros _. rewrite lenR_cons.
  pose proof (lenR_nonneg l). rlra.
Qed.

(** The square of the numerator is at most the squared denominator. *)
Lemma numerator_bound pairs :
  pairs <> [] ->
  numerator pairs * numerator pairs <= denominator_sq pairs.
Proof.
  intros Hne.
  set (mx := meanR (map fst pairs)). set (my := meanR (map snd pairs)).
  set (Sxy := sumR (map (fun p => (fst p - mx) * (snd p - my)) pairs)).
  set (Sxx := sumR (map (fun p => (fst p - mx) * (fst p - mx)) pairs)).
  set (Syy := sumR (map (fun p => (snd p - my) * (snd p - my)) pairs)).
  set (n := lenR pairs).
  assert (Hn : 0 < n) by now apply lenR_positive.
  assert (Hnum : numerator pairs = n * Sxy).
  { unfold numerator, Sxy, mx, my, n. cbv zeta.
    now rewrite (sum_mean_deviations fst snd pairs Hne). }
  assert (Hxx : n * sumR (map (fun p => fst p ^ 2) pairs)
                - sumR (map fst pairs) ^ 2 = n * Sxx).
  { unfold Sxx, mx, n.
    rewrite (sum_mean_deviations fst fst pairs Hne).
    f_equal; [f_equal; f_equal; apply map_ext; intros; ring|ring]. }
  assert (Hyy : n * sumR (map (fun p => snd p ^ 2) pairs)
                - sumR (map snd pairs) ^ 2 = n * Syy).
  { unfold Syy, my, n.
    rewrite (sum_mean_deviations snd snd pairs Hne).
    f_equal; [f_equal; f_equal; apply map_ext; intros; ring|ring]. }
  assert (Hden : denominator_sq pairs = (n * n) * (Sxx * Syy)).
  { unfold denominator_sq. cbv zeta. fold n. rewrite Hxx, Hyy. ring. }
  pose proof (cauchy_schwarz (fun p : R * R => fst p - mx)
                (fun p => snd p - my) pairs) as Hcs.
  fold Sxy Sxx Syy in Hcs.
  rewrite Hnum, Hden.
  replace (n * Sxy * (n * Sxy)) with ((n * n) * (Sxy * Sxy)) by ring.
  apply Rmult_le_compat_l; [|exact Hcs].
  apply Rmult_le_pos; rlra.
Qed.

(** A coefficient that is returned lies between -1 and 1, and its
    magnitude is at least 0.1. *)
Lemma correlation_of_pairs_bounds pairs c :
  correlation_of_pairs pairs = Some c ->
  -1 <= c <= 1 /\ 1 / 10 <= Rabs c.
Proof.
  unfold correlation_of_pairs.
  destruct (List.length pairs <? 5)%nat eqn:E5; [discriminate|].
  apply Nat.ltb_ge in E5.
  assert (Hne : pairs <> []) by (intros Hn; rewrite Hn in E5; cbn in E5; lia).
  destruct (Rle_dec (denominator_sq pairs) 0) as [Hle|Hgt]; [discriminate|].
  cbv zeta.
  destruct (Req_dec_T (sqrt (denominator_sq pairs)) 0); [discriminate|].
  destruct (Rlt_dec (Rabs (numerator pairs / sqrt (denominator_sq pairs)))
              (1 / 10)) as [Hw|Hw]; [discriminate|].
  intros [= <-]. split; [|rlra].
  assert (Hd : 0 < denominator_sq pairs) by rlra.
  pose proof (sqrt_lt_R0 _ Hd) as Hs.
  pose proof (sqrt_sqrt (denominator_sq pairs) (Rlt_le _ _ Hd)) as Hss.
  pose proof (numerator_bound pairs Hne) as Hb.
  set (s := sqrt (denominator_sq pairs)) in *.
  set (N := numerator pairs) in *.
  rewrite <- Hss in Hb.
  assert (HN : - s <= N <= s).
  { split.
    - destruct (Rle_or_lt (- s) N) as [H|H]; [exact H|]. exfalso.
      assert (s * s < N * N) by rnra. rlra.
    - destruct (Rle_or_lt N s) as [H|H]; [exact H|]. exfalso.
      assert (s * s < N * N) by rnra. rlra. }
  assert (E : N / s * s = N) by (field; rlra).
  split; apply (Rmult_le_reg_r s); try exact Hs; rewrite E; rlra.
Qed.

Lemma paired_swap (daily_data : Z -> string -> option R) dates k1 k2 :
  paired daily_data dates k2 k1
  = map (fun p => (snd p, fst p)) (paired daily_data dates k1 k2).
Proof.
  induction dates as [|d dates IH]; [reflexivity|].
  cbn [paired]. destruct (daily_data d k1), (daily_data d k2);
    cbn [map fst snd]; now rewrite IH.
Qed.

Lemma sumR_ext {A} (f g : A -> R) l :
  (forall a, f a = g a) -> sumR (map f l) = sumR (map g l).
Proof. intros H. f_equal. now apply map_ext. Qed.

(** The coefficient does not depend on which of the two columns is taken
    as the outcome and which as the factor. *)
Theorem factor_correlation_is_symmetric
    (daily_data : Z -> string -> option R) (dates : list Z)
    (key1 key2 : string) :
  _calculate_factor_correlation daily_data dates key1 key2
  = _calculate_factor_correlation daily_data dates key2 key1.
Proof.
  unfold _calculate_factor_correlation. rewrite (paired_swap _ _ key1 key2).
  set (pairs := paired daily_data dates key1 key2).
  set (swapped := map (fun p : R * R => (snd p, fst p)) pairs).
  assert (Hfst : map fst swapped = map snd pairs)
    by (unfold swapped; rewrite map_map; reflexivity).
  assert (Hsnd : map snd swapped = map fst pairs)
    by (unfold swapped; rewrite map_map; reflexivity).
  assert (Hlen : List.length swapped = List.length pairs)
    by (unfold swapped; now rewrite length_map).
  assert (HlenR : lenR swapped = lenR pairs) by (unfold lenR; now rewrite Hlen).
  assert (Hnum : numerator swapped = numerator pairs).
  { unfold numerator. cbv zeta. rewrite HlenR, Hfst, Hsnd.
    replace (sumR (map (fun p => fst p * snd p) swapped))
      with (sumR (map (fun p => fst p * snd p) pairs)); [ring|].
    unfold swapped. rewrite map_map. apply sumR_ext. intros p. cbn. ring. }
  assert (Hden : denominator_sq swapped = denominator_sq pairs).
  { unfold denominator_sq. cbv zeta. rewrite HlenR, Hfst, Hsnd.
    replace (sumR (map (fun p => fst p ^ 2) swapped))
      with (sumR (map (fun p => snd p ^ 2) pairs))
      by (unfold swapped; rewrite map_map; reflexivity).
    replace (sumR (map (fun p => snd p ^ 2) swapped))
      with (sumR (map (fun p => fst p ^ 2) pairs))
      by (unfold swapped; rewrite map_map; reflexivity).
    ring. }
  unfold correlation_of_pairs. now rewrite Hlen, Hnum, Hden.
Qed.

End CorrelationBounds.

Section CorrelationModel.

Import PyR Correlations CorrelationAnalysis.
Open Scope R_scope.

Lemma round3_le x y : x <= y -> round3 x <= round3 y.
Proof.
  intros H. unfold round3.
  assert (Hr : (round (x * 1000) <= round (y * 1000))%Z)
    by (apply round_le; rlra).
  apply IZR_le in Hr. rlra.
Qed.

Lemma round3_IZR z : round3 (IZR z / 1000) = IZR z / 1000.
Proof.
  unfold round3. replace (IZR z / 1000 * 1000) with (IZR z) by field.
  now rewrite round_IZR.
Qed.

Lemma round3_bounds c :
  -1 <= c <= 1 ->
  -1 <= round3 c <= 1
  /\ (1 / 10 <= c -> 1 / 10 <= round3 c)
  /\ (c <= - (1 / 10) -> round3 c <= - (1 / 10)).
Proof.
  intros [Hlo Hhi].
  pose proof (round3_IZR 1000) as E1. pose proof (round3_IZR (-1000)) as E2.
  pose proof (round3_IZR 100) as E3. pose proof (round3_IZR (-100)) as E4.
  replace (IZR 1000 / 1000) with 1 in E1 by rlra.
  replace (IZR (-1000) / 1000) with (-1) in E2 by rlra.
  replace (IZR 100 / 1000) with (1 / 10) in E3 by rlra.
  replace (IZR (-100) / 1000) with (- (1 / 10)) in E4 by rlra.
  split; [split|split].
  - rewrite <- E2. now apply round3_le.
  - rewrite <- E1. now apply round3_le.
  - intros H. rewrite <- E3 at 1. now apply round3_le.
  - intros H. rewrite <- E4. now apply round3_le.
Qed.

Lemma correlation_strength_literal c :
  Responses.literal ["weak"; "moderate"; "strong"]%string
    (_correlation_strength c) = true.
Proof.
  unfold _correlation_strength. cbv zeta.
  destruct (Rle_dec _ _); [reflexivity|]. destruct (Rle_dec _ _); reflexivity.
Qed.

(** The [Correlation] built from a coefficient within its bounds. *)
Lemma to_correlation_model name c :
  -1 <= c <= 1 -> 1 / 10 <= Rabs c ->
  Responses.valid_Correlation (to_correlation (name, "Systolic BP"%string, c))
  /\ signed (to_correlation (name, "Systolic BP"%string, c)).
Proof.
  intros Hc Hmag. destruct (round3_bounds c Hc) as [Hr [Hpos Hneg]].
  unfold Responses.valid_Correlation, signed, to_correlation.
  cbn [correlation strength direction].
  split; [split; [exact Hr|split; [apply correlation_strength_literal|]]|].
  - destruct (Rlt_dec 0 c); reflexivity.
  - destruct (Rlt_dec 0 c) as [Hp|Hn].
    + left. split; [reflexivity|]. apply Hpos.
      rewrite Rabs_right in Hmag by rlra. exact Hmag.
    + right. split; [reflexivity|]. apply Hneg.
      rewrite Rabs_left1 in Hmag by rlra. rlra.
Qed.

Lemma append_if_model name corr :
  (forall c, corr = Some c -> -1 <= c <= 1 /\ 1 / 10 <= Rabs c) ->
  (List.length (append_if name corr) <= 1)%nat
  /\ Forall (fun e =>
               Responses.valid_Correlation (to_correlation e)
               /\ signed (to_correlation e)
               /\ factor1 (to_correlation e) = name
               /\ factor2 (to_correlation e) = "Systolic BP"%string)
       (append_if name corr).
Proof.
  intros Hb. unfold append_if. destruct corr as [c|]; [|split; [cbn; lia|constructor]].
  destruct (Req_dec_T c 0); [split; [cbn; lia|constructor]|].
  split; [cbn; lia|].
  destruct (Hb c eq_refl) as [Hc Hmag].
  destruct (to_correlation_model name c Hc Hmag) as [Hv Hs].
  constructor; [|constructor]. repeat split; try assumption; apply Hv.
Qed.

Lemma stronger_total a b : stronger a b = true \/ stronger b a = true.
Proof.
  unfold stronger.
  destruct (Rle_dec (Rabs (correlation b)) (Rabs (correlation a)));
    [now left|].
  destruct (Rle_dec (Rabs (correlation a)) (Rabs (correlation b)));
    [now right|]. rlra.
Qed.

Lemma stronger_trans a b c :
  stronger a b = true -> stronger b c = true -> stronger a c = true.
Proof.
  unfold stronger.
  destruct (Rle_dec (Rabs (correlation b)) (Rabs (correlation a)));
    [|discriminate].
  destruct (Rle_dec (Rabs (correlation c)) (Rabs (correlation b)));
    [|discriminate].
  destruct (Rle_dec (Rabs (correlation c)) (Rabs (correlation a)));
    [reflexivity|]. rlra.
Qed.

Lemma stronger_spec a b :
  stronger a b = true -> Rabs (correlation b) <= Rabs (correlation a).
Proof. unfold stronger. destruct (Rle_dec _ _); [tauto|discriminate]. Qed.

(** Over exact reals: with the patient found and at least the minimum of
    readings, [analyze_correlations] raises [InsufficientDataError] with
    fewer than five days in the daily map, and otherwise returns at most
    ten correlations, in descending order of magnitude, each accepted by
    the [Correlation] model. *)
Lemma correlations_over_reals db settings patient_id days :
  fetch_patient db patient_id <> None ->
  let readings := fetch_blood_pressure_readings db patient_id days in
  let lifestyle := fetch_lifestyle_entries db patient_id days in
  let n := List.length (keys readings lifestyle) in
  (min_readings_for_analysis settings <= Z.of_nat (List.length readings))%Z ->
  ((n < 5)%nat ->
   analyze_correlations db settings patient_id days
   = Raise (InsufficientDataError
              [Py.Lit "Not enough daily data points for correlation analysis"]
              [("days_with_data"%string, Z.of_nat n);
               ("minimum_required"%string, 5%Z)]))
  /\ ((5 <= n)%nat ->
      exists l,
        analyze_correlations db settings patient_id days = Ok l
        /\ (List.length l <= 10)%nat
        /\ Forall Responses.valid_Correlation l
        /\ Forall signed l
        /\ Forall (fun c =>
                     In (factor1 c) factor_names
                     /\ factor2 c = "Systolic BP"%string) l
        /\ StronglySorted
             (fun a b => Rabs (correlation b) <= Rabs (correlation a)) l).
Proof.
  intros Hp readings lifestyle n Hn.
  unfold analyze_correlations, Correlations.analyze_correlations.
  destruct (fetch_patient db patient_id) as [patient|]; [|congruence].
  cbv zeta. fold readings lifestyle. apply Z.ltb_ge in Hn. rewrite Hn.
  unfold correlate. cbv zeta. fold n.
  split.
  - intros H5. apply Nat.ltb_lt in H5. now rewrite H5.
  - intros H5. apply Nat.ltb_ge in H5. rewrite H5.
    set (dates := Py.sort_le Z.leb (keys readings lifestyle)).
    set (dd := daily_data readings lifestyle).
    assert (Hf : forall f c,
              _calculate_factor_correlation dd dates "systolic" f = Some c ->
              -1 <= c <= 1 /\ 1 / 10 <= Rabs c)
      by (intros f c; apply correlation_of_pairs_bounds).
    assert (Hs : forall c,
              _calculate_stress_correlation readings lifestyle dates = Some c ->
              -1 <= c <= 1 /\ 1 / 10 <= Rabs c)
      by (intros c; apply correlation_of_pairs_bounds).
    pose proof (append_if_model "Sodium Intake" _ (Hf "sodium_mg"%string))
      as [L1 F1].
    pose proof (append_if_model "Physical Activity" _
                  (Hf "physical_activity"%string)) as [L2 F2].
    pose proof (append_if_model "Sleep Duration" _
                  (Hf "sleep_duration"%string)) as [L3 F3].
    pose proof (append_if_model "Stress Level" _ Hs) as [L4 F4].
    pose proof (append_if_model "Body Weight" _ (Hf "weight"%string))
      as [L5 F5].
    pose proof (append_if_model "Water Intake" _ (Hf "water_intake"%string))
      as [L6 F6].
    pose proof (append_if_model "Caffeine Intake" _
                  (Hf "caffeine_intake"%string)) as [L7 F7].
    pose proof (append_if_model "Alcohol Consumption" _
                  (Hf "alcohol_consumption"%string)) as [L8 F8].
    pose proof (append_if_model "Diastolic BP" _ (Hf "diastolic"%string))
      as [L9 F9].
    pose proof (append_if_model "Heart Rate" _ (Hf "pulse"%string))
      as [L10 F10].
    eexists. split; [reflexivity|].
    match goal with
    | |- context [Py.sort_le stronger (map to_correlation ?fc)] =>
        set (entries := fc)
    end.
    pose proof (sort_le_permutation stronger (map to_correlation entries))
      as Hperm.
    assert (Hlen : (List.length entries <= 10)%nat).
    { unfold entries. rewrite !length_app. lia. }
    assert (Hall : Forall (fun e =>
                             Responses.valid_Correlation (to_correlation e)
                             /\ signed (to_correlation e)
                             /\ In (factor1 (to_correlation e)) factor_names
                             /\ factor2 (to_correlation e)
                                = "Systolic BP"%string) entries).
    { unfold entries.
      repeat (apply Forall_app; split);
        match goal with
        | H : Forall _ ?l |- Forall _ ?l =>
            eapply Forall_impl; [|exact H];
            intros e [Hv [Hsg [Hn1 Hn2]]];
            repeat split; try assumption; try apply Hv;
            rewrite Hn1; cbn; tauto
        end. }
    assert (Hmapped : forall c,
              In c (Py.sort_le stronger (map to_correlation entries)) ->
              Responses.valid_Correlation c /\ signed c
              /\ In (factor1 c) factor_names
              /\ factor2 c = "Systolic BP"%string).
    { intros c Hc. apply (Permutation_in _ Hperm) in Hc.
      apply in_map_iff in Hc. destruct Hc as [e [<- He]].
      rewrite Forall_forall in Hall. now apply Hall. }
    split.
    { rewrite (Permutation_length Hperm), length_map. exact Hlen. }
    split; [apply Forall_forall; intros c Hc; now apply Hmapped|].
    split; [apply Forall_forall; intros c Hc; now apply Hmapped|].
    split; [apply Forall_forall; intros c Hc; split; now apply Hmapped|].
    pose proof (sort_le_strongly_sorted stronger stronger_total stronger_trans
                  (map to_correlation entries)) as Hsorted.
    clear -Hsorted.
    induction Hsorted as [|a l Hl IH Ha]; constructor; [exact IH|].
    eapply Forall_impl; [|exact Ha]. intros b. apply stronger_spec.
Qed.

(** With the patient found and at least the minimum of readings,
    [analyze_correlations] looks at the number of days in the daily map:
    with fewer than five it raises [InsufficientDataError] with that
    number.  Every list that it returns is for five days or more and has
    at most ten correlations, each of one of the ten factors with the
    systolic pressure, in descending order of magnitude; each passes the
    validation of the [Correlation] model (the coefficient, rounded to
    three decimals, lies between -1 and 1, the strength and the direction
    are among their literals), and the rounded coefficient is at least 0.1
    when the direction is "positive", at most -0.1 when it is "negative".
    (Over exact reals a list is returned whenever there are five days; the
    program raises instead when the rounding of its doubles has taken a
    coefficient out of the range that the model validates, as it does for
    columns that are the same on every day.) *)
Theorem correlations_satisfy_response_model db settings patient_id days :
  fetch_patient db patient_id <> None ->
  let readings := fetch_blood_pressure_readings db patient_id days in
  let lifestyle := fetch_lifestyle_entries db patient_id days in
  let n := List.length (keys readings lifestyle) in
  (min_readings_for_analysis settings <= Z.of_nat (List.length readings))%Z ->
  ((n < 5)%nat ->
   analyze_correlations db settings patient_id days
   = Raise (InsufficientDataError
              [Py.Lit "Not enough daily data points for correlation analysis"]
              [("days_with_data"%string, Z.of_nat n);
               ("minimum_required"%string, 5%Z)]))
  /\ (forall l,
        analyze_correlations db settings patient_id days = Ok l ->
        (5 <= n)%nat
        /\ (List.length l <= 10)%nat
        /\ Forall Responses.valid_Correlation l
        /\ Forall signed l
        /\ Forall (fun c =>
                     In (factor1 c) factor_names
                     /\ factor2 c = "Systolic BP"%string) l
        /\ StronglySorted
             (fun a b => Rabs (correlation b) <= Rabs (correlation a)) l).
Proof.
  intros Hp readings lifestyle n Hn.
  destruct (correlations_over_reals db settings patient_id days Hp Hn)
    as [Hfew Hmany].
  fold readings lifestyle n in Hfew, Hmany.
  split; [exact Hfew|]. intros l Hl.
  destruct (Nat.lt_ge_cases n 5) as [H5|H5].
  - rewrite (Hfew H5) in Hl. discriminate.
  - split; [exact H5|].
    destruct (Hmany H5) as (l0 & E & Hprops).
    rewrite E in Hl. injection Hl as <-. exact Hprops.
Qed.

End CorrelationModel.

(** The theorem at the seven days of [steady_db], for which no factor has
    five pairs with a variance: the list is empty. *)
Lemma correlations_satisfy_response_model_witness :
  fetch_patient steady_db "test-patient-id" <> None
  /\ (min_readings_for_analysis default_settings
      <= Z.of_nat
           (List.length
              (fetch_blood_pressure_readings steady_db "test-patient-id" 30)))%Z
  /\ exists l,
       CorrelationAnalysis.analyze_correlations steady_db default_settings
         "test-patient-id" 30 = Ok l
       /\ (List.length l <= 10)%nat
       /\ Forall Responses.valid_Correlation l.
Proof.
  assert (Hp : fetch_patient steady_db "test-patient-id" <> None)
    by discriminate.
  assert (Hn : (min_readings_for_analysis default_settings
                <= Z.of_nat
                     (List.length
                        (fetch_blood_pressure_readings steady_db
                           "test-patient-id" 30)))%Z)
    by (vm_compute; discriminate).
  split; [exact Hp|]. split; [exact Hn|].
  destruct (CorrelationAnalysis.analyze_correlations steady_db
              default_settings "test-patient-id" 30) as [l|e] eqn:E.
  - exists l. split; [reflexivity|].
    destruct (proj2 (correlations_satisfy_response_model steady_db
                       default_settings "test-patient-id" 30 Hp Hn) l E)
      as (_ & Hl & Hv & _).
    split; [exact Hl|exact Hv].
  - exfalso.
    destruct (correlations_over_reals steady_db default_settings
                "test-patient-id" 30 Hp Hn) as [_ Hmany].
    destruct Hmany as (l & El & _); [vm_compute; lia|].
    rewrite El in E. discriminate E.
Defined.

(** ** Pattern analysis *)

Section PatternModel.

Import PyR PatternAnalysis.
Open Scope R_scope.

Ltac bounded_patterns :=
  repeat match goal with
         | |- context [if ?c then _ else _] => destruct c
         | |- context [match ?x with [] => _ | _ :: _ => _ end] => destruct x
         | |- context [match ?x with Some _ => _ | None => _ end] => destruct x
         | |- context [let '(_, _) := ?x in _] => destruct x
         end;
  (split; [cbn [List.length app]; lia|repeat (constructor; try reflexivity)]).

Lemma time_patterns_bounded readings :
  bounded 1 (_analyze_time_patterns readings).
Proof. unfold _analyze_time_patterns, bounded. cbv zeta. bounded_patterns. Qed.

Lemma weekly_patterns_bounded readings :
  bounded 2 (_analyze_weekly_patterns readings).
Proof.
  unfold _analyze_weekly_patterns, bounded. cbv zeta. bounded_patterns.
Qed.

Lemma position_patterns_bounded readings :
  bounded 1 (_analyze_position_patterns readings).
Proof.
  unfold _analyze_position_patterns, bounded. cbv zeta. bounded_patterns.
Qed.

Lemma lifestyle_patterns_bounded readings lifestyle :
  bounded 3 (_analyze_lifestyle_patterns readings lifestyle).
Proof.
  unfold _analyze_lifestyle_patterns, bounded.
  destruct lifestyle as [|e t]; [split; [cbn; lia|constructor]|].
  cbv zeta. bounded_patterns.
Qed.

Lemma variability_patterns_bounded readings :
  bounded 1 (_analyze_variability_patterns readings).
Proof.
  unfold _analyze_variability_patterns, bounded. cbv zeta. bounded_patterns.
Qed.

Lemma bounded_app m n l1 l2 :
  bounded m l1 -> bounded n l2 -> bounded (m + n) (l1 ++ l2).
Proof.
  intros [L1 F1] [L2 F2]. split.
  - rewrite length_app. lia.
  - now apply Forall_app.
Qed.

Lemma bounded_more m n l : (m <= n)%nat -> bounded m l -> bounded n l.
Proof. intros Hmn [L F]. split; [lia|exact F]. Qed.

Lemma detect_bounded readings lifestyle : bounded 8 (detect readings lifestyle).
Proof.
  unfold detect. cbv zeta.
  pose proof (time_patterns_bounded readings) as H1.
  pose proof (weekly_patterns_bounded readings) as H2.
  pose proof (position_patterns_bounded readings) as H3.
  pose proof (lifestyle_patterns_bounded readings lifestyle) as H4.
  pose proof (variability_patterns_bounded readings) as H5.
  destruct lifestyle as [|e t].
  - apply (bounded_more (1 + 2 + 1 + 1)); [lia|].
    repeat apply bounded_app; assumption.
  - apply (bounded_more (1 + 2 + 1 + 3 + 1)); [lia|].
    repeat apply bounded_app; assumption.
Qed.

(** With the patient found and at least the minimum of readings,
    [analyze_patterns] returns the patterns that the five analyses detect,
    all of them: they are eight at most (one of the time of day, two of the
    week, one of the position, three of the lifestyle, one of the
    variability), so that the cut to ten removes none.  They come in the
    order "high", "moderate", "low" of their severity, and each passes the
    validation of the [Pattern] model: the default rank 3 of an unknown
    severity is never used. *)
Theorem patterns_satisfy_response_model db settings patient_id days :
  fetch_patient db patient_id <> None ->
  let readings := fetch_blood_pressure_readings db patient_id days in
  let lifestyle := fetch_lifestyle_entries db patient_id days in
  (min_readings_for_analysis settings <= Z.of_nat (List.length readings))%Z ->
  exists l,
    analyze_patterns db settings patient_id days = Ok l
    /\ Permutation l (detect readings lifestyle)
    /\ (List.length l <= 8)%nat
    /\ forallb Responses.valid_Pattern l = true
    /\ Forall (fun p => (0 <= rank p <= 2)%Z) l
    /\ Sorted (fun a b => (rank a <= rank b)%Z) l.
Proof.
  intros Hp readings lifestyle Hn. unfold analyze_patterns.
  destruct (fetch_patient db patient_id) as [patient|]; [|congruence].
  cbv zeta. fold readings lifestyle. apply Z.ltb_ge in Hn. rewrite Hn.
  destruct (detect_bounded readings lifestyle) as [Hlen Hvalid].
  fold rank.
  change (fun x : Pattern => severity_order (severity x)) with rank.
  pose proof (sort_by_perm rank (detect readings lifestyle)) as Hperm.
  assert (Hall : firstn 10 (Py.sort_by rank (detect readings lifestyle))
                 = Py.sort_by rank (detect readings lifestyle)).
  { apply firstn_all2. rewrite (Permutation_length Hperm). lia. }
  rewrite Hall. eexists. split; [reflexivity|].
  assert (Hv : Forall (fun p => Responses.valid_Pattern p = true)
                 (Py.sort_by rank (detect readings lifestyle))).
  { eapply Permutation_Forall; [apply Permutation_sym, Hperm|exact Hvalid]. }
  split; [exact Hperm|]. split; [rewrite (Permutation_length Hperm); lia|].
  split; [apply forallb_forall; rewrite Forall_forall in Hv; exact Hv|].
  split; [|apply sort_by_sorted].
  eapply Forall_impl; [|exact Hv]. intros p Hvp.
  unfold Responses.valid_Pattern, Responses.literal in Hvp.
  unfold rank, severity_order. cbn [existsb] in Hvp.
  destruct (String.eqb (severity p) "high") eqn:E1; [lia|].
  destruct (String.eqb (severity p) "moderate") eqn:E2; [lia|].
  destruct (String.eqb (severity p) "low") eqn:E3; [lia|].
  discriminate.
Qed.

(** What [averages] holds for a key: the average of its group, when the
    group is large enough. *)
Lemma get_averages key minimum readings k v :
  get k (averages key minimum readings) = Some v ->
  (minimum <= List.length (group key readings k))%nat.
Proof.
  unfold averages.
  induction (first_seen String.eqb (map key readings)) as [|k1 ks IH];
    [discriminate|].
  cbn [flat_map]. cbv zeta.
  destruct (minimum <=? List.length (group key readings k1))%nat eqn:E;
    [|exact IH].
  cbn [app get]. destruct (String.eqb k k1) eqn:Ek; [|exact IH].
  apply String.eqb_eq in Ek. subst k1. intros _. now apply Nat.leb_le.
Qed.

Lemma truthy_get_or k d :
  truthy (get_or k d 0) = true -> exists v, get k d = Some v.
Proof.
  unfold get_or, truthy. destruct (get k d) as [v|]; [eauto|].
  destruct (Req_dec_T 0 0); [discriminate|congruence].
Qed.

(** A pattern of the time of day needs three morning readings, and three
    evening readings or, failing those, three night readings (the two are
    not pooled): short of that, [_analyze_time_patterns] returns no
    pattern. *)
Theorem no_time_pattern_without_three_readings readings :
  (List.length (group time_key readings "morning") < 3)%nat
  \/ ((List.length (group time_key readings "evening") < 3)%nat
      /\ (List.length (group time_key readings "night") < 3)%nat) ->
  _analyze_time_patterns readings = [].
Proof.
  intros H. unfold _analyze_time_patterns. cbv zeta.
  destruct (2 <=? _)%nat; [|reflexivity].
  destruct (truthy (get_or "morning" (averages time_key 3 readings) 0))
    eqn:Em; [|reflexivity].
  destruct (truthy
              (get_or "evening" (averages time_key 3 readings)
                 (get_or "night" (averages time_key 3 readings) 0)))
    eqn:Ee; [|reflexivity].
  exfalso.
  apply truthy_get_or in Em. destruct Em as [vm Hm].
  apply get_averages in Hm.
  assert (He : (3 <= List.length (group time_key readings "evening"))%nat
               \/ (3 <= List.length (group time_key readings "night"))%nat).
  { unfold get_or at 1 in Ee.
    destruct (get "evening" (averages time_key 3 readings)) as [ve|] eqn:Ev.
    - left. now apply get_averages in Ev.
    - right. apply truthy_get_or in Ee. destruct Ee as [vn Hvn].
      now apply get_averages in Hvn. }
  lia.
Qed.

Lemma sqrt_15 : sqrt 225 = 15.
Proof. replace 225 with (15 * 15) by rlra. apply sqrt_square. rlra. Qed.

Lemma sqrt_8 : sqrt 64 = 8.
Proof. replace 64 with (8 * 8) by rlra. apply sqrt_square. rlra. Qed.

Lemma systolic_variance_nonneg readings : 0 <= systolic_variance readings.
Proof.
  unfold systolic_variance. cbv zeta. unfold meanR at 1.
  set (values := map (fun r => IZR (systolic r)) (firstn 14 readings)).
  set (squares := map (fun x => (x - meanR values) * (x - meanR values))
                    values).
  assert (H : 0 <= sumR squares)
    by apply (sum_squares_nonneg (fun x : R => x) (meanR values) values).
  pose proof (lenR_nonneg squares) as Hl.
  destruct (Req_dec_T (lenR squares) 0) as [E|E].
  - rewrite E. unfold Rdiv. rewrite Rinv_0. rlra.
  - apply Rmult_le_pos; [exact H|].
    apply Rlt_le, Rinv_0_lt_compat. rlra.
Qed.

(** The standard deviation of [_analyze_variability_patterns] is the
    square root of [systolic_variance]. *)
Lemma variability_patterns_fields readings :
  _analyze_variability_patterns readings
  = if (List.length readings <? 7)%nat then []
    else
      let std_dev := sqrt (systolic_variance readings) in
      if Rlt_dec 15 std_dev then
        [{| type := "High Variability";
            frequency := [Lit "Std dev: "; F1 std_dev; Lit " mmHg"];
            severity := "high";
            description :=
              [Lit "Your readings show high variability which may indicate inconsistent measurement technique or underlying issues"] |}]
      else if Rlt_dec std_dev 8 then
        [{| type := "Consistent Readings";
            frequency := [Lit "Std dev: "; F1 std_dev; Lit " mmHg"];
            severity := "low";
            description :=
              [Lit "Your blood pressure readings are consistent, indicating good measurement technique"] |}]
      else [].
Proof.
  unfold _analyze_variability_patterns, systolic_variance. cbv zeta.
  destruct (List.length readings <? 7)%nat; [reflexivity|].
  set (values := map (fun r => IZR (systolic r)) (firstn 14 readings)).
  assert (E : sumR (map (fun x => (x - sumR values / lenR values) ^ 2) values)
              / lenR values
              = meanR (map (fun x => (x - meanR values) * (x - meanR values))
                         values)).
  { unfold meanR at 1. f_equal.
    - apply sumR_ext. intros x. unfold meanR. ring.
    - unfold lenR. now rewrite length_map. }
  rewrite E. reflexivity.
Qed.

(** On seven readings or more, the variability pattern is decided by the
    population variance of the systolic pressure over the fourteen latest
    readings: "High Variability" (severity "high") above 225, that is a
    standard deviation above 15; "Consistent Readings" (severity "low")
    below 64, a standard deviation below 8; no pattern in between.  The
    model compares the exact standard deviation; the program compares a
    double that, for pressures of at most 1000 in magnitude, differs from
    it by far less than a thousandth, so that the pattern is stated for
    such pressures and for the variances that keep a thousandth away from
    64 and 225 (the variance of 70, 96, 92, 97, 95, 91, 96, 91, 97 is 64,
    its standard deviation is computed as 7.999999999999999 and the
    readings are "Consistent Readings").  Equal readings have the variance
    0 and are "Consistent Readings". *)
Theorem variability_pattern_by_variance readings :
  (7 <= List.length readings)%nat ->
  Forall (fun r => (Z.abs (systolic r) <= 1000)%Z) (firstn 14 readings) ->
  let variance := systolic_variance readings in
  (225 + 1 / 1000 <= variance ->
   exists p std_dev,
     _analyze_variability_patterns readings = [p]
     /\ type p = "High Variability"%string /\ severity p = "high"%string
     /\ frequency p = [Lit "Std dev: "; F1 std_dev; Lit " mmHg"]
     /\ Rabs (std_dev - sqrt variance) <= 1 / 1000)
  /\ (variance <= 64 - 1 / 1000 ->
      exists p std_dev,
        _analyze_variability_patterns readings = [p]
        /\ type p = "Consistent Readings"%string /\ severity p = "low"%string
        /\ frequency p = [Lit "Std dev: "; F1 std_dev; Lit " mmHg"]
        /\ Rabs (std_dev - sqrt variance) <= 1 / 1000)
  /\ (64 + 1 / 1000 <= variance <= 225 - 1 / 1000 ->
      _analyze_variability_patterns readings = [])
  /\ (forall c,
        Forall (fun r => systolic r = c) (firstn 14 readings) ->
        variance = 0).
Proof.
  intros Hn _ variance. rewrite variability_patterns_fields.
  apply Nat.ltb_ge in Hn. rewrite Hn. cbv zeta. fold variance.
  pose proof (systolic_variance_nonneg readings) as Hv. fold variance in Hv.
  assert (Hz : Rabs (sqrt variance - sqrt variance) <= 1 / 1000).
  { replace (sqrt variance - sqrt variance) with 0 by ring.
    rewrite Rabs_R0. rlra. }
  split; [|split; [|split]].
  - intros H. assert (Hs : 15 < sqrt variance).
    { rewrite <- sqrt_15. apply sqrt_lt_1; rlra. }
    destruct (Rlt_dec 15 (sqrt variance)); [|contradiction].
    eexists. exists (sqrt variance). split; [reflexivity|].
    repeat split. exact Hz.
  - intros H. assert (Hs : sqrt variance < 8).
    { rewrite <- sqrt_8. apply sqrt_lt_1; rlra. }
    destruct (Rlt_dec 15 (sqrt variance)); [rlra|].
    destruct (Rlt_dec (sqrt variance) 8); [|contradiction].
    eexists. exists (sqrt variance). split; [reflexivity|].
    repeat split. exact Hz.
  - intros [H1 H2].
    assert (Hs1 : sqrt variance <= 15)
      by (rewrite <- sqrt_15; apply sqrt_le_1; rlra).
    assert (Hs2 : 8 <= sqrt variance)
      by (rewrite <- sqrt_8; apply sqrt_le_1; rlra).
    destruct (Rlt_dec 15 (sqrt variance)); [rlra|].
    destruct (Rlt_dec (sqrt variance) 8); [rlra|]. reflexivity.
  - intros c Hc. unfold variance, systolic_variance. cbv zeta.
    set (values := map (fun r => IZR (systolic r)) (firstn 14 readings)).
    assert (Hne : values <> []).
    { unfold values. apply Nat.ltb_ge in Hn.
      destruct readings; [cbn in Hn; lia|discriminate]. }
    assert (Hconst : Forall (fun v => v = IZR c) values).
    { unfold values. apply Forall_forall. intros v Hin.
      apply in_map_iff in Hin. destruct Hin as [r [<- Hr]].
      rewrite Forall_forall in Hc. now rewrite (Hc r Hr). }
    rewrite (meanR_constant (IZR c) values Hne Hconst).
    apply (meanR_constant 0).
    + destruct values; [congruence|discriminate].
    + apply Forall_forall. intros v Hin. apply in_map_iff in Hin.
      destruct Hin as [x [<- Hx]]. rewrite Forall_forall in Hconst.
      rewrite (Hconst x Hx). ring.
Qed.

End PatternModel.

(** The theorem at the steady patient: seven readings, no pattern but
    "Consistent Readings". *)
Lemma patterns_satisfy_response_model_witness :
  fetch_patient steady_db "test-patient-id" <> None
  /\ (min_readings_for_analysis default_settings
      <= Z.of_nat
           (List.length
              (fetch_blood_pressure_readings steady_db "test-patient-id" 30)))%Z
  /\ exists l,
       PatternAnalysis.analyze_patterns steady_db default_settings
         "test-patient-id" 30 = Ok l
       /\ (List.length l <= 8)%nat
       /\ forallb Responses.valid_Pattern l = true.
Proof.
  assert (Hp : fetch_patient steady_db "test-patient-id" <> None)
    by discriminate.
  assert (Hn : (min_readings_for_analysis default_settings
                <= Z.of_nat
                     (List.length
                        (fetch_blood_pressure_readings steady_db
                           "test-patient-id" 30)))%Z)
    by (vm_compute; discriminate).
  split; [exact Hp|]. split; [exact Hn|].
  destruct (patterns_satisfy_response_model steady_db default_settings
              "test-patient-id" 30 Hp Hn) as [l [E [_ [Hl [Hv _]]]]].
  exists l. split; [exact E|]. split; [exact Hl|exact Hv].
Defined.

(** The theorem at readings without a morning label. *)
Lemma no_time_pattern_without_three_readings_witness :
  (List.length
     (PatternAnalysis.group PatternAnalysis.time_key steady_readings "morning")
   < 3)%nat
  /\ PatternAnalysis._analyze_time_patterns steady_readings = [].
Proof.
  assert (H : (List.length
                 (PatternAnalysis.group PatternAnalysis.time_key
                    steady_readings "morning") < 3)%nat)
    by (vm_compute; lia).
  split; [exact H|].
  apply no_time_pattern_without_three_readings. left. exact H.
Defined.

(** The theorem at seven equal readings: the variance is 0. *)
Lemma variability_pattern_by_variance_witness :
  (7 <= List.length steady_readings)%nat
  /\ Forall (fun r => (Z.abs (systolic r) <= 1000)%Z)
       (firstn 14 steady_readings)
  /\ Forall (fun r => systolic r = 135%Z) (firstn 14 steady_readings)
  /\ systolic_variance steady_readings = 0%R
  /\ exists p,
       PatternAnalysis._analyze_variability_patterns steady_readings = [p]
       /\ PatternAnalysis.type p = "Consistent Readings"%string.
Proof.
  assert (Hn : (7 <= List.length steady_readings)%nat) by (vm_compute; lia).
  assert (Hc : Forall (fun r => systolic r = 135%Z)
                 (firstn 14 steady_readings))
    by (repeat constructor).
  assert (Hb : Forall (fun r => (Z.abs (systolic r) <= 1000)%Z)
                 (firstn 14 steady_readings)).
  { vm_compute. repeat (apply Forall_cons; [discriminate|]). apply Forall_nil. }
  pose proof (variability_pattern_by_variance steady_readings Hn Hb)
    as (_ & Hlow & _ & Hzero).
  assert (Hv : systolic_variance steady_readings = 0%R)
    by exact (Hzero 135%Z Hc).
  split; [exact Hn|]. split; [exact Hb|]. split; [exact Hc|].
  split; [exact Hv|].
  destruct Hlow as (p & sd & Hp & Ht & _).
  - rewrite Hv. Lra.lra.
  - exists p. split; [exact Hp|exact Ht].
Defined.

(** ** The endpoints: errors and the cache *)

Section RouterFacts.

Import Router.

Variable validation_error : Cached -> string.

Lemma get_after_set {V : Type} (cache : option (gmap string V)) patient_id
    analysis_type (value : V) kwargs :
  AnalysisCache.get
    (AnalysisCache.set cache patient_id analysis_type value kwargs)
    patient_id analysis_type kwargs = Some value.
Proof. unfold AnalysisCache.get, AnalysisCache.set. apply lookup_insert_eq. Qed.

Lemma except_raises {A : Type} (e : AnalysisError) (response : A) :
  except_ e <> Return response.
Proof. destruct e; discriminate. Qed.

Lemma predictions_nonempty db settings patient_id days predictions :
  Predictions.calculate_predictions db settings patient_id days
  = Ok predictions ->
  predictions <> [].
Proof.
  unfold Predictions.calculate_predictions.
  destruct (fetch_patient db patient_id); [|discriminate].
  cbv zeta. destruct (_ <? _)%Z; [discriminate|].
  unfold bind.
  destruct (Predictions._calculate_metric_prediction _ "systolic" _ _);
    [|discriminate].
  destruct (Predictions._calculate_metric_prediction _ "diastolic" _ _);
    [|discriminate].
  destruct (5 <=? _)%nat.
  - destruct (Predictions._calculate_metric_prediction _ "pulse" _ _);
      [|discriminate].
    intros H. injection H as <-. discriminate.
  - intros H. injection H as <-. discriminate.
Qed.

Lemma invalidate_keeps_digests {V : Type} (cache : option (gmap string V))
    patient_id :
  keys_are_digests cache ->
  keys_are_digests (AnalysisCache.invalidate cache patient_id).
Proof.
  intros Hc m k v Hm Hk. destruct cache as [c|]; [|discriminate].
  unfold AnalysisCache.invalidate in Hm. injection Hm as <-.
  apply map_lookup_filter_Some in Hk as [Hk _].
  exact (Hc c k v eq_refl Hk).
Qed.

Lemma invalidate_leaves_digests {V : Type} (cache : option (gmap string V))
    patient_id :
  keys_are_digests cache ->
  all_hex patient_id = false ->
  AnalysisCache.invalidate cache patient_id = cache.
Proof.
  intros Hc Hpid. destruct cache as [m|]; [|reflexivity].
  unfold AnalysisCache.invalidate. f_equal.
  apply map_filter_id. intros k v Hk. cbn [fst].
  destruct (Hc m k v eq_refl Hk) as [s ->].
  destruct (Py.str_in patient_id (MD5.hexdigest s)) eqn:Hin; [|reflexivity].
  apply str_in_all_hex in Hin; [congruence|apply hexdigest_all_hex].
Qed.

(** The case analysis of an endpoint: the cache answers, or the service
    runs and raises or returns. *)
Ltac cache_cases :=
  match goal with
  | |- context [hit ?g] => destruct (hit g) as [?cached|] eqn:?Ehit
  end;
  [|match goal with
    | |- context [match ?s with Ok _ => _ | Raise _ => _ end] =>
        destruct s as [?response|?e] eqn:?Eservice
    end].

(** The same, after the computation of the days, which may raise. *)
Ltac endpoint_cases :=
  lazymatch goal with
  | |- context [days_error ?r] =>
      destruct (days_error r) as [?e|] eqn:?Edays; [|cache_cases]
  | _ => cache_cases
  end.

(** A request for a patient that the database does not know, and for
    whom the cache holds nothing.  At the forecast endpoint, and at the six
    other endpoints when the subtraction of the ends of the time range
    raises nothing (the range lacks an end, or both ends carry an offset
    from UTC, or neither does), it raises [PatientNotFoundError] and leaves
    the cache as it is; the handler makes of it the response of status 404
    with the code "PATIENT_NOT_FOUND" and the patient id in the details.
    When one end carries an offset and the other does not, the six
    endpoints raise the [HTTPException] of status 500 with the text of the
    [TypeError], before the patient is looked up. *)
Theorem unknown_patient_is_404 db settings now cache patient_id time_range
    metric forecast_days :
  fetch_patient db patient_id = None ->
  (forall analysis_type kwargs,
     AnalysisCache.get cache patient_id analysis_type kwargs = None) ->
  let request :=
    {| AnalysisRequest.patient_id := patient_id;
       AnalysisRequest.time_range := time_range |} in
  let forecast_request :=
    {| ForecastRequest.patient_id := patient_id;
       ForecastRequest.metric := metric;
       ForecastRequest.forecast_days := forecast_days |} in
  let e := PatientNotFoundError patient_id in
  let type_error {A} : outcome A :=
    RaiseHTTPException 500
      "can't subtract offset-naive and offset-aware datetimes" in
  (days_error request = None ->
     get_insights validation_error db settings now cache request
     = (RaiseAnalysisError e, cache)
     /\ get_risk_assessment validation_error db settings cache request
        = (RaiseAnalysisError e, cache)
     /\ get_predictions validation_error db settings cache request
        = (RaiseAnalysisError e, cache)
     /\ get_health_score validation_error db settings cache request
        = (RaiseAnalysisError e, cache)
     /\ get_patterns validation_error db settings cache request
        = (RaiseAnalysisError e, cache)
     /\ get_correlations validation_error db settings cache request
        = (RaiseAnalysisError e, cache))
  /\ (days_error request = Some TypeError ->
     get_insights validation_error db settings now cache request
     = (type_error, cache)
     /\ get_risk_assessment validation_error db settings cache request
        = (type_error, cache)
     /\ get_predictions validation_error db settings cache request
        = (type_error, cache)
     /\ get_health_score validation_error db settings cache request
        = (type_error, cache)
     /\ get_patterns validation_error db settings cache request
        = (type_error, cache)
     /\ get_correlations validation_error db settings cache request
        = (type_error, cache))
  /\ get_forecast validation_error db settings cache forecast_request
     = (RaiseAnalysisError e, cache)
  /\ error_response e
     = Some {| Errors.response_status := 404;
               Errors.error_code := "PATIENT_NOT_FOUND";
               Errors.error_message :=
                 [Py.Lit "Patient with ID "; Py.FStr patient_id;
                  Py.Lit " not found"];
               Errors.error_details :=
                 [("patient_id"%string, Json.JStr patient_id)] |}.
Proof.
  intros Hp Hmiss request forecast_request e type_error.
  unfold get_insights, get_risk_assessment, get_predictions, get_health_score,
    get_patterns, get_correlations, get_forecast.
  cbn [AnalysisRequest.patient_id ForecastRequest.patient_id request
         forecast_request].
  rewrite !Hmiss. cbn [hit].
  unfold Insights.generate_insights, RiskAssessment.calculate_risk_assessment,
    Predictions.calculate_predictions, HealthScore.calculate_health_score,
    PatternAnalysis.analyze_patterns, Patterns.analyze_patterns,
    CorrelationAnalysis.analyze_correlations,
    Correlations.analyze_correlations, Forecast.generate_forecast.
  rewrite Hp. fold request.
  split; [|split; [|split; reflexivity]]; intros ->; repeat split;
    reflexivity.
Qed.

(** No endpoint that raises, whether an [AnalysisError] or the
    [HTTPException] of status 500, changes the cache: a failure is never
    cached. *)
Theorem failed_request_leaves_cache db settings now cache request
    forecast_request :
  keeps_cache_on_failure cache
    (get_insights validation_error db settings now cache request)
  /\ keeps_cache_on_failure cache
       (get_risk_assessment validation_error db settings cache request)
  /\ keeps_cache_on_failure cache
       (get_predictions validation_error db settings cache request)
  /\ keeps_cache_on_failure cache
       (get_health_score validation_error db settings cache request)
  /\ keeps_cache_on_failure cache
       (get_patterns validation_error db settings cache request)
  /\ keeps_cache_on_failure cache
       (get_correlations validation_error db settings cache request)
  /\ keeps_cache_on_failure cache
       (get_forecast validation_error db settings cache forecast_request).
Proof.
  unfold keeps_cache_on_failure, get_insights, get_risk_assessment,
    get_predictions, get_health_score, get_patterns, get_correlations,
    get_forecast.
  repeat split; endpoint_cases; cbn [fst snd raises];
    solve [reflexivity | discriminate].
Qed.

(** A request answered with a response leaves the cache such that the
    same request is answered with the same response again, without a look
    at the database (which may have changed, or lost the patient), for the
    risk assessment, the predictions, the health score, the patterns, the
    correlations and the forecast. *)
Theorem repeated_request_is_served_from_cache db settings cache request
    forecast_request :
  answered_from_cache
    (fun db => get_risk_assessment validation_error db settings)
    db cache request
  /\ answered_from_cache
       (fun db => get_predictions validation_error db settings)
       db cache request
  /\ answered_from_cache
       (fun db => get_health_score validation_error db settings)
       db cache request
  /\ answered_from_cache
       (fun db => get_patterns validation_error db settings)
       db cache request
  /\ answered_from_cache
       (fun db => get_correlations validation_error db settings)
       db cache request
  /\ answered_from_cache
       (fun db => get_forecast validation_error db settings)
       db cache forecast_request.
Proof.
  unfold answered_from_cache, get_risk_assessment, get_predictions,
    get_health_score, get_patterns, get_correlations, get_forecast.
  repeat split; intros response cache' H db'; revert H; endpoint_cases;
    intros H; injection H as H <-;
    try (now rewrite ?Ehit, H);
    try (now apply except_raises in H);
    subst; rewrite get_after_set.
  2: { apply predictions_nonempty in Eservice.
       destruct response; [congruence|reflexivity]. }
  all: reflexivity.
Qed.

(** The insights are served from the cache only when there are any: after
    a request answered with a list that is not empty, the same request is
    answered with that list again whatever the database holds; after one
    answered with the empty list, which is cached but counts as no entry,
    the next request runs the analysis on the database again. *)
Theorem insights_are_cached_unless_empty db settings now cache request
    insights cache' :
  get_insights validation_error db settings now cache request
  = (Return insights, cache') ->
  forall db' now',
    (insights <> [] ->
     get_insights validation_error db' settings now' cache' request
     = (Return insights, cache'))
    /\ (insights = [] ->
        AnalysisCache.get cache' (AnalysisRequest.patient_id request)
          "insights" [("days"%string, Json.JInt (days_of settings request))]
        = Some (CInsights [])
        /\ get_insights validation_error db' settings now' cache' request
           = match Insights.generate_insights db' settings now'
                     (AnalysisRequest.patient_id request)
                     (days_of settings request) with
             | Raise e => (except_ e, cache')
             | Ok insights' =>
                 (Return insights',
                  AnalysisCache.set cache'
                    (AnalysisRequest.patient_id request) "insights"
                    (CInsights insights')
                    [("days"%string, Json.JInt (days_of settings request))])
             end).
Proof.
  intros H db' now'. revert H. unfold get_insights.
  destruct (days_error request) as [e|];
    [intros H; injection H as H _; now apply except_raises in H|].
  destruct (hit (AnalysisCache.get cache _ _ _)) as [cached|] eqn:Ehit.
  - intros H. injection H as H <-. split.
    + intros _. now rewrite Ehit, H.
    + intros ->. exfalso.
      unfold hit in Ehit.
      destruct (AnalysisCache.get cache _ _ _) as [c|]; [|discriminate].
      destruct (truthy c) eqn:Et; [|discriminate].
      injection Ehit as ->. unfold from_cache in H.
      destruct cached as [l| | | | | |]; try discriminate.
      injection H as ->. discriminate.
  - destruct (Insights.generate_insights db _ _ _ _) as [l|e] eqn:Eservice.
    + intros H. injection H as -> <-. rewrite get_after_set. split.
      * intros Hne. destruct insights; [congruence|reflexivity].
      * intros ->. split; reflexivity.
    + intros H. injection H as H _. now apply except_raises in H.
Qed.

(** Every endpoint keeps the keys of the cache digests of MD5, the
    invalidation endpoint included: from the empty cache on, every key is
    the digest of a serialised request. *)
Theorem endpoints_keep_digest_keys db settings now cache request
    forecast_request patient_id :
  keys_are_digests cache ->
  keys_are_digests
    (snd (get_insights validation_error db settings now cache request))
  /\ keys_are_digests
       (snd (get_risk_assessment validation_error db settings cache request))
  /\ keys_are_digests
       (snd (get_predictions validation_error db settings cache request))
  /\ keys_are_digests
       (snd (get_health_score validation_error db settings cache request))
  /\ keys_are_digests
       (snd (get_patterns validation_error db settings cache request))
  /\ keys_are_digests
       (snd (get_correlations validation_error db settings cache request))
  /\ keys_are_digests
       (snd (get_forecast validation_error db settings cache
               forecast_request))
  /\ keys_are_digests (snd (invalidate_patient_cache cache patient_id)).
Proof.
  intros Hc.
  unfold get_insights, get_risk_assessment, get_predictions, get_health_score,
    get_patterns, get_correlations, get_forecast, invalidate_patient_cache.
  repeat split;
    try (endpoint_cases; cbn [snd];
         solve [exact Hc | apply set_keeps_digests; exact Hc]).
  cbn [snd]. apply invalidate_keeps_digests, Hc.
Qed.

(** For a patient id with a character that is no lower-case hexadecimal
    digit (the hyphen of a UUID), the invalidation endpoint has no effect
    on what the patient is served: after a risk assessment was returned,
    and the cache invalidated for the patient, the same request gets the
    same assessment again, whatever the database holds by then. *)
Theorem invalidation_keeps_cached_response db settings cache request
    assessment cache' :
  keys_are_digests cache ->
  all_hex (AnalysisRequest.patient_id request) = false ->
  get_risk_assessment validation_error db settings cache request
  = (Return assessment, cache') ->
  let invalidated :=
    snd (invalidate_patient_cache cache'
           (AnalysisRequest.patient_id request)) in
  invalidated = cache'
  /\ forall db',
       get_risk_assessment validation_error db' settings invalidated request
       = (Return assessment, cache').
Proof.
  intros Hc Hpid H invalidated.
  assert (Hc' : keys_are_digests cache').
  { revert H. unfold get_risk_assessment. endpoint_cases.
    - intros H. injection H as _ <-. exact Hc.
    - intros H. injection H as _ <-. exact Hc.
    - intros H. injection H as _ <-. apply set_keeps_digests, Hc.
    - intros H. injection H as _ <-. exact Hc. }
  assert (Ei : invalidated = cache')
    by (apply invalidate_leaves_digests; assumption).
  split; [exact Ei|]. intros db'. rewrite Ei.
  revert H. unfold get_risk_assessment. endpoint_cases.
  - intros H. injection H as H _. now apply except_raises in H.
  - intros H. injection H as H <-. now rewrite Ehit, H.
  - intros H. injection H as -> <-. now rewrite get_after_set.
  - intros H. injection H as H _. now apply except_raises in H.
Qed.

End RouterFacts.

(** The theorem at the database without the patient and the empty cache,
    for a request without a time range. *)
Lemma unknown_patient_is_404_witness :
  fetch_patient unknown_patient_db "non-existent-patient" = None
  /\ (forall analysis_type kwargs,
        AnalysisCache.get (V := Router.Cached) None "non-existent-patient"
          analysis_type kwargs = None)
  /\ Router.days_error
       {| Router.AnalysisRequest.patient_id := "non-existent-patient";
          Router.AnalysisRequest.time_range := None |} = None
  /\ Router.get_insights (fun _ => "validation error"%string)
       unknown_patient_db default_settings "now" None
       {| Router.AnalysisRequest.patient_id := "non-existent-patient";
          Router.AnalysisRequest.time_range := None |}
     = (Router.RaiseAnalysisError
          (PatientNotFoundError "non-existent-patient"), None).
Proof.
  assert (Hp : fetch_patient unknown_patient_db "non-existent-patient" = None)
    by reflexivity.
  assert (Hc : forall analysis_type kwargs,
            AnalysisCache.get (V := Router.Cached) None "non-existent-patient"
              analysis_type kwargs = None)
    by reflexivity.
  assert (Hd : Router.days_error
                 {| Router.AnalysisRequest.patient_id :=
                      "non-existent-patient";
                    Router.AnalysisRequest.time_range := None |} = None)
    by reflexivity.
  split; [exact Hp|]. split; [exact Hc|]. split; [exact Hd|].
  exact (proj1 (proj1 (unknown_patient_is_404
                         (fun _ => "validation error"%string)
                         unknown_patient_db default_settings "now" None
                         "non-existent-patient" None "systolic" 30 Hp Hc)
                  Hd)).
Defined.

(** The theorem at the high-risk patient of the test suite: the assessment
    is returned again when the patient is gone from the database. *)
Lemma repeated_request_is_served_from_cache_witness :
  exists assessment,
    let cache' :=
      AnalysisCache.set None "test-patient-id" "risk_assessment"
        (Router.CRiskAssessment assessment) [("days"%string, Json.JInt 30)] in
    Router.get_risk_assessment (fun _ => "validation error"%string)
      high_risk_db default_settings None test_request
    = (Router.Return assessment, cache')
    /\ Router.get_risk_assessment (fun _ => "validation error"%string)
         unknown_patient_db default_settings cache' test_request
       = (Router.Return assessment, cache').
Proof.
  destruct (RiskAssessment.calculate_risk_assessment high_risk_db
              default_settings "test-patient-id" 30)
    as [assessment|e] eqn:E.
  - exists assessment. intros cache'.
    assert (H : Router.get_risk_assessment
                  (fun _ => "validation error"%string) high_risk_db
                  default_settings None test_request
                = (Router.Return assessment, cache')).
    { unfold Router.get_risk_assessment.
      cbn [AnalysisCache.get Router.hit test_request
             Router.AnalysisRequest.patient_id].
      change (Router.days_of default_settings test_request) with 30%Z.
      rewrite E. reflexivity. }
    split; [exact H|].
    exact (proj1 (repeated_request_is_served_from_cache
                    (fun _ => "validation error"%string) high_risk_db
                    default_settings None test_request
                    {| Router.ForecastRequest.patient_id := "test-patient-id";
                       Router.ForecastRequest.metric := "systolic";
                       Router.ForecastRequest.forecast_days := 30 |})
             assessment cache' H unknown_patient_db).
  - vm_compute in E. discriminate.
Defined.

(** The theorem at the seven readings of [steady_db], for which there is
    no insight: the empty list is in the cache, and the next request, made
    when the patient is gone from the database, is not answered from it. *)
Lemma insights_are_cached_unless_empty_witness :
  let cache' :=
    AnalysisCache.set None "test-patient-id" "insights" (Router.CInsights [])
      [("days"%string, Json.JInt 30)] in
  Router.get_insights (fun _ => "validation error"%string) steady_db
    default_settings "now" None test_request
  = (Router.Return [], cache')
  /\ Router.get_insights (fun _ => "validation error"%string)
       unknown_patient_db default_settings "later" cache' test_request
     = (Router.RaiseAnalysisError (PatientNotFoundError "test-patient-id"),
        cache').
Proof.
  intros cache'.
  assert (E : Insights.generate_insights steady_db default_settings "now"
                "test-patient-id" 30 = Ok [])
    by (vm_compute; reflexivity).
  assert (H : Router.get_insights (fun _ => "validation error"%string)
                steady_db default_settings "now" None test_request
              = (Router.Return [], cache')).
  { unfold Router.get_insights.
    cbn [AnalysisCache.get Router.hit test_request
           Router.AnalysisRequest.patient_id].
    change (Router.days_of default_settings test_request) with 30%Z.
    rewrite E. reflexivity. }
  split; [exact H|].
  exact (proj2 (proj2 (insights_are_cached_unless_empty
                         (fun _ => "validation error"%string) steady_db
                         default_settings "now" None test_request [] cache' H
                         unknown_patient_db "later")
                  eq_refl)).
Defined.

(** The theorem at the empty cache, whose keys are digests for want of
    any. *)
Lemma endpoints_keep_digest_keys_witness :
  keys_are_digests (V := Router.Cached) None
  /\ keys_are_digests
       (snd (Router.get_risk_assessment (fun _ => "validation error"%string)
               high_risk_db default_settings None test_request)).
Proof.
  assert (Hc : keys_are_digests (V := Router.Cached) None)
    by (intros m k v Hm; discriminate Hm).
  split; [exact Hc|].
  exact (proj1 (proj2 (endpoints_keep_digest_keys
                         (fun _ => "validation error"%string) high_risk_db
                         default_settings "now" None test_request
                         {| Router.ForecastRequest.patient_id :=
                              "test-patient-id";
                            Router.ForecastRequest.metric := "systolic";
                            Router.ForecastRequest.forecast_days := 30 |}
                         "test-patient-id" Hc))).
Defined.

(** The theorem at the high-risk patient of the test suite, whose id has
    hyphens. *)
Lemma invalidation_keeps_cached_response_witness :
  keys_are_digests (V := Router.Cached) None
  /\ all_hex "test-patient-id" = false
  /\ exists assessment,
       let cache' :=
         AnalysisCache.set None "test-patient-id" "risk_assessment"
           (Router.CRiskAssessment assessment)
           [("days"%string, Json.JInt 30)] in
       Router.get_risk_assessment (fun _ => "validation error"%string)
         high_risk_db default_settings None test_request
       = (Router.Return assessment, cache')
       /\ snd (Router.invalidate_patient_cache cache' "test-patient-id")
          = cache'
       /\ Router.get_risk_assessment (fun _ => "validation error"%string)
            unknown_patient_db default_settings
            (snd (Router.invalidate_patient_cache cache' "test-patient-id"))
            test_request
          = (Router.Return assessment, cache').
Proof.
  assert (Hc : keys_are_digests (V := Router.Cached) None)
    by (intros m k v Hm; discriminate Hm).
  assert (Hp : all_hex "test-patient-id" = false) by reflexivity.
  split; [exact Hc|]. split; [exact Hp|].
  destruct (RiskAssessment.calculate_risk_assessment high_risk_db
              default_settings "test-patient-id" 30)
    as [assessment|e] eqn:E.
  - exists assessment. intros cache'.
    assert (H : Router.get_risk_assessment
                  (fun _ => "validation error"%string) high_risk_db
                  default_settings None test_request
                = (Router.Return assessment, cache')).
    { unfold Router.get_risk_assessment.
      cbn [AnalysisCache.get Router.hit test_request
             Router.AnalysisRequest.patient_id].
      change (Router.days_of default_settings test_request) with 30%Z.
      rewrite E. reflexivity. }
    pose proof (invalidation_keeps_cached_response
                  (fun _ => "validation error"%string) high_risk_db
                  default_settings None test_request assessment cache'
                  Hc Hp H) as [Hi Hr].
    split; [exact H|]. split; [exact Hi|]. exact (Hr unknown_patient_db).
  - vm_compute in E. discriminate.
Defined.
